(** * py-qgis-wps: the processing <-> WPS adapter (pyqgiswps/executors/processingio.py)

    A shallow embedding of the adapter that wraps QGIS processing algorithms
    as WPS processes: the translators of parameter and output definitions
    (description time) and the decoder of submitted values (execution time),
    together with the layer specification parser and its feature selection.

    Python strings are byte strings ([string]); the splitting functions used
    here only look for ASCII delimiters, so they act the same on the UTF-8
    encoding of a text as on its code points. *)

From Stdlib Require Import ZArith Ascii String List Bool Lia.
From stdpp Require Import base option list gmap strings pretty.

Local Open Scope string_scope.
Local Open Scope Z_scope.

(** ** Python values, exceptions and sequences *)

Module Py.

(** The values that travel through the adapter. [VQVariant] is a boxed Qt
    variant (null when it holds nothing) that the bindings left unconverted;
    [VOther] stands for any other Python object, identified by what [str()]
    prints for it. *)
#[warnings="-register-all"] Inductive value : Type :=
  | VNone
  | VBool (b : bool)
  | VInt (z : Z)
  | VStr (s : string)
  | VList (l : list value)
  | VQVariant (content : option value)
  | VOther (repr : string).

(** [str(v)] for the scalar values; the text of a list or of a variant is not
    modelled, a placeholder stands for it. *)
Definition str (v : value) : string :=
  match v with
  | VNone => "None"
  | VBool true => "True"
  | VBool false => "False"
  | VInt z => pretty z
  | VStr s => s
  | VList _ => "[...]"
  | VQVariant _ => "<QVariant>"
  | VOther r => r
  end.

(** [isinstance(v, int)]: the integer held; a [bool] is an [int] too. *)
Definition as_int (v : value) : option Z :=
  match v with
  | VInt z => Some z
  | VBool true => Some 1
  | VBool false => Some 0
  | _ => None
  end.

(** [v == s] for a string [s]. *)
Definition eq_str (v : value) (s : string) : bool :=
  match v with
  | VStr t => bool_decide (t = s)
  | _ => false
  end.

(** [l[i]] with Python's negative indices. *)
Definition getitem {A} (l : list A) (i : Z) : option A :=
  if (0 <=? i) then l !! Z.to_nat i
  else if (- Z.of_nat (length l) <=? i) then l !! Z.to_nat (Z.of_nat (length l) + i)
  else None.

(** [l.index(x)]: the position of the first element equal to [x]. *)
Fixpoint index_from {A} (eqb : A -> bool) (l : list A) (n : nat) : option nat :=
  match l with
  | [] => None
  | y :: l' => if eqb y then Some n else index_from eqb l' (S n)
  end.

Definition index {A} (eqb : A -> bool) (l : list A) : option nat :=
  index_from eqb l 0.

(** [s.find(c)] for a one-character [c]; [None] is Python's [-1]. *)
Fixpoint find (c : ascii) (s : string) : option nat :=
  match s with
  | EmptyString => None
  | String a s' => if bool_decide (a = c) then Some O else S <$> find c s'
  end.

(** [s[:n]] and [s[n:]] for [n >= 0]. *)
Fixpoint take (n : nat) (s : string) : string :=
  match n, s with
  | S n', String a s' => String a (take n' s')
  | _, _ => EmptyString
  end.

Fixpoint drop (n : nat) (s : string) : string :=
  match n, s with
  | S n', String _ s' => drop n' s'
  | _, _ => s
  end.

(** [s.find(c, start)]: an absolute position at or after [start]. *)
Definition find_at (c : ascii) (start : nat) (s : string) : option nat :=
  (fun i => (start + i)%nat) <$> find c (drop start s).

(** [s.rfind(c)]. *)
Fixpoint rfind (c : ascii) (s : string) : option nat :=
  match s with
  | EmptyString => None
  | String a s' =>
      match rfind c s' with
      | Some i => Some (S i)
      | None => if bool_decide (a = c) then Some O else None
      end
  end.

(** [c in s]. *)
Definition contains (c : ascii) (s : string) : bool :=
  match find c s with Some _ => true | None => false end.

(** [s.split(c, 1)] when [c in s]: the parts before and after the first [c]. *)
Definition split1 (c : ascii) (s : string) : option (string * string) :=
  (fun i => (take i s, drop (S i) s)) <$> find c s.

(** [s.split(c)]: always at least one part. *)
Fixpoint split (c : ascii) (s : string) : list string :=
  match s with
  | EmptyString => [EmptyString]
  | String a s' =>
      if bool_decide (a = c) then EmptyString :: split c s'
      else match split c s' with
           | p :: ps => String a p :: ps
           | [] => [String a EmptyString]
           end
  end.

(** [s.replace(a, b)] for one-character [a] and [b]. *)
Fixpoint replace (a b : ascii) (s : string) : string :=
  match s with
  | EmptyString => EmptyString
  | String c s' => String (if bool_decide (c = a) then b else c) (replace a b s')
  end.

(** [sep.join(parts)]. *)
Fixpoint join (sep : string) (parts : list string) : string :=
  match parts with
  | [] => EmptyString
  | [p] => p
  | p :: ps => p +:+ sep +:+ join sep ps
  end.

(** [s.startswith(p)] and [s.endswith(p)]. *)
Fixpoint startswith (p s : string) : bool :=
  match p, s with
  | EmptyString, _ => true
  | String a p', String b s' => bool_decide (a = b) && startswith p' s'
  | String _ _, EmptyString => false
  end.

Definition endswith (p s : string) : bool :=
  bool_decide (drop (String.length s - String.length p) s = p).

(** [all(f(c) for c in s)]. *)
Fixpoint all_chars (f : ascii -> bool) (s : string) : bool :=
  match s with
  | EmptyString => true
  | String a s' => f a && all_chars f s'
  end.

Definition is_upper (c : ascii) : bool :=
  let n := nat_of_ascii c in ((65 <=? n) && (n <=? 90))%nat.
Definition is_lower (c : ascii) : bool :=
  let n := nat_of_ascii c in ((97 <=? n) && (n <=? 122))%nat.
Definition is_digit (c : ascii) : bool :=
  let n := nat_of_ascii c in ((48 <=? n) && (n <=? 57))%nat.

Definition lower_char (c : ascii) : ascii :=
  if is_upper c then ascii_of_nat (nat_of_ascii c + 32) else c.

(** [s.lower()] on ASCII letters, the only ones a URL scheme may hold. *)
Fixpoint lower (s : string) : string :=
  match s with
  | EmptyString => EmptyString
  | String a s' => String (lower_char a) (lower s')
  end.

End Py.

(** Exceptions raised by the adapter or by the Python operations it uses.
    [OutsideModel] is not a Python exception: it ends a computation that has
    left what this development models. *)
Inductive Exception : Type :=
  | InvalidParameterValue (msg : string)
  | NoApplicableCode (msg : string)
  | ProcessingInputTypeNotSupported (msg : string)
  | ProcessingOutputTypeNotSupported (typ : string)
  | IndexError
  | ValueError
  | KeyError
  | TypeError
  | AttributeError
  | OutsideModel (what : string).

(** ** urllib.parse

    [urlparse] and [parse_qs] as in the CPython of the adapter's time (3.6 to
    3.8): a scheme followed by digits only is read as a path with a port, and
    ";" separates the fields of a query as "&" does. *)

Module urllib.

Record ParseResult : Type := mkParseResult {
  scheme : string;
  netloc : string;
  path : string;
  params : string;
  query : string;
  fragment : string
}.

Definition uses_params : list string :=
  [EmptyString; "ftp"; "hdl"; "prospero"; "http"; "imap"; "https"; "shttp"; "rtsp";
   "rtspu"; "sip"; "sips"; "mms"; "sftp"; "tel"].

(** letters, digits and "+-." *)
Definition scheme_char (c : ascii) : bool :=
  Py.is_lower c || Py.is_upper c || Py.is_digit c
  || bool_decide (c = "+"%char) || bool_decide (c = "-"%char)
  || bool_decide (c = "."%char).

Definition min_opt (d : nat) (o : option nat) : nat :=
  match o with Some w => Nat.min d w | None => d end.

(** [_splitnetloc(url, start)]: the domain runs to the first of "/?#". *)
Definition _splitnetloc (url : string) (start : nat) : string * string :=
  let delim := String.length url in
  let delim := min_opt delim (Py.find_at "/" start url) in
  let delim := min_opt delim (Py.find_at "?" start url) in
  let delim := min_opt delim (Py.find_at "#" start url) in
  (Py.drop start (Py.take delim url), Py.drop delim url).

(** The part of [urlsplit] after the scheme has been cut off. *)
Definition split_rest (scheme url : string) : Exception + ParseResult :=
  let '(netloc, url) :=
    if bool_decide (Py.take 2 url = "//") then _splitnetloc url 2
    else (EmptyString, url) in
  if (Py.contains "[" netloc && negb (Py.contains "]" netloc))
     || (Py.contains "]" netloc && negb (Py.contains "[" netloc))
  then inl ValueError
  else
    let '(url, fragment) :=
      match Py.split1 "#" url with Some uf => uf | None => (url, EmptyString) end in
    let '(url, query) :=
      match Py.split1 "?" url with Some uq => uq | None => (url, EmptyString) end in
    inr (mkParseResult scheme netloc url EmptyString query fragment).

(** [urlsplit(url)] with the default empty scheme and fragments allowed. *)
Definition urlsplit (url : string) : Exception + ParseResult :=
  match Py.find ":" url with
  | Some (S i') =>
      let i := S i' in
      if bool_decide (Py.take i url = "http") then
        split_rest (Py.lower (Py.take i url)) (Py.drop (S i) url)
      else if Py.all_chars scheme_char (Py.take i url) then
        let rest := Py.drop (S i) url in
        if bool_decide (rest = EmptyString) || negb (Py.all_chars Py.is_digit rest)
        then split_rest (Py.lower (Py.take i url)) rest
        else split_rest EmptyString url
      else split_rest EmptyString url
  | _ => split_rest EmptyString url
  end.

(** [_splitparams(url)] *)
Definition _splitparams (url : string) : string * string :=
  let cut (i : nat) := (Py.take i url, Py.drop (S i) url) in
  match Py.rfind "/" url with
  | Some r =>
      match Py.find_at ";" r url with
      | Some i => cut i
      | None => (url, EmptyString)
      end
  | None =>
      (* [i = -1]: [url[:-1]] drops the last character and [url[0:]] is [url];
         unreachable, the caller has checked that ";" is in [url]. *)
      match Py.find ";" url with
      | Some i => cut i
      | None => (Py.take (String.length url - 1) url, url)
      end
  end.

Definition urlparse (url : string) : Exception + ParseResult :=
  match urlsplit url with
  | inl e => inl e
  | inr r =>
      if bool_decide (scheme r ∈ uses_params) && Py.contains ";" (path r) then
        let '(url', params') := _splitparams (path r) in
        inr (mkParseResult (scheme r) (netloc r) url' params' (query r) (fragment r))
      else inr r
  end.


(** [parse_qs(qs)]: the fields of a query string, in order of first
    appearance, each with the list of its values. Fields are separated by
    "&" or ";", blank values are dropped, "+" stands for a space and names and
    values are percent-decoded by [unquote]. *)
Section parse_qs.

Variable unquote : string -> string.

Definition parse_qsl (qs : string) : list (string * string) :=
  let pairs := concat (Py.split ";" <$> Py.split "&" qs) in
  omap (fun name_value =>
          match Py.split1 "=" name_value with
          | Some (n, v) =>
              if bool_decide (v = EmptyString) then None
              else Some (unquote (Py.replace "+" " " n), unquote (Py.replace "+" " " v))
          | None => None
          end) pairs.

Fixpoint dict_append (name value : string) (d : list (string * list string))
  : list (string * list string) :=
  match d with
  | [] => [(name, [value])]
  | (k, vs) :: d' =>
      if bool_decide (k = name) then (k, (vs ++ [value])%list) :: d'
      else (k, vs) :: dict_append name value d'
  end.

Definition parse_qs (qs : string) : list (string * list string) :=
  fold_left (fun d nv => dict_append nv.1 nv.2 d) (parse_qsl qs) [].

End parse_qs.

(** [d.get(key, [])] *)
Fixpoint dict_get (key : string) (d : list (string * list string)) : list string :=
  match d with
  | [] => []
  | (k, vs) :: d' => if bool_decide (k = key) then vs else dict_get key d'
  end.

End urllib.

(** ** os.path (POSIX) *)

Module os_path.

(** The loop of [normpath] over the components, [new_comps] kept reversed. *)
Fixpoint normpath_comps (initial_slashes : nat) (comps new_comps : list string)
  : list string :=
  match comps with
  | [] => rev new_comps
  | comp :: comps' =>
      if bool_decide (comp = EmptyString) || bool_decide (comp = ".") then
        normpath_comps initial_slashes comps' new_comps
      else if negb (bool_decide (comp = ".."))
              || (bool_decide (initial_slashes = O) && bool_decide (new_comps = []))
              || match new_comps with
                 | last :: _ => bool_decide (last = "..")
                 | [] => false
                 end
      then normpath_comps initial_slashes comps' (comp :: new_comps)
      else match new_comps with
           | _ :: popped => normpath_comps initial_slashes comps' popped
           | [] => normpath_comps initial_slashes comps' new_comps
           end
  end.

Fixpoint slashes (n : nat) : string :=
  match n with O => EmptyString | S n' => "/" +:+ slashes n' end.

Definition normpath (path : string) : string :=
  if bool_decide (path = EmptyString) then "."
  else
    let initial_slashes :=
      if Py.startswith "/" path then
        if Py.startswith "//" path && negb (Py.startswith "///" path) then 2%nat
        else 1%nat
      else O in
    let comps := normpath_comps initial_slashes (Py.split "/" path) [] in
    let path := slashes initial_slashes +:+ Py.join "/" comps in
    if bool_decide (path = EmptyString) then "." else path.

Definition basename (p : string) : string :=
  match Py.rfind "/" p with
  | Some i => Py.drop (S i) p
  | None => p
  end.

End os_path.

(** ** The QGIS side: layers, parameter and output definitions *)

Module Qgs.

Inductive LayerType : Type := VectorLayer | RasterLayer | PluginLayer | MeshLayer.

Inductive GeometryType : Type :=
  PointGeometry | LineGeometry | PolygonGeometry | UnknownGeometry | NullGeometry.

(** [QgsProcessing.SourceType]; [TypeOther] is any value the adapter has no
    name for. *)
Inductive SourceType : Type :=
  | TypeMapLayer | TypeVectorAnyGeometry | TypeVectorPoint | TypeVectorLine
  | TypeVectorPolygon | TypeRaster | TypeFile | TypeVector | TypeOther.

Inductive SelectBehavior : Type :=
  SetSelection | AddToSelection | IntersectSelection | RemoveFromSelection.

#[global] Instance LayerType_eq_dec : EqDecision LayerType.
Proof. solve_decision. Defined.
#[global] Instance GeometryType_eq_dec : EqDecision GeometryType.
Proof. solve_decision. Defined.
#[global] Instance SourceType_eq_dec : EqDecision SourceType.
Proof. solve_decision. Defined.

(** A rectangle, by its corners, as the constructor builds it from four
    numbers; the model keeps whole coordinates only, and computes nothing
    with them. *)
Inductive QgsRectangle : Type := Rectangle (xMin yMin xMax yMax : Z).

#[global] Instance QgsRectangle_eq_dec : EqDecision QgsRectangle.
Proof. solve_decision. Defined.

(** [QgsRectangle(coords)], called with one list for argument as
    [parse_layer_spec] calls it. The constructor of the binding takes no
    argument, one to four numbers, two points, a [QRectF] or a rectangle
    ([input_to_extent] gives it four numbers): a list is none of these,
    whatever it holds, and the call raises [TypeError]. *)
Definition QgsRectangle_new (coords : list string) : Exception + QgsRectangle :=
  inl TypeError.

(** A live layer of the project. [features_in_rect] and [features_matching]
    are the layer's answers to a rectangle and to an expression request;
    [None] stands for an exception raised while running the request.
    [selectedFeatureIds] is the layer's current selection. *)
Record QgsMapLayer : Type := mkLayer {
  layer_name : string;
  layer_type : LayerType;
  geometryType : GeometryType;
  features_in_rect : QgsRectangle -> option (gset N);
  features_matching : string -> option (gset N);
  selectedFeatureIds : gset N
}.

Definition set_selection (ids : gset N) (l : QgsMapLayer) : QgsMapLayer :=
  mkLayer (layer_name l) (layer_type l) (geometryType l)
          (features_in_rect l) (features_matching l) ids.

(** [QgsVectorLayer.selectByIds]: the features found replace, extend, narrow
    or reduce the current selection, as the behavior says. *)
Definition selectByIds (ids : gset N) (behavior : SelectBehavior) (l : QgsMapLayer)
  : QgsMapLayer :=
  match behavior with
  | SetSelection => set_selection ids l
  | AddToSelection => set_selection (selectedFeatureIds l ∪ ids) l
  | IntersectSelection => set_selection (selectedFeatureIds l ∩ ids) l
  | RemoveFromSelection => set_selection (selectedFeatureIds l ∖ ids) l
  end.

Definition selectByRect (rect : QgsRectangle) (behavior : SelectBehavior)
    (l : QgsMapLayer) : option QgsMapLayer :=
  (fun ids => selectByIds ids behavior l) <$> features_in_rect l rect.

Definition selectByExpression (expression : string) (behavior : SelectBehavior)
    (l : QgsMapLayer) : option QgsMapLayer :=
  (fun ids => selectByIds ids behavior l) <$> features_matching l expression.

(** The classes of parameter definition the adapter tests with [isinstance];
    every other class is a [QgsProcessingParameterDefinition] with its name. *)
Inductive ParameterClass : Type :=
  | QgsProcessingParameterNumber
  | QgsProcessingParameterMapLayer
  | QgsProcessingParameterRasterLayer
  | QgsProcessingParameterVectorLayer
  | QgsProcessingParameterFeatureSource
  | QgsProcessingParameterFeatureSink
  | QgsProcessingParameterVectorDestination
  | QgsProcessingParameterRasterDestination
  | QgsProcessingParameterFileDestination
  | QgsProcessingParameterFile
  | QgsProcessingParameterField
  | QgsProcessingParameterMultipleLayers
  | QgsProcessingParameterPoint
  | QgsProcessingParameterDefinition (class_name : string).

#[global] Instance ParameterClass_eq_dec : EqDecision ParameterClass.
Proof. solve_decision. Defined.

(** The qualified name that [type(param)] prints. *)
Definition parameter_class_name (c : ParameterClass) : string :=
  match c with
  | QgsProcessingParameterNumber => "qgis._core.QgsProcessingParameterNumber"
  | QgsProcessingParameterMapLayer => "qgis._core.QgsProcessingParameterMapLayer"
  | QgsProcessingParameterRasterLayer => "qgis._core.QgsProcessingParameterRasterLayer"
  | QgsProcessingParameterVectorLayer => "qgis._core.QgsProcessingParameterVectorLayer"
  | QgsProcessingParameterFeatureSource => "qgis._core.QgsProcessingParameterFeatureSource"
  | QgsProcessingParameterFeatureSink => "qgis._core.QgsProcessingParameterFeatureSink"
  | QgsProcessingParameterVectorDestination => "qgis._core.QgsProcessingParameterVectorDestination"
  | QgsProcessingParameterRasterDestination => "qgis._core.QgsProcessingParameterRasterDestination"
  | QgsProcessingParameterFileDestination => "qgis._core.QgsProcessingParameterFileDestination"
  | QgsProcessingParameterFile => "qgis._core.QgsProcessingParameterFile"
  | QgsProcessingParameterField => "qgis._core.QgsProcessingParameterField"
  | QgsProcessingParameterMultipleLayers => "qgis._core.QgsProcessingParameterMultipleLayers"
  | QgsProcessingParameterPoint => "qgis._core.QgsProcessingParameterPoint"
  | QgsProcessingParameterDefinition n => n
  end.

Inductive FileBehavior : Type := File | Folder.

(** [QgsProcessingParameterDefinition.FlagOptional] *)
Definition FlagOptional : Z := 8.

(** [QgsProcessingParameterNumber.Integer], [.Double] *)
Definition Number_Integer : Z := 0.
Definition Number_Double : Z := 1.

(** [QgsProcessingParameterField.Any], [.Numeric], [.String], [.DateTime] *)
Definition Field_Any : Z := -1.
Definition Field_Numeric : Z := 0.
Definition Field_String : Z := 1.
Definition Field_DateTime : Z := 2.

(** The classes of output definition the adapter tests with [isinstance]. *)
Inductive OutputClass : Type :=
  | QgsProcessingOutputVectorLayer
  | QgsProcessingOutputRasterLayer
  | QgsProcessingOutputHtml
  | QgsProcessingOutputFile
  | QgsProcessingOutputDefinition (class_name : string).

#[global] Instance OutputClass_eq_dec : EqDecision OutputClass.
Proof. solve_decision. Defined.

End Qgs.

(** A parameter definition: its class, and what its accessors return.
    [dataTypes] is [Some] exactly for an instance of
    [QgsProcessingParameterLimitedDataTypes]. [supportsNonFileBasedOutput]
    is the one attribute the adapter writes. *)
Module Param.
Record t : Type := mk {
  cls : Qgs.ParameterClass;
  type : string;
  name : string;
  description : string;
  flags : Z;
  defaultValue : Py.value;
  metadata : list (string * Py.value);
  options : list string;
  allowMultiple : bool;
  dataType : Z;
  minimum : Py.value;
  maximum : Py.value;
  parentLayerParameterName : string;
  behavior : Qgs.FileBehavior;
  extension : string;
  defaultFileExtension : string;
  dataTypes : option (list Qgs.SourceType);
  layerType : Qgs.SourceType;
  minimumNumberInputs : Z;
  supportsNonFileBasedOutput : bool
}.

Definition setSupportsNonFileBasedOutput (b : bool) (p : t) : t :=
  mk (cls p) (type p) (name p) (description p) (flags p) (defaultValue p)
     (metadata p) (options p) (allowMultiple p) (dataType p) (minimum p)
     (maximum p) (parentLayerParameterName p) (behavior p) (extension p)
     (defaultFileExtension p) (dataTypes p) (layerType p)
     (minimumNumberInputs p) b.
End Param.

(** An output definition. *)
Module Output.
Record t : Type := mk {
  cls : Qgs.OutputClass;
  type : string;
  name : string;
  description : string
}.
End Output.

(** [isinstance(x, classes)] for a tuple of classes. *)
Definition isinstance {C} `{EqDecision C} (c : C) (classes : list C) : bool :=
  bool_decide (c ∈ classes).

Definition DESTINATION_LAYER_TYPES : list Qgs.ParameterClass :=
  [Qgs.QgsProcessingParameterFeatureSink;
   Qgs.QgsProcessingParameterVectorDestination;
   Qgs.QgsProcessingParameterRasterDestination].

Definition OUTPUT_LAYER_TYPES : list Qgs.OutputClass :=
  [Qgs.QgsProcessingOutputVectorLayer; Qgs.QgsProcessingOutputRasterLayer].

Definition INPUT_VECTOR_LAYER_TYPES : list Qgs.ParameterClass :=
  [Qgs.QgsProcessingParameterVectorLayer; Qgs.QgsProcessingParameterFeatureSource].
Definition INPUT_RASTER_LAYER_TYPES : list Qgs.ParameterClass :=
  [Qgs.QgsProcessingParameterRasterLayer].
Definition INPUT_OTHER_LAYER_TYPES : list Qgs.ParameterClass :=
  [Qgs.QgsProcessingParameterMapLayer; Qgs.QgsProcessingParameterMultipleLayers].

Definition INPUT_LAYER_TYPES : list Qgs.ParameterClass :=
  INPUT_VECTOR_LAYER_TYPES ++ INPUT_RASTER_LAYER_TYPES ++ INPUT_OTHER_LAYER_TYPES.

(** The names of the source types; a type without a name is a [KeyError]. *)
Definition SourceTypes (t : Qgs.SourceType) : option string :=
  match t with
  | Qgs.TypeMapLayer => Some "TypeMapLayer"
  | Qgs.TypeVectorAnyGeometry => Some "TypeVectorAnyGeometry"
  | Qgs.TypeVectorPoint => Some "TypeVectorPoint"
  | Qgs.TypeVectorLine => Some "TypeVectorLine"
  | Qgs.TypeVectorPolygon => Some "TypeVectorPolygon"
  | Qgs.TypeRaster => Some "TypeRaster"
  | Qgs.TypeFile => Some "TypeFile"
  | Qgs.TypeVector => Some "TypeVector"
  | Qgs.TypeOther => None
  end.

Definition _is_optional (param : Param.t) : bool :=
  negb (Z.land (Param.flags param) Qgs.FlagOptional =? 0).

(** ** The WPS side: the keyword arguments of the input and output constructors

    A field is [None] when the key is not passed, in which case the
    constructor's own default applies. *)

Module WPS.

(** [Metadata(title, href)] *)
Definition Metadata : Type := string * string.

Inductive FORMATS : Type := GEOJSON | GML.

(** [Format(mime_type)] and [Format.from_definition(definition)] *)
Inductive Format : Type :=
  | Format_new (mime_type : option string)
  | from_definition (definition : FORMATS).

Inductive AllowedValues : Type :=
  | Values (names : list string)
  | Ranges (intervals : list (Py.value * Py.value)).

Record input_kwargs : Type := mk_input {
  identifier : string;
  title : string;
  abstract : string;
  metadata : list Metadata;
  default : Py.value;
  min_occurs : option Z;
  max_occurs : option Z;
  data_type : option string;
  allowed_values : option AllowedValues;
  supported_formats : option (list Format);
  crss : option (list string)
}.

Definition set_metadata (v : list Metadata) (k : input_kwargs) : input_kwargs :=
  mk_input (identifier k) (title k) (abstract k) v (default k) (min_occurs k)
    (max_occurs k) (data_type k) (allowed_values k) (supported_formats k) (crss k).
Definition set_default (v : Py.value) (k : input_kwargs) : input_kwargs :=
  mk_input (identifier k) (title k) (abstract k) (metadata k) v (min_occurs k)
    (max_occurs k) (data_type k) (allowed_values k) (supported_formats k) (crss k).
Definition set_min_occurs (v : Z) (k : input_kwargs) : input_kwargs :=
  mk_input (identifier k) (title k) (abstract k) (metadata k) (default k) (Some v)
    (max_occurs k) (data_type k) (allowed_values k) (supported_formats k) (crss k).
Definition set_max_occurs (v : Z) (k : input_kwargs) : input_kwargs :=
  mk_input (identifier k) (title k) (abstract k) (metadata k) (default k)
    (min_occurs k) (Some v) (data_type k) (allowed_values k) (supported_formats k)
    (crss k).
Definition set_data_type (v : string) (k : input_kwargs) : input_kwargs :=
  mk_input (identifier k) (title k) (abstract k) (metadata k) (default k)
    (min_occurs k) (max_occurs k) (Some v) (allowed_values k) (supported_formats k)
    (crss k).
Definition set_allowed_values (v : AllowedValues) (k : input_kwargs) : input_kwargs :=
  mk_input (identifier k) (title k) (abstract k) (metadata k) (default k)
    (min_occurs k) (max_occurs k) (data_type k) (Some v) (supported_formats k)
    (crss k).
Definition set_supported_formats (v : list Format) (k : input_kwargs) : input_kwargs :=
  mk_input (identifier k) (title k) (abstract k) (metadata k) (default k)
    (min_occurs k) (max_occurs k) (data_type k) (allowed_values k) (Some v) (crss k).
Definition set_crss (v : list string) (k : input_kwargs) : input_kwargs :=
  mk_input (identifier k) (title k) (abstract k) (metadata k) (default k)
    (min_occurs k) (max_occurs k) (data_type k) (allowed_values k)
    (supported_formats k) (Some v).

(** [kwargs['metadata'].append(m)] *)
Definition append_metadata (m : Metadata) (k : input_kwargs) : input_kwargs :=
  set_metadata (metadata k ++ [m])%list k.

Inductive WPSInput : Type :=
  | LiteralInput (kwargs : input_kwargs)
  | ComplexInput (kwargs : input_kwargs)
  | BoundingBoxInput (kwargs : input_kwargs).

Definition input_kwargs_of (inp : WPSInput) : input_kwargs :=
  match inp with
  | LiteralInput k | ComplexInput k | BoundingBoxInput k => k
  end.

Definition with_kwargs (f : input_kwargs -> input_kwargs) (inp : WPSInput) : WPSInput :=
  match inp with
  | LiteralInput k => LiteralInput (f k)
  | ComplexInput k => ComplexInput (f k)
  | BoundingBoxInput k => BoundingBoxInput (f k)
  end.

(** Modelled from the spec: the input constructors (pyqgiswps.inout) are not
    in the sources at hand; the spec gives 1 as the minimum number of
    occurrences of an input built without one. *)
Definition input_min_occurs (inp : WPSInput) : Z :=
  match min_occurs (input_kwargs_of inp) with
  | Some n => n
  | None => 1
  end.

Record output_kwargs : Type := mk_output {
  out_identifier : string;
  out_title : string;
  out_abstract : string;
  out_data_type : option string;
  out_supported_formats : option (list Format);
  as_reference : option Py.value
}.

Inductive WPSOutput : Type :=
  | LiteralOutput (kwargs : output_kwargs)
  | ComplexOutput (kwargs : output_kwargs)
  | BoundingBoxOutput (kwargs : output_kwargs).

Definition output_kwargs_of (out : WPSOutput) : output_kwargs :=
  match out with
  | LiteralOutput k | ComplexOutput k | BoundingBoxOutput k => k
  end.

End WPS.

(** The project of a map context: [context.project().mapLayers().values()]. *)
Record MapContext : Type := { mapLayers : list Qgs.QgsMapLayer }.

(** ** Exceptions as results *)

Definition result (A : Type) : Type := Exception + A.

Definition rbind {A B} (r : result A) (f : A -> result B) : result B :=
  match r with
  | inl e => inl e
  | inr a => f a
  end.

(** [d[key]] on a table: a missing key is a [KeyError]. *)
Definition lookup_or_KeyError {A} (o : option A) : result A :=
  match o with Some a => inr a | None => inl KeyError end.

(** [l[i]] on a list: a position out of range is an [IndexError]. *)
Definition getitem_or_IndexError {A} (l : list A) (i : Z) : result A :=
  match Py.getitem l i with Some a => inr a | None => inl IndexError end.

(** [a or b] on the results of two matchers: an input object is true, so
    [b] runs only when [a] returned [None]. *)
Definition or_else {A} (a : result (option A)) (b : unit -> result (option A))
  : result (option A) :=
  match a with
  | inl e => inl e
  | inr (Some x) => inr (Some x)
  | inr None => b tt
  end.

Notation "'let*' x := r 'in' k" := (rbind r (fun x => k))
  (at level 10, x pattern, r at level 100, k at level 200).

(** ** The live objects and the log

    The decoder writes to the parameter definitions of the algorithm
    ([setSupportsNonFileBasedOutput]) and to the layers of the project (their
    selection), and it logs. All three are kept in a store that every
    operation threads; an exception leaves the store as it was when raised. *)

Inductive Level : Type := DEBUG | WARNING | ERROR.

Inductive LogArg : Type :=
  | AStr (s : string)
  | AUrl (u : urllib.ParseResult)
  | ADict (d : list (string * list string)).

Record LogRecord : Type := mkLog {
  levelname : Level;
  msg : string;
  args : list LogArg
}.

(** Modelled from the spec: the processing context (processingcontext.py) is
    not in the sources at hand. The spec gives it a working directory, a path
    resolution rule, a destination-project handle and a live layer lookup by
    name or path; the lookup is the [layers] table of the store. *)
Record ProcessingContext : Type := mkContext {
  workdir : string;
  resolve_path : string -> result string;
  destination_project : string
}.

Record Store : Type := mkStore {
  parameters : gmap string Param.t;
  layers : gmap string Qgs.QgsMapLayer;
  LOGGER : list LogRecord
}.

Definition M (A : Type) : Type := Store -> result A * Store.

Definition ret {A} (a : A) : M A := fun st => (inr a, st).
Definition raise {A} (e : Exception) : M A := fun st => (inl e, st).
Definition bind {A B} (m : M A) (f : A -> M B) : M B :=
  fun st =>
    match m st with
    | (inl e, st') => (inl e, st')
    | (inr a, st') => f a st'
    end.
Definition lift {A} (r : result A) : M A := fun st => (r, st).

Notation "'let!' x := m 'in' k" := (bind m (fun x => k))
  (at level 10, x pattern, m at level 100, k at level 200).
Notation "m ;; k" := (bind m (fun _ => k))
  (at level 100, k at level 200, right associativity).

Definition log (lvl : Level) (fmt : string) (a : list LogArg) : M unit :=
  fun st =>
    (inr tt, mkStore (parameters st) (layers st) (LOGGER st ++ [mkLog lvl fmt a])).

(** [alg.parameterDefinition(name)]: the definition, or [None]. *)
Definition parameterDefinition (name : string) : M (option Param.t) :=
  fun st => (inr (parameters st !! name), st).

(** A write to the definition registered under [name]. *)
Definition update_parameter (name : string) (p : Param.t) : M unit :=
  fun st => (inr tt, mkStore (<[name := p]> (parameters st)) (layers st) (LOGGER st)).

(** [context.getMapLayer(p)]: the live layer, or [None]. *)
Definition getMapLayer (p : string) : M (option Qgs.QgsMapLayer) :=
  fun st => (inr (layers st !! p), st).

(** A write to the live layer known as [p]. *)
Definition update_layer (p : string) (l : Qgs.QgsMapLayer) : M unit :=
  fun st => (inr tt, mkStore (parameters st) (<[p := l]> (layers st)) (LOGGER st)).

(** [a or b] on the results of two matchers that may log. *)
Definition or_elseM {A} (a : M (option A)) (b : M (option A)) : M (option A) :=
  let! x := a in
  match x with
  | Some v => ret (Some v)
  | None => b
  end.

Import WPS.

(** ** Inputs converters *)

Section Translators.

(** [mimetypes.types_map.get]: the host's table from file extensions to MIME
    types. *)
Variable types_map : string -> option string.

(** [confservice.getboolean(section, option)] *)
Variable confservice_getboolean : string -> string -> bool.

(** The default of an enum: processing holds the index (or a list of
    indices), the advertised default is the option at that index. *)
Definition enum_default (options : list string) (default_value : Py.value)
    (kwargs : input_kwargs) : result input_kwargs :=
  match default_value with
  | Py.VNone => inr kwargs
  | Py.VList l =>
      let* first := getitem_or_IndexError l 0 in
      match Py.as_int first with
      | Some i =>
          let* opt := getitem_or_IndexError options i in
          inr (set_default (Py.VStr opt) kwargs)
      | None => inl TypeError
      end
  | v =>
      match Py.as_int v with
      | Some i =>
          let* opt := getitem_or_IndexError options i in
          inr (set_default (Py.VStr opt) kwargs)
      | None =>
          inl (InvalidParameterValue ("Unsupported default value: " +:+ Py.str v))
      end
  end.

Definition parse_literal_input (param : Param.t) (kwargs : input_kwargs)
  : result (option WPSInput) :=
  let typ := Param.type param in
  if bool_decide (typ = "string") then
    inr (Some (LiteralInput (set_data_type "string" kwargs)))
  else if bool_decide (typ = "boolean") then
    inr (Some (LiteralInput (set_data_type "boolean" kwargs)))
  else if bool_decide (typ = "enum") then
    let options := Param.options param in
    let kwargs := set_data_type "string" kwargs in
    let kwargs := set_allowed_values (Values options) kwargs in
    let kwargs :=
      set_max_occurs (if Param.allowMultiple param
                      then Z.of_nat (length options) else 1) kwargs in
    let* kwargs := enum_default options (Param.defaultValue param) kwargs in
    inr (Some (LiteralInput kwargs))
  else if bool_decide (typ = "number") then
    let* data_type :=
      lookup_or_KeyError
        (if bool_decide (Param.dataType param = Qgs.Number_Double) then Some "float"
         else if bool_decide (Param.dataType param = Qgs.Number_Integer)
              then Some "integer" else None) in
    let kwargs := set_data_type data_type kwargs in
    let kwargs :=
      set_allowed_values
        (Ranges [(Param.minimum param, Param.maximum param)]) kwargs in
    inr (Some (LiteralInput kwargs))
  else if bool_decide (typ = "field") then
    let kwargs := set_data_type "string" kwargs in
    let kwargs :=
      append_metadata ("processing:parentLayerParameterName",
                       Param.parentLayerParameterName param) kwargs in
    let* data_type :=
      lookup_or_KeyError
        (if bool_decide (Param.dataType param = Qgs.Field_Any) then Some "Any"
         else if bool_decide (Param.dataType param = Qgs.Field_Numeric)
              then Some "Numeric"
         else if bool_decide (Param.dataType param = Qgs.Field_String)
              then Some "String"
         else if bool_decide (Param.dataType param = Qgs.Field_DateTime)
              then Some "DateTime" else None) in
    inr (Some (LiteralInput (append_metadata ("processing:dataType", data_type) kwargs)))
  else if bool_decide (typ = "crs") then
    inr (Some (LiteralInput (set_data_type "string" kwargs)))
  else if bool_decide (typ = "band") then
    inr (Some (LiteralInput (set_data_type "nonNegativeInteger" kwargs)))
  else inr None.

Definition parse_file_input (param : Param.t) (kwargs : input_kwargs)
  : result (option WPSInput) :=
  let typ := Param.type param in
  if bool_decide (typ = "file") then
    match Param.behavior param with
    | Qgs.Folder => inr (Some (LiteralInput (set_data_type "string" kwargs)))
    | Qgs.File =>
        let ext := Param.extension param in
        let kwargs :=
          if bool_decide (ext = EmptyString) then kwargs
          else
            let kwargs :=
              match types_map ext with
              | Some mime => set_supported_formats [Format_new (Some mime)] kwargs
              | None => kwargs
              end in
            append_metadata ("processing:extension", ext) kwargs in
        inr (Some (ComplexInput kwargs))
    end
  else if bool_decide (typ = "fileDestination") then
    let extension := "." +:+ Param.defaultFileExtension param in
    let kwargs := set_data_type "string" kwargs in
    let mime := match types_map extension with Some m => m | None => EmptyString end in
    inr (Some (LiteralInput (append_metadata ("processing:format", mime) kwargs)))
  else if bool_decide (typ = "folderDestination") then
    inr (Some (LiteralInput (set_data_type "string" kwargs)))
  else inr None.

(** Freeform metadata *)
Definition parse_metadata (param : Param.t) (kwargs : input_kwargs) : input_kwargs :=
  set_metadata
    (metadata kwargs
     ++ ((fun kv => ("processing:meta:" +:+ kv.1, Py.str kv.2)) <$> Param.metadata param))%list
    kwargs.

Definition _is_allowed (datatypes : list Qgs.SourceType) (lyr : Qgs.QgsMapLayer) : bool :=
  let has t := bool_decide (t ∈ datatypes) in
  match Qgs.layer_type lyr with
  | Qgs.VectorLayer =>
      let geomtype := Qgs.geometryType lyr in
      (bool_decide (geomtype = Qgs.PointGeometry) && has Qgs.TypeVectorPoint)
      || (bool_decide (geomtype = Qgs.LineGeometry) && has Qgs.TypeVectorLine)
      || (bool_decide (geomtype = Qgs.PolygonGeometry) && has Qgs.TypeVectorPolygon)
      || has Qgs.TypeVectorAnyGeometry
      || has Qgs.TypeVector
      || has Qgs.TypeMapLayer
  | Qgs.RasterLayer => has Qgs.TypeRaster || has Qgs.TypeMapLayer
  | _ => false
  end.

(** Candidate layers according to datatypes *)
Definition parse_allowed_layers (param : Param.t) (kwargs : input_kwargs)
    (context : option MapContext) : result input_kwargs :=
  let typ := Param.type param in
  let kwargs :=
    if bool_decide (typ = "multilayer") then
      let num_inputs := Param.minimumNumberInputs param in
      let kwargs := set_min_occurs (if 1 <=? num_inputs then num_inputs else 0) kwargs in
      set_max_occurs 20 kwargs
    else kwargs in
  let datatypes :=
    match Param.dataTypes param with Some ts => ts | None => [] end in
  let datatypes :=
    match datatypes with
    | _ :: _ => datatypes
    | [] =>
        if isinstance (Param.cls param) INPUT_VECTOR_LAYER_TYPES then [Qgs.TypeVector]
        else if isinstance (Param.cls param) INPUT_RASTER_LAYER_TYPES then [Qgs.TypeRaster]
        else if isinstance (Param.cls param) [Qgs.QgsProcessingParameterMultipleLayers]
             then [Param.layerType param]
        else [Qgs.TypeMapLayer]
    end in
  let* names := lookup_or_KeyError (mapM SourceTypes datatypes) in
  let kwargs := append_metadata ("processing:dataTypes", Py.join "," names) kwargs in
  match context with
  | None => inr kwargs
  | Some context =>
      let allowed :=
        Qgs.layer_name <$> filter (fun lyr => _is_allowed datatypes lyr = true)
                                   (mapLayers context) in
      let kwargs := set_allowed_values (Values allowed) kwargs in
      inr (if bool_decide (typ = "multilayer")
           then set_max_occurs (Z.of_nat (length allowed)) kwargs
           else kwargs)
  end.

(** Layers are passed as layer names; destinations are treated the same. *)
Definition parse_layer_input (param : Param.t) (kwargs : input_kwargs)
    (context : option MapContext) : result (option WPSInput) :=
  if isinstance (Param.cls param) INPUT_LAYER_TYPES then
    let kwargs := set_data_type "string" kwargs in
    let* kwargs := parse_allowed_layers param kwargs context in
    inr (Some (LiteralInput kwargs))
  else if isinstance (Param.cls param) [Qgs.QgsProcessingParameterRasterDestination] then
    let kwargs := set_data_type "string" kwargs in
    inr (Some (LiteralInput
      (append_metadata ("processing:extension", Param.defaultFileExtension param) kwargs)))
  else if isinstance (Param.cls param)
            [Qgs.QgsProcessingParameterVectorDestination;
             Qgs.QgsProcessingParameterFeatureSink] then
    let kwargs := set_data_type "string" kwargs in
    let kwargs :=
      append_metadata ("processing:dataType", pretty (Param.dataType param)) kwargs in
    inr (Some (LiteralInput
      (append_metadata ("processing:extension", Param.defaultFileExtension param) kwargs)))
  else inr None.

Definition parse_extent_input (param : Param.t) (kwargs : input_kwargs)
  : result (option WPSInput) :=
  if bool_decide (Param.type param = "extent")
  then inr (Some (BoundingBoxInput (set_crss ["EPSG:4326"] kwargs)))
  else inr None.

Definition parse_point_input (param : Param.t) (kwargs : input_kwargs)
  : result (option WPSInput) :=
  if isinstance (Param.cls param) [Qgs.QgsProcessingParameterPoint]
  then inr (Some (ComplexInput
         (set_supported_formats [from_definition GEOJSON; from_definition GML] kwargs)))
  else inr None.

(** Create a WPS input from a parameter definition. The list of metadata
    given to the constructor is the list [parse_metadata] extends afterwards,
    so the freeform metadata show on the input returned. *)
Definition parse_input_definition (param : Param.t) (context : option MapContext)
  : result WPSInput :=
  let defaultValue :=
    match Param.defaultValue param with
    | Py.VQVariant None => Py.VNone
    | Py.VQVariant (Some v) => v
    | v => v
    end in
  let kwargs :=
    mk_input (Param.name param) (Py.replace "_" " " (Param.name param))
      (Param.description param) [("processing:type", Param.type param)]
      defaultValue None None None None None None in
  let kwargs := if _is_optional param then set_min_occurs 0 kwargs else kwargs in
  let* inp :=
    or_else (parse_literal_input param kwargs) (fun _ =>
    or_else (parse_layer_input param kwargs context) (fun _ =>
    or_else (parse_extent_input param kwargs) (fun _ =>
    or_else (parse_file_input param kwargs) (fun _ =>
    parse_point_input param kwargs)))) in
  match inp with
  | None =>
      inl (ProcessingInputTypeNotSupported
             ("<class '" +:+ Qgs.parameter_class_name (Param.cls param)
              +:+ "'>:'" +:+ Param.type param +:+ "'"))
  | Some inp => inr (with_kwargs (parse_metadata param) inp)
  end.

(** ** Output converters *)

Definition parse_literal_output (outdef : Output.t) (kwargs : output_kwargs)
  : option WPSOutput :=
  let typ := Output.type outdef in
  let with_type t :=
    mk_output (out_identifier kwargs) (out_title kwargs) (out_abstract kwargs)
              (Some t) (out_supported_formats kwargs) (as_reference kwargs) in
  if bool_decide (typ = "outputString") then Some (LiteralOutput (with_type "string"))
  else if bool_decide (typ = "outputNumber") then Some (LiteralOutput (with_type "float"))
  else None.

(** [ComplexOutput(supported_formats=formats, as_reference=..., **kwargs)];
    [as_ref] is [None] when the call does not pass [as_reference]. *)
Definition complex_output (formats : list Format) (as_ref : option Py.value)
    (kwargs : output_kwargs) : WPSOutput :=
  ComplexOutput
    (mk_output (out_identifier kwargs) (out_title kwargs) (out_abstract kwargs)
               (out_data_type kwargs) (Some formats) as_ref).

(** A layer output is merged to a project; the WMS uri of the project is
    what is returned. *)
Definition parse_layer_output (outdef : Output.t) (kwargs : output_kwargs)
  : option WPSOutput :=
  if isinstance (Output.cls outdef) OUTPUT_LAYER_TYPES then
    if isinstance (Output.cls outdef) [Qgs.QgsProcessingOutputVectorLayer] then
      Some (complex_output [Format_new (Some "application/x-ogc-wms");
                            Format_new (Some "application/x-ogc-wfs")]
                           (Some (Py.VBool true)) kwargs)
    else if isinstance (Output.cls outdef) [Qgs.QgsProcessingOutputRasterLayer] then
      Some (complex_output [Format_new (Some "application/x-ogc-wms");
                            Format_new (Some "application/x-ogc-wcs")]
                           (Some (Py.VBool true)) kwargs)
    else
      Some (complex_output [Format_new (Some "application/x-ogc-wms")]
                           (Some (Py.VBool true)) kwargs)
  else None.

(** [d.get(key, default)] on the metadata of a definition. *)
Fixpoint metadata_get (key : string) (dflt : Py.value) (d : list (string * Py.value))
  : Py.value :=
  match d with
  | [] => dflt
  | (k, v) :: d' => if bool_decide (k = key) then v else metadata_get key dflt d'
  end.

Definition parse_file_output (outdef : Output.t) (kwargs : output_kwargs)
    (alg : option (gmap string Param.t)) : M (option WPSOutput) :=
  let as_reference :=
    Py.VBool (confservice_getboolean "server" "outputfile_as_reference") in
  if isinstance (Output.cls outdef) [Qgs.QgsProcessingOutputHtml] then
    let mime := types_map ".html" in
    ret (Some (complex_output [Format_new mime] None kwargs))
  else if isinstance (Output.cls outdef) [Qgs.QgsProcessingOutputFile] then
    let '(mime, as_reference) :=
      match alg with
      | Some alg =>
          match alg !! Output.name outdef with
          | Some inputdef =>
              if isinstance (Param.cls inputdef) [Qgs.QgsProcessingParameterFileDestination]
              then (types_map ("." +:+ Param.defaultFileExtension inputdef),
                    metadata_get "wps:as_reference" as_reference (Param.metadata inputdef))
              else (None, as_reference)
          | None => (None, as_reference)
          end
      | None => (None, as_reference)
      end in
    let! mime :=
      match mime with
      | Some m => ret m
      | None =>
          log WARNING "Cannot set file type for output %s" [AStr (Output.name outdef)] ;;
          ret "application/octet-stream"
      end in
    ret (Some (complex_output [Format_new (Some mime)] (Some as_reference) kwargs))
  else ret None.

(** Create a WPS output from an output definition. *)
Definition parse_output_definition (outdef : Output.t)
    (alg : option (gmap string Param.t)) : M WPSOutput :=
  let kwargs :=
    mk_output (Output.name outdef) (Output.description outdef)
              (Output.description outdef) None None None in
  let! output :=
    or_elseM (ret (parse_literal_output outdef kwargs))
      (or_elseM (ret (parse_layer_output outdef kwargs))
         (parse_file_output outdef kwargs alg)) in
  match output with
  | None => raise (ProcessingOutputTypeNotSupported (Output.type outdef))
  | Some output => ret output
  end.

End Translators.

(** ** Conversion of WPS input values to processing inputs *)

(** One submitted value: its raw data. *)
Record InputValue : Type := { data : Py.value }.

(** The arguments handed to the algorithm. *)
Inductive NativeValue : Type :=
  | QgsProcessingOutputLayerDefinition
      (sink : string) (destinationProject : string) (destinationName : Py.value)
  | QgsProcessingFeatureSourceDefinition (source : string) (selectedFeaturesOnly : bool)
  | Value (v : Py.value).

(** What [traceback.format_exc()] prints is not modelled. *)
Definition traceback_format_exc : string := "Traceback (most recent call last)".

(** The data of an input declared with data type string. What [urlparse]
    and [normpath] do with an object that is not a string depends on the
    object and is outside the model. *)
Definition as_str (v : Py.value) : M string :=
  match v with
  | Py.VStr s => ret s
  | _ => raise (OutsideModel "not a string")
  end.

(** [inp[0]] *)
Definition first_input (inp : list InputValue) : M InputValue :=
  match inp with
  | i :: _ => ret i
  | [] => raise IndexError
  end.

Section Decoder.

(** [urllib.parse.unquote]: percent-decoding, left to the host. *)
Variable unquote : string -> string.

(** The converters of extents, points and files work on floating-point
    numbers, OGR geometries and the file system; they are taken as given. *)
Variable input_to_extent : InputValue -> M NativeValue.
Variable input_to_point : InputValue -> M NativeValue.
Variable input_to_file : InputValue -> Param.t -> ProcessingContext -> M NativeValue.

(** The body of the [try] block of [parse_layer_spec]: the rectangle first,
    then the expression; an exception of the rectangle constructor, or [None]
    from the layer, is caught by the bare [except]. *)
Definition apply_selection (p : string) (layer : Qgs.QgsMapLayer)
    (feat_rects feat_requests : list string) : M unit :=
  let failed : M unit :=
    log ERROR traceback_format_exc [] ;;
    raise (NoApplicableCode "Feature selection failed") in
  let behavior := Qgs.SetSelection in
  let! (layer, behavior) :=
    match last feat_rects with
    | Some r =>
        match Qgs.QgsRectangle_new (take 4 (Py.split "," r)) with
        | inr rect =>
            match Qgs.selectByRect rect behavior layer with
            | Some layer' =>
                update_layer p layer' ;; ret (layer', Qgs.IntersectSelection)
            | None => failed ;; ret (layer, behavior)
            end
        | inl _ => failed ;; ret (layer, behavior)
        end
    | None => ret (layer, behavior)
    end in
  match last feat_requests with
  | Some ftreq =>
      match Qgs.selectByExpression ftreq behavior layer with
      | Some layer' => update_layer p layer'
      | None => failed
      end
  | None => ret tt
  end.

(** Parse a layer specification; with [allow_selection] the [select] and
    [rect] fields of the query select features on the live layer. *)
Definition parse_layer_spec (layerspec : string) (context : ProcessingContext)
    (allow_selection : bool) : M (string * bool) :=
  let! u := lift (urllib.urlparse layerspec) in
  let! p :=
    if bool_decide (urllib.scheme u = "file") then
      lift (resolve_path context (urllib.path u))
    else if negb (bool_decide (urllib.scheme u = EmptyString))
            && negb (bool_decide (urllib.scheme u = "layer")) then
      raise (InvalidParameterValue ("Bad scheme: " +:+ layerspec))
    else ret (urllib.path u) in
  if negb allow_selection then ret (p, false)
  else
    let qs := urllib.parse_qs unquote (urllib.query u) in
    let feat_requests := urllib.dict_get "select" qs in
    let feat_rects := urllib.dict_get "rect" qs in
    if bool_decide (feat_rects = []) && bool_decide (feat_requests = []) then
      ret (p, false)
    else
      let! layer := getMapLayer p in
      match layer with
      | None =>
          log ERROR "No layer path for url %s" [AUrl u] ;;
          raise (InvalidParameterValue ("No layer '" +:+ urllib.path u +:+ "' found"))
      | Some layer =>
          (if negb (bool_decide (Qgs.layer_type layer = Qgs.VectorLayer)) then
             log WARNING "Can apply selection only to vector layer" []
           else
             log DEBUG "Applying features selection: %s" [ADict qs] ;;
             apply_selection p layer feat_rects feat_requests) ;;
          ret (p, true)
      end.

(** [[f(x) for x in l]] with an [f] that may raise or write. *)
Fixpoint mapM_M {A B} (f : A -> M B) (l : list A) : M (list B) :=
  match l with
  | [] => ret []
  | x :: l' =>
      let! y := f x in
      let! ys := mapM_M f l' in
      ret (y :: ys)
  end.

(** [opts.index(d)]: the first position of [d] among the options. *)
Definition options_index (opts : list string) (d : Py.value) : M Py.value :=
  match Py.index (Py.eq_str d) opts with
  | Some i => ret (Py.VInt (Z.of_nat i))
  | None => raise ValueError
  end.

(** Convert a WPS input to a processing parameter value. *)
Definition input_to_processing (identifier : string) (inp : list InputValue)
    (context : ProcessingContext) : M (string * NativeValue) :=
  let! param := parameterDefinition identifier in
  match param with
  | None => raise AttributeError
  | Some param =>
      let typ := Param.type param in
      let! value :=
        if isinstance (Param.cls param) DESTINATION_LAYER_TYPES then
          update_parameter identifier (Param.setSupportsNonFileBasedOutput false param) ;;
          let sink :=
            "./" +:+ Param.name param +:+ "." +:+ Param.defaultFileExtension param in
          let! i := first_input inp in
          ret (QgsProcessingOutputLayerDefinition
                 sink (destination_project context) (data i))
        else if isinstance (Param.cls param) [Qgs.QgsProcessingParameterFeatureSource] then
          let! i := first_input inp in
          let! layerspec := as_str (data i) in
          let! (value, has_selection) := parse_layer_spec layerspec context true in
          ret (QgsProcessingFeatureSourceDefinition value has_selection)
        else if isinstance (Param.cls param) INPUT_LAYER_TYPES then
          let parse1 (i : InputValue) : M Py.value :=
            let! layerspec := as_str (data i) in
            let! (value, _) := parse_layer_spec layerspec context false in
            ret (Py.VStr value) in
          if (1 <? length inp)%nat then
            let! values := mapM_M parse1 inp in
            ret (Value (Py.VList values))
          else
            let! i := first_input inp in
            let! value := parse1 i in
            ret (Value value)
        else if isinstance (Param.cls param) [Qgs.QgsProcessingParameterPoint] then
          let! i := first_input inp in
          input_to_point i
        else if bool_decide (typ = "enum") then
          if Param.allowMultiple param && (1 <? length inp)%nat then
            let opts := Param.options param in
            let! values := mapM_M (fun d => options_index opts (data d)) inp in
            ret (Value (Py.VList values))
          else
            let! i := first_input inp in
            let! value := options_index (Param.options param) (data i) in
            ret (Value value)
        else if bool_decide (typ = "extent") then
          let! i := first_input inp in
          input_to_extent i
        else if bool_decide (typ = "crs") then
          let! i := first_input inp in
          ret (Value (data i))
        else if bool_decide (typ = "fileDestination")
                || bool_decide (typ = "folderDestination") then
          let! i := first_input inp in
          let! submitted := as_str (data i) in
          let value := os_path.basename (os_path.normpath submitted) in
          (if negb (bool_decide (value = submitted)) then
             log WARNING
               "Value for file or folder destination '%s' has been truncated from '%s' to '%s'"
               [AStr identifier; AStr submitted; AStr value]
           else ret tt) ;;
          ret (Value (Py.VStr value))
        else if bool_decide (typ = "file") then
          let! i := first_input inp in
          input_to_file i param context
        else if (0 <? length inp)%nat then
          let! i := first_input inp in
          ret (Value (data i))
        else
          (if negb (_is_optional param) then
             log WARNING "Required input %s has no value" [AStr identifier]
           else ret tt) ;;
          ret (Value Py.VNone) in
      ret (Param.name param, value)
  end.

End Decoder.

(** ** The classes and kinds the decoder dispatches on *)

(** The classes [input_to_processing] recognizes with [isinstance] before it
    looks at the kind of the parameter. *)
Definition dispatched_by_class (c : Qgs.ParameterClass) : bool :=
  isinstance c DESTINATION_LAYER_TYPES
  || isinstance c [Qgs.QgsProcessingParameterFeatureSource]
  || isinstance c INPUT_LAYER_TYPES
  || isinstance c [Qgs.QgsProcessingParameterPoint].

(** The kinds [input_to_processing] has a branch for. *)
Definition dispatched_by_type (typ : string) : bool :=
  bool_decide (typ ∈ ["enum"; "extent"; "crs"; "fileDestination";
                      "folderDestination"; "file"]).

(** The kind-specific cardinality rule: [parse_allowed_layers] sets
    [min_occurs] from the minimum number of inputs of a multi-layer input. *)
Definition multilayer_override (param : Param.t) : bool :=
  isinstance (Param.cls param) INPUT_LAYER_TYPES
  && bool_decide (Param.type param = "multilayer").

(** The path a layer specification resolves to, from its parsed form. *)
Definition resolves_to (context : ProcessingContext) (u : urllib.ParseResult)
    (p : string) : Prop :=
  (urllib.scheme u = "file" ∧ resolve_path context (urllib.path u) = inr p)
  ∨ ((urllib.scheme u = "layer" ∨ urllib.scheme u = EmptyString) ∧ p = urllib.path u).

(** The store after one more record in the log. *)
Definition logged (r : LogRecord) (st : Store) : Store :=
  mkStore (parameters st) (layers st) (LOGGER st ++ [r]).

(** ** Sample descriptors, layers and stores *)

Module Sample.

(** A few entries of [mimetypes.types_map]. *)
Definition types_map (ext : string) : option string :=
  if bool_decide (ext = ".html") then Some "text/html"
  else if bool_decide (ext = ".tif") then Some "image/tiff"
  else if bool_decide (ext = ".csv") then Some "text/csv"
  else None.

(** A configuration where only [server.outputfile_as_reference] matters. *)
Definition confservice (outputfile_as_reference : bool) (section option : string)
  : bool :=
  bool_decide (section = "server") && bool_decide (option = "outputfile_as_reference")
  && outputfile_as_reference.

(** Percent-decoding leaves a string without "%" as it is. *)
Definition unquote (s : string) : string := s.

(** Stand-ins for the converters of extents, points and files. *)
Definition input_to_extent (inp : InputValue) : M NativeValue :=
  raise (NoApplicableCode "extent").
Definition input_to_point (inp : InputValue) : M NativeValue :=
  raise (NoApplicableCode "point").
Definition input_to_file (inp : InputValue) (param : Param.t)
    (context : ProcessingContext) : M NativeValue :=
  raise (NoApplicableCode "file").

Definition decode : string -> list InputValue -> ProcessingContext
                    -> M (string * NativeValue) :=
  input_to_processing unquote input_to_extent input_to_point input_to_file.

Definition parameter (cls : Qgs.ParameterClass) (typ name : string) (flags : Z)
  : Param.t :=
  Param.mk cls typ name "A parameter" flags Py.VNone [] [] false 0 Py.VNone Py.VNone
    EmptyString Qgs.File EmptyString "shp" None Qgs.TypeMapLayer 0 true.

Definition enum (name : string) (options : list string) (default_value : Py.value)
  : Param.t :=
  Param.mk (Qgs.QgsProcessingParameterDefinition "qgis._core.QgsProcessingParameterEnum")
    "enum" name "A choice" 0 default_value [] options false 0 Py.VNone Py.VNone
    EmptyString Qgs.File EmptyString EmptyString None Qgs.TypeMapLayer 0 true.

(** The third option repeats the first; the default is the third. *)
Definition METHOD : Param.t :=
  enum "METHOD" ["nearest"; "linear"; "nearest"] (Py.VInt 2).

Definition KERNEL : Param.t :=
  enum "KERNEL" ["gaussian"; "linear"; "uniform"] (Py.VInt 1).

Definition OUTPUT : Param.t :=
  parameter Qgs.QgsProcessingParameterFeatureSink "sink" "OUTPUT" 0.

Definition INPUT : Param.t :=
  parameter Qgs.QgsProcessingParameterFeatureSource "source" "INPUT" 0.

Definition REPORT : Param.t :=
  parameter Qgs.QgsProcessingParameterFileDestination "fileDestination" "REPORT" 0.

(** A required and an optional expression: neither class nor kind has a
    branch of its own in the decoder. *)
Definition EXPRESSION : Param.t :=
  parameter (Qgs.QgsProcessingParameterDefinition
               "qgis._core.QgsProcessingParameterExpression") "expression" "EXPRESSION" 0.

(** An optional title. *)
Definition TITLE : Param.t :=
  parameter (Qgs.QgsProcessingParameterDefinition
               "qgis._core.QgsProcessingParameterString") "string" "TITLE" 8.

Definition FILTER : Param.t :=
  parameter (Qgs.QgsProcessingParameterDefinition
               "qgis._core.QgsProcessingParameterExpression") "expression" "FILTER" 8.

(** An optional multi-layer input that asks for two layers at least. *)
Definition LAYERS : Param.t :=
  Param.mk Qgs.QgsProcessingParameterMultipleLayers "multilayer" "LAYERS"
    "Layers to merge" 8 Py.VNone [] [] false 0 Py.VNone Py.VNone EmptyString
    Qgs.File EmptyString EmptyString None Qgs.TypeVectorAnyGeometry 2 true.

(** A vector layer of roads with features 1 to 5 and a raster layer. *)
Definition roads : Qgs.QgsMapLayer :=
  Qgs.mkLayer "roads" Qgs.VectorLayer Qgs.LineGeometry
    (fun rect =>
       if bool_decide (rect = Qgs.Rectangle 0 0 10 10)
       then Some {[1%N; 2%N; 3%N]} else None)
    (fun expression =>
       if bool_decide (expression = "speed>50") then Some {[2%N; 3%N; 4%N]}
       else None)
    {[5%N]}.

Definition dem : Qgs.QgsMapLayer :=
  Qgs.mkLayer "dem" Qgs.RasterLayer Qgs.NullGeometry
    (fun _ => None) (fun _ => None) ∅.

Definition context : ProcessingContext :=
  mkContext "/srv/data/work"
    (fun p => inr ("/srv/data/projects" +:+ p)) "destination".

Definition store : Store :=
  mkStore
    (list_to_map [("METHOD", METHOD); ("KERNEL", KERNEL); ("OUTPUT", OUTPUT);
                  ("INPUT", INPUT); ("REPORT", REPORT);
                  ("EXPRESSION", EXPRESSION); ("FILTER", FILTER);
                  ("TITLE", TITLE)])
    (list_to_map [("roads", roads); ("dem", dem)])
    [].

Definition html_output : Output.t :=
  Output.mk Qgs.QgsProcessingOutputHtml "outputHtml" "OUTPUT_HTML_FILE" "Report".

(** A generic map layer output: a layer output that is neither the vector
    nor the raster one. *)
Definition layer_output : Output.t :=
  Output.mk (Qgs.QgsProcessingOutputDefinition "qgis._core.QgsProcessingOutputMapLayer")
    "outputLayer" "OUTPUT" "Layer".

End Sample.

(** ** Conversion of processing outputs to WPS output responses *)

Module posixpath.

(** [os.path.join(a, b)] *)
Definition join (a b : string) : string :=
  if Py.startswith "/" b then b
  else if bool_decide (a = EmptyString) || Py.endswith "/" a then a +:+ b
  else a +:+ "/" +:+ b.

(** [os.path.splitext(p)]: the extension starts at the last dot of the last
    component, unless that component holds nothing but dots before it. *)
Definition splitext (p : string) : string * string :=
  match Py.rfind "." p with
  | None => (p, EmptyString)
  | Some dotIndex =>
      let filenameIndex :=
        match Py.rfind "/" p with Some sepIndex => S sepIndex | None => O end in
      if (filenameIndex <=? dotIndex)%nat
         && negb (Py.all_chars (fun c => bool_decide (c = "."%char))
                    (Py.drop filenameIndex (Py.take dotIndex p)))
      then (Py.take dotIndex p, Py.drop dotIndex p)
      else (p, EmptyString)
  end.

End posixpath.

(** The output object that [processing_to_output] fills in place. *)
Module Out.
Record t : Type := mk {
  as_reference : Py.value;
  output_format : option string;
  url : option string;
  file : option string;
  data : option Py.value
}.
End Out.

(** [bool(v)]; the truth of a variant or of another object is not modelled. *)
Definition truth (v : Py.value) : result bool :=
  match v with
  | Py.VNone => inr false
  | Py.VBool b => inr b
  | Py.VInt z => inr (negb (z =? 0))
  | Py.VStr s => inr (negb (bool_decide (s = EmptyString)))
  | Py.VList l => inr (negb (bool_decide (length l = O)))
  | _ => inl (OutsideModel "truth of an object")
  end.

(** A value that is a string; [os.path] refuses numbers, booleans, lists and
    [None], and other objects are not modelled. *)
Definition path_of (v : Py.value) : result string :=
  match v with
  | Py.VStr s => inr s
  | Py.VQVariant _ | Py.VOther _ => inl (OutsideModel "not a string")
  | _ => inl TypeError
  end.

(** [s.lower()] of a string of ASCII characters; the lower case of other
    characters is not modelled. *)
Definition lower_ascii (s : string) : result string :=
  if Py.all_chars (fun c => (nat_of_ascii c <? 128)%nat) s then inr (Py.lower s)
  else inl (OutsideModel "lower case outside ASCII").

(** The encoder writes to the output object and to the log; an exception
    leaves both as they were when raised. *)
Definition W (A : Type) : Type := Out.t -> Store -> result A * Out.t * Store.

Definition wret {A} (a : A) : W A := fun out st => (inr a, out, st).
Definition wbind {A B} (m : W A) (f : A -> W B) : W B :=
  fun out st =>
    match m out st with
    | (inl e, out', st') => (inl e, out', st')
    | (inr a, out', st') => f a out' st'
    end.
Definition wlift {A} (r : result A) : W A := fun out st => (r, out, st).
Definition wlog (lvl : Level) (fmt : string) (a : list LogArg) : W unit :=
  fun out st => (inr tt, out, logged (mkLog lvl fmt a) st).
Definition wget : W Out.t := fun out st => (inr out, out, st).
Definition wset (f : Out.t -> Out.t) : W unit := fun out st => (inr tt, f out, st).

Notation "'let&' x := m 'in' k" := (wbind m (fun x => k))
  (at level 10, x pattern, m at level 100, k at level 200).
Notation "m ;;& k" := (wbind m (fun _ => k))
  (at level 100, k at level 200, right associativity).

Definition set_output_format (f : string) (out : Out.t) : Out.t :=
  Out.mk (Out.as_reference out) (Some f) (Out.url out) (Out.file out) (Out.data out).
Definition set_url (u : string) (out : Out.t) : Out.t :=
  Out.mk (Out.as_reference out) (Out.output_format out) (Some u) (Out.file out)
    (Out.data out).
Definition set_file (f : string) (out : Out.t) : Out.t :=
  Out.mk (Out.as_reference out) (Out.output_format out) (Out.url out) (Some f)
    (Out.data out).
Definition set_data (v : Py.value) (out : Out.t) : Out.t :=
  Out.mk (Out.as_reference out) (Out.output_format out) (Out.url out) (Out.file out)
    (Some v).

Section Encoder.

Variable types_map : string -> option string.

(** [urllib.parse.quote_plus], left to the host. *)
Variable quote_plus : string -> string.

(** [context.store_url.format(file=file_name)]: the reference URL of a file
    name that is a string. *)
Variable store_url_format : string -> string.

(** [urlencode(((key, value),))]: the text of a value that is not a string
    is quoted; the text of a list, a variant or another object is not
    modelled. *)
Definition urlencode1 (key : string) (value : Py.value) : result string :=
  let* text :=
    match value with
    | Py.VList _ | Py.VQVariant _ | Py.VOther _ =>
        inl (OutsideModel "text of an object")
    | v => inr (Py.str v)
    end in
  inr (quote_plus key +:+ "=" +:+ quote_plus text).

(** Output file *)
Definition to_output_file (file_name : Py.value) (context : ProcessingContext)
  : W unit :=
  let& out := wget in
  let& by_reference := wlift (truth (Out.as_reference out)) in
  if by_reference then
    let& name :=
      wlift (match file_name with
             | Py.VStr s => inr s
             | _ => inl (OutsideModel "format of an object")
             end) in
    wset (set_url (store_url_format name))
  else
    let& name := wlift (path_of file_name) in
    wset (set_file (posixpath.join (workdir context) name)).

(** Map a processing output to WPS. *)
Definition processing_to_output (value : Py.value) (outdef : Output.t)
    (output_uri : string) (context : ProcessingContext) : W unit :=
  if isinstance (Output.cls outdef) OUTPUT_LAYER_TYPES then
    wset (set_output_format "application/x-ogc-wms") ;;&
    let& query := wlift (urlencode1 "layer" value) in
    wset (set_url (output_uri +:+ "&" +:+ query))
  else if isinstance (Output.cls outdef) [Qgs.QgsProcessingOutputHtml] then
    let& mime := wlift (lookup_or_KeyError (types_map ".html")) in
    wset (set_output_format mime) ;;&
    to_output_file value context
  else if isinstance (Output.cls outdef) [Qgs.QgsProcessingOutputFile] then
    let& name := wlift (path_of value) in
    let& sfx := wlift (lower_ascii (posixpath.splitext name).2) in
    let& mime :=
      match types_map sfx with
      | Some mime => wret mime
      | None =>
          wlog WARNING "Cannot get file type for output %s: %s"
            [AStr (Output.name outdef); AStr name] ;;&
          wret "application/octet-stream"
      end in
    wset (set_output_format mime) ;;&
    to_output_file value context
  else wset (set_data value).

End Encoder.

(** ** What the translators accept *)

(** The kinds the literal matcher recognizes. *)
Definition literal_kind (typ : string) : bool :=
  bool_decide (typ ∈ ["string"; "boolean"; "enum"; "number"; "field"; "crs"; "band"]).

(** The classes the layer matcher recognizes. *)
Definition layer_class (c : Qgs.ParameterClass) : bool :=
  isinstance c INPUT_LAYER_TYPES
  || isinstance c DESTINATION_LAYER_TYPES.

(** The kinds the extent and file matchers recognize. *)
Definition extent_or_file_kind (typ : string) : bool :=
  bool_decide (typ ∈ ["extent"; "file"; "fileDestination"; "folderDestination"]).

(** The parameters some matcher of [parse_input_definition] recognizes. *)
Definition recognized (param : Param.t) : bool :=
  literal_kind (Param.type param)
  || layer_class (Param.cls param)
  || extent_or_file_kind (Param.type param)
  || isinstance (Param.cls param) [Qgs.QgsProcessingParameterPoint].

(** The outputs some matcher of [parse_output_definition] recognizes. *)
Definition recognized_output (outdef : Output.t) : bool :=
  bool_decide (Output.type outdef ∈ ["outputString"; "outputNumber"])
  || isinstance (Output.cls outdef)
       [Qgs.QgsProcessingOutputVectorLayer; Qgs.QgsProcessingOutputRasterLayer;
        Qgs.QgsProcessingOutputHtml; Qgs.QgsProcessingOutputFile].

(** The metadata the freeform metadata of a parameter add to its input. *)
Definition freeform_metadata (param : Param.t) : list Metadata :=
  (fun kv => ("processing:meta:" +:+ kv.1, Py.str kv.2)) <$> Param.metadata param.

(** The data types [parse_allowed_layers] admits layers for: those the
    parameter declares, or those of its class when it declares none. *)
Definition declared_datatypes (param : Param.t) : list Qgs.SourceType :=
  match Param.dataTypes param with
  | Some (t :: ts) => t :: ts
  | _ =>
      if isinstance (Param.cls param) INPUT_VECTOR_LAYER_TYPES then [Qgs.TypeVector]
      else if isinstance (Param.cls param) INPUT_RASTER_LAYER_TYPES then [Qgs.TypeRaster]
      else if isinstance (Param.cls param) [Qgs.QgsProcessingParameterMultipleLayers]
           then [Param.layerType param]
      else [Qgs.TypeMapLayer]
  end.

(** The names of the layers of a project that satisfy [P], in project order. *)
Definition layer_names (P : Qgs.QgsMapLayer -> Prop) `{∀ l, Decision (P l)}
    (context : MapContext) : list string :=
  Qgs.layer_name <$> filter P (mapLayers context).

(** A submitted layer specification [d] resolves to the string [v]. *)
Definition spec_resolves (context : ProcessingContext) (d : InputValue)
    (v : Py.value) : Prop :=
  ∃ s u p, data d = Py.VStr s ∧ urllib.urlparse s = inr u
           ∧ resolves_to context u p ∧ v = Py.VStr p.

(** Two tables of layers hold the same layers under the same keys, up to the
    selection of the vector layers. *)
Definition same_layers_up_to_selection (m m' : gmap string Qgs.QgsMapLayer) : Prop :=
  ∀ q,
    match m !! q, m' !! q with
    | Some l, Some l' =>
        l' = Qgs.set_selection (Qgs.selectedFeatureIds l') l
        ∧ (Qgs.layer_type l ≠ Qgs.VectorLayer -> l' = l)
    | None, None => True
    | _, _ => False
    end.

(** [k'] keeps the head of [k] and only adds metadata at the end. *)
Definition grows (k k' : input_kwargs) : Prop :=
  identifier k' = identifier k ∧ title k' = title k ∧ abstract k' = abstract k
  ∧ ∃ more, metadata k' = (metadata k ++ more)%list.

(** ** More sample descriptors *)

Module Cases.

(** A project with the two sample layers and a plugin layer. *)
Definition project : MapContext :=
  {| mapLayers :=
       [Sample.roads; Sample.dem;
        Qgs.mkLayer "tiles" Qgs.PluginLayer Qgs.NullGeometry
          (fun _ => None) (fun _ => None) ∅] |}.

Definition ELEVATION : Param.t :=
  Sample.parameter Qgs.QgsProcessingParameterRasterLayer "raster" "ELEVATION" 0.

(** An enum that allows multiple choices. *)
Definition BANDS : Param.t :=
  Param.mk (Qgs.QgsProcessingParameterDefinition "qgis._core.QgsProcessingParameterEnum")
    "enum" "BANDS" "Bands to keep" 0 (Py.VList [Py.VInt (-1)]) [] ["red"; "green"; "blue"]
    true 0 Py.VNone Py.VNone EmptyString Qgs.File EmptyString EmptyString None
    Qgs.TypeMapLayer 0 true.

(** An enum whose default is still boxed. *)
Definition BOXED : Param.t :=
  Sample.enum "BOXED" ["red"; "green"] (Py.VQVariant (Some (Py.VInt 0))).

(** A string whose default is still boxed. *)
Definition LABEL : Param.t :=
  Param.mk (Qgs.QgsProcessingParameterDefinition "qgis._core.QgsProcessingParameterString")
    "string" "AXIS_LABEL" "A label" 0 (Py.VQVariant (Some (Py.VStr "none")))
    [("unit", Py.VStr "m")] [] false 0 Py.VNone Py.VNone EmptyString Qgs.File
    EmptyString EmptyString None Qgs.TypeMapLayer 0 true.

(** A destination for a table, to be sent inline. *)
Definition TABLE : Param.t :=
  Param.mk Qgs.QgsProcessingParameterFileDestination "fileDestination" "TABLE"
    "A table" 0 Py.VNone [("wps:as_reference", Py.VBool false)] [] false 0
    Py.VNone Py.VNone EmptyString Qgs.File EmptyString "csv" None
    Qgs.TypeMapLayer 0 true.

Definition table_output : Output.t :=
  Output.mk Qgs.QgsProcessingOutputFile "outputFile" "TABLE" "A table".

Definition store : Store :=
  mkStore
    (list_to_map [("BANDS", BANDS); ("LAYERS", Sample.LAYERS);
                  ("ELEVATION", ELEVATION); ("INPUT", Sample.INPUT);
                  ("OUTPUT", Sample.OUTPUT); ("REPORT", Sample.REPORT);
                  ("output", Sample.OUTPUT)])
    (list_to_map [("roads", Sample.roads); ("dem", Sample.dem)])
    [].

(** Quoting leaves letters and digits as they are. *)
Definition quote_plus (s : string) : string := s.

Definition store_url_format (file_name : string) : string :=
  "http://localhost/store/" +:+ file_name.

(** An output object to be sent by reference, and one to be sent inline. *)
Definition by_reference : Out.t := Out.mk (Py.VBool true) None None None None.
Definition inline : Out.t := Out.mk (Py.VBool false) None None None None.

End Cases.

(** What a translated input looks like, by the kind of its parameter. *)
Definition shape_of (param : Param.t) (inp : WPSInput) : Prop :=
  match inp with
  | LiteralInput k => ∃ t, data_type k = Some t
  | BoundingBoxInput k =>
      Param.type param = "extent" ∧ crss k = Some ["EPSG:4326"]
      ∧ literal_kind (Param.type param) = false
      ∧ layer_class (Param.cls param) = false
  | ComplexInput k =>
      literal_kind (Param.type param) = false
      ∧ layer_class (Param.cls param) = false
      ∧ ((Param.type param = "file" ∧ Param.behavior param = Qgs.File)
         ∨ (isinstance (Param.cls param) [Qgs.QgsProcessingParameterPoint] = true
            ∧ supported_formats k
              = Some [from_definition GEOJSON; from_definition GML]))
  end.

(** * Properties *)

(** ** The models of the library functions on sample inputs *)

Example urlparse_layer :
  urllib.urlparse "layer:mylayer"
  = inr (urllib.mkParseResult "layer" EmptyString "mylayer" EmptyString
           EmptyString EmptyString).
Proof. reflexivity. Qed.

Example urlparse_file_query :
  urllib.urlparse "file:///tmp/a.shp?select=a%3D1#f"
  = inr (urllib.mkParseResult "file" EmptyString "/tmp/a.shp" EmptyString
           "select=a%3D1" "f").
Proof. reflexivity. Qed.

Example urlparse_port :
  urllib.urlparse "mylayer:80"
  = inr (urllib.mkParseResult EmptyString EmptyString "mylayer:80" EmptyString
           EmptyString EmptyString).
Proof. reflexivity. Qed.

Example urlparse_params :
  urllib.urlparse "a;b/c;d?x"
  = inr (urllib.mkParseResult EmptyString EmptyString "a;b/c" "d" "x" EmptyString).
Proof. reflexivity. Qed.

Example urlparse_invalid_netloc : urllib.urlparse "file://[x/y" = inl ValueError.
Proof. reflexivity. Qed.

Example parse_qs_fields :
  urllib.parse_qs Sample.unquote "rect=0,0,1,1&select=a>1;rect=2&x=&y"
  = [("rect", ["0,0,1,1"; "2"]); ("select", ["a>1"])].
Proof. reflexivity. Qed.

Example normpath_samples :
  os_path.normpath "a/b/../c" = "a/c"
  ∧ os_path.normpath "/../x" = "/x"
  ∧ os_path.normpath "//a" = "//a"
  ∧ os_path.normpath "///a/" = "/a"
  ∧ os_path.normpath "a/.." = "."
  ∧ os_path.normpath "../../etc/passwd" = "../../etc/passwd"
  ∧ os_path.basename "../../etc/passwd" = "passwd".
Proof. repeat split. Qed.

(** The minimum-inputs rule of the multi-layer kind overrides the optional
    flag. *)
Example multilayer_min_occurs :
  _is_optional Sample.LAYERS = true
  ∧ input_min_occurs <$> (match parse_input_definition Sample.types_map Sample.LAYERS None
                          with inr inp => Some inp | inl _ => None end)
    = Some 2.
Proof. split; reflexivity. Qed.

(** ** Strings *)

Lemma length_app (a b : string) :
  String.length (a +:+ b) = (String.length a + String.length b)%nat.
Proof. induction a as [|c a IH]; simpl; [reflexivity | now rewrite IH]. Qed.

Lemma drop_app (a b : string) : Py.drop (String.length a) (a +:+ b) = b.
Proof. induction a as [|c a IH]; simpl; [now destruct b | exact IH]. Qed.

Lemma app_assoc_str (a b c : string) : (a +:+ b) +:+ c = a +:+ (b +:+ c).
Proof.
  induction a as [|x a IH]; [reflexivity|].
  change (String x ((a +:+ b) +:+ c) = String x (a +:+ (b +:+ c))).
  now rewrite IH.
Qed.

Lemma endswith_app (a b : string) : Py.endswith b (a +:+ b) = true.
Proof.
  unfold Py.endswith. apply bool_decide_eq_true_2.
  rewrite length_app.
  replace (String.length a + String.length b - String.length b)%nat
    with (String.length a) by lia.
  apply drop_app.
Qed.

Lemma isinstance_false_of_dispatched (c : Qgs.ParameterClass) :
  dispatched_by_class c = false ->
  isinstance c DESTINATION_LAYER_TYPES = false
  ∧ isinstance c [Qgs.QgsProcessingParameterFeatureSource] = false
  ∧ isinstance c INPUT_LAYER_TYPES = false
  ∧ isinstance c [Qgs.QgsProcessingParameterPoint] = false.
Proof.
  unfold dispatched_by_class. intros H.
  repeat (apply orb_false_elim in H; destruct H as [H ?]). auto.
Qed.

(** ** Python sequences *)

Lemma index_from_first {A} (eqb : A -> bool) (l : list A) (n m : nat) :
  Py.index_from eqb l n = Some m ->
  ∃ j y, m = (n + j)%nat ∧ l !! j = Some y ∧ eqb y = true
         ∧ ∀ k z, (k < j)%nat -> l !! k = Some z -> eqb z = false.
Proof.
  revert n. induction l as [|x l IH]; intros n H; simpl in H; [discriminate|].
  destruct (eqb x) eqn:Hx.
  - injection H as <-. exists O, x. repeat split; [lia | assumption | lia].
  - destruct (IH _ H) as (j & y & -> & Hj & Hy & Hmin).
    exists (S j), y. repeat split; [lia | assumption | assumption |].
    intros [|k] z Hk Hz; simpl in Hz.
    + congruence.
    + apply (Hmin k); [lia | assumption].
Qed.

Lemma index_from_found {A} (eqb : A -> bool) (l : list A) (n i : nat) (y : A) :
  l !! i = Some y -> eqb y = true -> is_Some (Py.index_from eqb l n).
Proof.
  revert n i. induction l as [|x l IH]; intros n i Hi Hy; [discriminate|].
  simpl. destruct (eqb x) eqn:Hx; [eauto|].
  destruct i as [|i]; simpl in Hi.
  - congruence.
  - eapply IH; eassumption.
Qed.

(** [opts.index(s)] for an option [s] at position [i]: the first position
    of [s], which is [i] itself when [s] does not occur before. *)
Lemma index_of_option (opts : list string) (i : nat) (s : string) :
  opts !! i = Some s ->
  ∃ j, Py.index (Py.eq_str (Py.VStr s)) opts = Some j
       ∧ opts !! j = Some s ∧ (j <= i)%nat
       ∧ (∀ k, (k < j)%nat -> opts !! k ≠ Some s)
       ∧ (NoDup opts -> j = i).
Proof.
  intros Hi.
  assert (Hs : Py.eq_str (Py.VStr s) s = true) by (simpl; now apply bool_decide_eq_true_2).
  destruct (index_from_found _ _ O _ _ Hi Hs) as [m Hm].
  destruct (index_from_first _ _ _ _ Hm) as (j & y & -> & Hj & Hy & Hmin).
  simpl in Hy. apply bool_decide_eq_true_1 in Hy. subst y.
  exists j. split; [exact Hm|]. split; [exact Hj|].
  assert (Hle : (j <= i)%nat).
  { destruct (decide (j <= i)%nat) as [|Hgt]; [assumption|].
    rewrite (Hmin i s) in Hs; [discriminate | lia | assumption]. }
  split; [exact Hle|]. split.
  - intros k Hk Hks. specialize (Hmin k s Hk Hks). congruence.
  - intros Hnd. eapply NoDup_lookup; eassumption.
Qed.

Lemma getitem_in_range {A} (l : list A) (i : nat) (x : A) :
  l !! i = Some x -> getitem_or_IndexError l (Z.of_nat i) = inr x.
Proof.
  intros H. unfold getitem_or_IndexError, Py.getitem.
  rewrite (proj2 (Z.leb_le 0 (Z.of_nat i))) by lia.
  now rewrite Nat2Z.id, H.
Qed.

(** ** The translators *)

Section TranslatorProperties.

Variable types_map : string -> option string.
Variable confservice_getboolean : string -> string -> bool.

Lemma enum_default_min_occurs options d k k' :
  enum_default options d k = inr k' -> min_occurs k' = min_occurs k.
Proof.
  unfold enum_default, getitem_or_IndexError, rbind.
  intros H. repeat case_match; simplify_eq; reflexivity.
Qed.

Lemma parse_literal_input_min_occurs param kwargs inp :
  parse_literal_input param kwargs = inr (Some inp) ->
  min_occurs (input_kwargs_of inp) = min_occurs kwargs.
Proof.
  unfold parse_literal_input, lookup_or_KeyError, rbind. intros H.
  repeat case_bool_decide; simplify_eq; try reflexivity.
  - destruct (enum_default _ _ _) as [e|k'] eqn:Hd; simplify_eq.
    simpl. now rewrite (enum_default_min_occurs _ _ _ _ Hd).
Qed.

Lemma parse_allowed_layers_min_occurs param kwargs context kwargs' :
  parse_allowed_layers param kwargs context = inr kwargs' ->
  min_occurs kwargs' =
    if bool_decide (Param.type param = "multilayer") then
      Some (if 1 <=? Param.minimumNumberInputs param
            then Param.minimumNumberInputs param else 0)
    else min_occurs kwargs.
Proof.
  unfold parse_allowed_layers, lookup_or_KeyError, rbind. intros H.
  destruct (mapM SourceTypes _) as [names|]; [|discriminate].
  destruct context as [context|]; simplify_eq;
    case_bool_decide; reflexivity.
Qed.

Lemma parse_layer_input_min_occurs param kwargs context inp :
  multilayer_override param = false ->
  parse_layer_input param kwargs context = inr (Some inp) ->
  min_occurs (input_kwargs_of inp) = min_occurs kwargs.
Proof.
  unfold parse_layer_input, multilayer_override, rbind. intros Ho H.
  destruct (isinstance (Param.cls param) INPUT_LAYER_TYPES).
  - destruct (parse_allowed_layers _ _ _) as [e|k'] eqn:Hk; simplify_eq. simpl.
    rewrite (parse_allowed_layers_min_occurs _ _ _ _ Hk).
    simpl in Ho. now rewrite Ho.
  - repeat case_match; simplify_eq; reflexivity.
Qed.

Lemma parse_extent_input_min_occurs param kwargs inp :
  parse_extent_input param kwargs = inr (Some inp) ->
  min_occurs (input_kwargs_of inp) = min_occurs kwargs.
Proof.
  unfold parse_extent_input. intros H. case_bool_decide; simplify_eq. reflexivity.
Qed.

Lemma parse_file_input_min_occurs param kwargs inp :
  parse_file_input types_map param kwargs = inr (Some inp) ->
  min_occurs (input_kwargs_of inp) = min_occurs kwargs.
Proof.
  unfold parse_file_input. intros H.
  repeat (case_bool_decide || case_match); simplify_eq; reflexivity.
Qed.

Lemma parse_point_input_min_occurs param kwargs inp :
  parse_point_input param kwargs = inr (Some inp) ->
  min_occurs (input_kwargs_of inp) = min_occurs kwargs.
Proof.
  unfold parse_point_input. intros H. case_match; simplify_eq. reflexivity.
Qed.

Lemma with_kwargs_parse_metadata_min_occurs param inp :
  min_occurs (input_kwargs_of (with_kwargs (parse_metadata param) inp))
  = min_occurs (input_kwargs_of inp).
Proof. destruct inp; reflexivity. Qed.

(** The cardinality of a translated input, kind by kind. *)
Lemma parse_input_definition_min_occurs param context inp :
  parse_input_definition types_map param context = inr inp ->
  min_occurs (input_kwargs_of inp) =
    if multilayer_override param then
      Some (if 1 <=? Param.minimumNumberInputs param
            then Param.minimumNumberInputs param else 0)
    else if _is_optional param then Some 0 else None.
Proof.
  unfold parse_input_definition.
  set (kwargs0 := mk_input _ _ _ _ _ _ _ _ _ _ _).
  set (kwargs := if _is_optional param then _ else _).
  assert (Hk : min_occurs kwargs = if _is_optional param then Some 0 else None).
  { unfold kwargs. destruct (_is_optional param); reflexivity. }
  clearbody kwargs. clear kwargs0.
  unfold rbind, or_else.
  destruct (parse_literal_input param kwargs) as [e|[i1|]] eqn:H1; [discriminate| |].
  { intros H. simplify_eq. rewrite with_kwargs_parse_metadata_min_occurs.
    rewrite (parse_literal_input_min_occurs _ _ _ H1), Hk.
    assert (Hm : multilayer_override param = false); [|now rewrite Hm].
    unfold multilayer_override. apply andb_false_intro2, bool_decide_eq_false_2.
    intros Ht. unfold parse_literal_input in H1. rewrite Ht in H1. discriminate. }
  destruct (parse_layer_input param kwargs context) as [e|[i2|]] eqn:H2; [discriminate| |].
  { intros H. simplify_eq. rewrite with_kwargs_parse_metadata_min_occurs.
    destruct (multilayer_override param) eqn:Hm.
    - unfold parse_layer_input, rbind in H2.
      unfold multilayer_override in Hm. apply andb_prop in Hm as [Hc Ht].
      rewrite Hc in H2.
      destruct (parse_allowed_layers _ _ _) as [e|k'] eqn:Hk'; simplify_eq. simpl.
      rewrite (parse_allowed_layers_min_occurs _ _ _ _ Hk'), Ht. reflexivity.
    - now rewrite (parse_layer_input_min_occurs _ _ _ _ Hm H2). }
  assert (Hm : multilayer_override param = false).
  { unfold multilayer_override. apply andb_false_intro1.
    unfold parse_layer_input in H2.
    destruct (isinstance (Param.cls param) INPUT_LAYER_TYPES); [|reflexivity].
    unfold rbind in H2. destruct (parse_allowed_layers _ _ _); discriminate. }
  rewrite Hm.
  destruct (parse_extent_input param kwargs) as [e|[i3|]] eqn:H3; [discriminate| |].
  { intros H. simplify_eq. rewrite with_kwargs_parse_metadata_min_occurs.
    now rewrite (parse_extent_input_min_occurs _ _ _ H3). }
  destruct (parse_file_input types_map param kwargs) as [e|[i4|]] eqn:H4; [discriminate| |].
  { intros H. simplify_eq. rewrite with_kwargs_parse_metadata_min_occurs.
    now rewrite (parse_file_input_min_occurs _ _ _ H4). }
  destruct (parse_point_input param kwargs) as [e|[i5|]] eqn:H5; [discriminate| |].
  { intros H. simplify_eq. rewrite with_kwargs_parse_metadata_min_occurs.
    now rewrite (parse_point_input_min_occurs _ _ _ H5). }
  discriminate.
Qed.

(** C3: for a supported parameter, outside the minimum-inputs rule of the
    multi-layer kind, the translated input has [min_occurs] 0 exactly when
    the definition carries the optional flag. *)
Theorem optional_iff_min_occurs_zero param context inp :
  parse_input_definition types_map param context = inr inp ->
  multilayer_override param = false ->
  input_min_occurs inp = 0 <-> _is_optional param = true.
Proof.
  intros H Hm. unfold input_min_occurs.
  rewrite (parse_input_definition_min_occurs _ _ _ H), Hm.
  destruct (_is_optional param); split; intros; try reflexivity; discriminate.
Qed.

(** The file branch of [parse_file_output] hands the configured default to
    the constructor (here without an algorithm to look the extension up). *)
Lemma file_output_follows_configuration outdef st :
  Output.cls outdef = Qgs.QgsProcessingOutputFile ->
  Output.type outdef ≠ "outputString" ->
  Output.type outdef ≠ "outputNumber" ->
  parse_output_definition types_map confservice_getboolean outdef None st
  = (inr (ComplexOutput
            (mk_output (Output.name outdef) (Output.description outdef)
               (Output.description outdef) None
               (Some [Format_new (Some "application/octet-stream")])
               (Some (Py.VBool
                        (confservice_getboolean "server" "outputfile_as_reference"))))),
     logged (mkLog WARNING "Cannot set file type for output %s"
               [AStr (Output.name outdef)]) st).
Proof.
  intros Hcls Hs Hn.
  unfold parse_output_definition, parse_literal_output, parse_layer_output,
    parse_file_output.
  rewrite Hcls, !bool_decide_eq_false_2 by assumption. reflexivity.
Qed.

(** C6, as the code has it: an HTML output becomes a Complex output whose
    only format is the HTML MIME type, built without the [as_reference]
    argument; the configured default is read and left unused, so the output
    is the same under every configuration and its mode does not follow the
    configured default. *)
Theorem html_output_as_reference_not_passed outdef alg st :
  Output.cls outdef = Qgs.QgsProcessingOutputHtml ->
  Output.type outdef ≠ "outputString" ->
  Output.type outdef ≠ "outputNumber" ->
  parse_output_definition types_map confservice_getboolean outdef alg st
  = (inr (ComplexOutput
            (mk_output (Output.name outdef) (Output.description outdef)
               (Output.description outdef) None
               (Some [Format_new (types_map ".html")]) None)), st).
Proof.
  intros Hcls Hs Hn.
  unfold parse_output_definition, parse_literal_output, parse_layer_output,
    parse_file_output.
  rewrite Hcls, !bool_decide_eq_false_2 by assumption. reflexivity.
Qed.

(** C7, as the code has it: a vector layer output advertises WMS and WFS, a
    raster layer output WMS and WCS, both by reference only; a layer output
    of any other class is not supported, and no output definition at all is
    given the WMS-only list of formats. *)
Theorem layer_output_formats name description alg st :
  let wms := Format_new (Some "application/x-ogc-wms") in
  let wfs := Format_new (Some "application/x-ogc-wfs") in
  let wcs := Format_new (Some "application/x-ogc-wcs") in
  parse_output_definition types_map confservice_getboolean
    (Output.mk Qgs.QgsProcessingOutputVectorLayer "outputVector" name description) alg st
  = (inr (ComplexOutput
            (mk_output name description description None (Some [wms; wfs])
               (Some (Py.VBool true)))), st)
  ∧ parse_output_definition types_map confservice_getboolean
      (Output.mk Qgs.QgsProcessingOutputRasterLayer "outputRaster" name description) alg st
    = (inr (ComplexOutput
              (mk_output name description description None (Some [wms; wcs])
                 (Some (Py.VBool true)))), st)
  ∧ (∀ class_name,
       parse_output_definition types_map confservice_getboolean
         (Output.mk (Qgs.QgsProcessingOutputDefinition class_name) "outputLayer"
            name description) alg st
       = (inl (ProcessingOutputTypeNotSupported "outputLayer"), st))
  ∧ (∀ outdef kwargs out,
       parse_layer_output outdef kwargs = Some out ->
       out_supported_formats (output_kwargs_of out) ≠ Some [wms]).
Proof.
  intros wms wfs wcs. split; [reflexivity|]. split; [reflexivity|].
  split; [reflexivity|].
  intros outdef kwargs out. unfold parse_layer_output, isinstance.
  destruct (Output.cls outdef); simpl; intros H; simplify_eq; discriminate.
Qed.

End TranslatorProperties.

(** ** The decoder *)

Section DecoderProperties.

Variable unquote : string -> string.
Variable input_to_extent : InputValue -> M NativeValue.
Variable input_to_point : InputValue -> M NativeValue.
Variable input_to_file : InputValue -> Param.t -> ProcessingContext -> M NativeValue.

Abbreviation decode :=
  (input_to_processing unquote input_to_extent input_to_point input_to_file).

(** What [parse_layer_spec] does once the path is resolved to [p]. *)
Lemma parse_layer_spec_resolved layerspec context u p allow st :
  urllib.urlparse layerspec = inr u ->
  resolves_to context u p ->
  parse_layer_spec unquote layerspec context allow st =
    (if negb allow then ret (p, false)
     else
       let qs := urllib.parse_qs unquote (urllib.query u) in
       let feat_requests := urllib.dict_get "select" qs in
       let feat_rects := urllib.dict_get "rect" qs in
       if bool_decide (feat_rects = []) && bool_decide (feat_requests = []) then
         ret (p, false)
       else
         let! layer := getMapLayer p in
         match layer with
         | None =>
             log ERROR "No layer path for url %s" [AUrl u] ;;
             raise (InvalidParameterValue ("No layer '" +:+ urllib.path u +:+ "' found"))
         | Some layer =>
             (if negb (bool_decide (Qgs.layer_type layer = Qgs.VectorLayer)) then
                log WARNING "Can apply selection only to vector layer" []
              else
                log DEBUG "Applying features selection: %s" [ADict qs] ;;
                apply_selection p layer feat_rects feat_requests) ;;
             ret (p, true)
         end) st.
Proof.
  intros Hu Hp. unfold parse_layer_spec. unfold bind at 1, lift at 1. rewrite Hu.
  unfold bind at 1.
  destruct Hp as [[Hs Hr] | [Hs ->]].
  - rewrite Hs. simpl. unfold lift. rewrite Hr. reflexivity.
  - destruct Hs as [Hs | Hs]; rewrite Hs; reflexivity.
Qed.

Lemma parse_layer_spec_unresolved layerspec context u e allow st :
  urllib.urlparse layerspec = inr u ->
  urllib.scheme u = "file" ->
  resolve_path context (urllib.path u) = inl e ->
  parse_layer_spec unquote layerspec context allow st = (inl e, st).
Proof.
  intros Hu Hs Hr. unfold parse_layer_spec. unfold bind at 1, lift at 1. rewrite Hu.
  unfold bind at 1. rewrite Hs. simpl. unfold lift. rewrite Hr. reflexivity.
Qed.

Lemma parse_layer_spec_bad_scheme layerspec context u allow st :
  urllib.urlparse layerspec = inr u ->
  urllib.scheme u ≠ "file" -> urllib.scheme u ≠ "layer" ->
  urllib.scheme u ≠ EmptyString ->
  parse_layer_spec unquote layerspec context allow st =
    (inl (InvalidParameterValue ("Bad scheme: " +:+ layerspec)), st).
Proof.
  intros Hu Hf Hl He. unfold parse_layer_spec, bind, lift. rewrite Hu.
  rewrite !bool_decide_eq_false_2 by assumption. reflexivity.
Qed.

(** Every scheme is of one of the three sorts. *)
Lemma scheme_cases context (u : urllib.ParseResult) :
  (∃ p, resolves_to context u p)
  ∨ (∃ e, urllib.scheme u = "file" ∧ resolve_path context (urllib.path u) = inl e)
  ∨ (urllib.scheme u ≠ "file" ∧ urllib.scheme u ≠ "layer"
     ∧ urllib.scheme u ≠ EmptyString).
Proof.
  unfold resolves_to.
  destruct (decide (urllib.scheme u = "file")) as [Hf|Hf].
  - destruct (resolve_path context (urllib.path u)) as [e|p] eqn:Hr; eauto 6.
  - destruct (decide (urllib.scheme u = "layer")); [eauto 7|].
    destruct (decide (urllib.scheme u = EmptyString)); eauto 7.
Qed.

(** The path returned is the one the scheme selects, selection or not, and
    the selection flag is raised only with selection allowed and a [rect] or
    a [select] field in the query. *)
Lemma parse_layer_spec_returns layerspec context u allow st p b st' :
  urllib.urlparse layerspec = inr u ->
  parse_layer_spec unquote layerspec context allow st = (inr (p, b), st') ->
  resolves_to context u p
  ∧ b = allow
        && negb (bool_decide (urllib.dict_get "rect"
                    (urllib.parse_qs unquote (urllib.query u)) = [])
                 && bool_decide (urllib.dict_get "select"
                    (urllib.parse_qs unquote (urllib.query u)) = [])).
Proof.
  intros Hu.
  destruct (scheme_cases context u) as [[q Hq] | [[e [Hs Hr]] | [Hf [Hl He]]]].
  - rewrite (parse_layer_spec_resolved _ _ _ _ _ _ Hu Hq).
    destruct allow; simpl.
    + destruct (bool_decide _ && bool_decide _); simpl.
      * unfold ret. intros H. split; congruence.
      * unfold bind, getMapLayer.
        destruct (layers st !! q) as [l|]; [|simpl; discriminate].
        destruct (negb _); simpl.
        -- unfold ret. intros H. split; congruence.
        -- destruct (apply_selection _ _ _ _ _) as [[?|?] ?]; simpl;
             [discriminate|]. unfold ret. intros H. split; congruence.
    + unfold ret. intros H. split; congruence.
  - rewrite (parse_layer_spec_unresolved _ _ _ _ _ _ Hu Hs Hr). discriminate.
  - rewrite (parse_layer_spec_bad_scheme _ _ _ _ _ Hu Hf Hl He). discriminate.
Qed.


(** C4: for a specification that [urlparse] parses, a [file] scheme
    resolves the path through the context, a [layer] scheme or no scheme
    returns the path unchanged, every other scheme raises
    [InvalidParameterValue]; "layer:mylayer" and "mylayer" both give
    "mylayer" and "ftp://x" raises. *)
Theorem parse_layer_spec_schemes layerspec context u st :
  urllib.urlparse layerspec = inr u ->
  (urllib.scheme u = "file" ->
     parse_layer_spec unquote layerspec context false st =
       (match resolve_path context (urllib.path u) with
        | inl e => inl e
        | inr p => inr (p, false)
        end, st))
  ∧ (urllib.scheme u = "layer" ∨ urllib.scheme u = EmptyString ->
     parse_layer_spec unquote layerspec context false st =
       (inr (urllib.path u, false), st))
  ∧ (urllib.scheme u ≠ "file" -> urllib.scheme u ≠ "layer" ->
     urllib.scheme u ≠ EmptyString ->
     ∀ allow, parse_layer_spec unquote layerspec context allow st =
       (inl (InvalidParameterValue ("Bad scheme: " +:+ layerspec)), st))
  ∧ (∀ allow p b st',
       parse_layer_spec unquote layerspec context allow st = (inr (p, b), st') ->
       resolves_to context u p)
  ∧ parse_layer_spec unquote "layer:mylayer" context false st =
      (inr ("mylayer", false), st)
  ∧ parse_layer_spec unquote "mylayer" context false st =
      (inr ("mylayer", false), st)
  ∧ (∀ allow, parse_layer_spec unquote "ftp://x" context allow st =
      (inl (InvalidParameterValue "Bad scheme: ftp://x"), st)).
Proof.
  intros Hu. split; [|split; [|split; [|split; [|split; [|split]]]]].
  - intros Hs.
    destruct (resolve_path context (urllib.path u)) as [e|p] eqn:Hr.
    + now apply (parse_layer_spec_unresolved _ _ u).
    + rewrite (parse_layer_spec_resolved _ _ u p); [reflexivity|assumption|].
      left. now split.
  - intros Hs.
    rewrite (parse_layer_spec_resolved _ _ u (urllib.path u));
      [reflexivity|assumption|]. right. now split.
  - intros Hf Hl He allow. now apply (parse_layer_spec_bad_scheme _ _ u).
  - intros allow p b st' H.
    now destruct (parse_layer_spec_returns _ _ _ _ _ _ _ _ Hu H).
  - reflexivity.
  - reflexivity.
  - intros allow. now apply (parse_layer_spec_bad_scheme _ _
      (urllib.mkParseResult "ftp" "x" EmptyString EmptyString EmptyString EmptyString)).
Qed.

(** C5: with both a [rect] and a [select] field, on an existing vector
    layer, nothing is selected. The code means to select the rectangle
    first and to narrow it by the expression, but it gives the rectangle
    constructor one list of strings, which the constructor does not take:
    the selection fails with [NoApplicableCode] before the layer is asked
    anything, the layer keeps the selection it had and the expression is
    not tried, whatever the layer would answer. With [select] alone the
    expression replaces the selection, as the claim says. *)
Theorem rect_select_never_selects layerspec context u p layer st ftreq :
  urllib.urlparse layerspec = inr u ->
  resolves_to context u p ->
  layers st !! p = Some layer ->
  Qgs.layer_type layer = Qgs.VectorLayer ->
  last (urllib.dict_get "select" (urllib.parse_qs unquote (urllib.query u)))
    = Some ftreq ->
  let qs := urllib.parse_qs unquote (urllib.query u) in
  let debug := mkLog DEBUG "Applying features selection: %s" [ADict qs] in
  (∀ r,
     last (urllib.dict_get "rect" qs) = Some r ->
     parse_layer_spec unquote layerspec context true st =
       (inl (NoApplicableCode "Feature selection failed"),
        mkStore (parameters st) (layers st)
          (LOGGER st ++ [debug; mkLog ERROR traceback_format_exc []])))
  ∧ (∀ E,
       urllib.dict_get "rect" qs = [] ->
       Qgs.features_matching layer ftreq = Some E ->
       let selected := Qgs.selectByIds E Qgs.SetSelection layer in
       parse_layer_spec unquote layerspec context true st =
         (inr (p, true),
          mkStore (parameters st) (<[p := selected]> (layers st))
            (LOGGER st ++ [debug]))
       ∧ Qgs.selectedFeatureIds selected = E).
Proof.
  intros Hu Hp Hl Hv Hreq qs debug.
  assert (Hne : urllib.dict_get "select" qs ≠ []).
  { intros Heq. subst qs. rewrite Heq in Hreq. discriminate. }
  assert (Hstart : parse_layer_spec unquote layerspec context true st
                   = ((log DEBUG "Applying features selection: %s" [ADict qs] ;;
                       apply_selection p layer (urllib.dict_get "rect" qs)
                         (urllib.dict_get "select" qs)) ;;
                      ret (p, true)) st).
  { rewrite (parse_layer_spec_resolved _ _ _ _ _ _ Hu Hp). simpl. fold qs.
    rewrite (bool_decide_eq_false_2 (urllib.dict_get "select" qs = [])) by assumption.
    rewrite andb_false_r.
    unfold bind at 1, getMapLayer. rewrite Hl.
    rewrite (bool_decide_eq_true_2 _ Hv). reflexivity. }
  rewrite Hstart. clear Hstart. split.
  - intros r Hr.
    unfold apply_selection, bind, log, update_layer, ret, raise; simpl.
    rewrite Hr. simpl. now rewrite <- app_assoc.
  - intros E Hr HE selected. split; [|reflexivity].
    unfold apply_selection, bind, log, update_layer, ret; simpl.
    rewrite Hr. simpl.
    fold qs in Hreq. rewrite Hreq.
    unfold Qgs.selectByExpression. rewrite HE. reflexivity.
Qed.


(** C10: with selection allowed, a [rect] or a [select] field and an
    existing layer, [parse_layer_spec] never returns without raising the
    selection flag; on a layer that is not a vector layer it returns the flag
    raised although it selects nothing (it only logs a warning), and the
    feature source built by [input_to_processing] is marked as restricted
    to the selected features. *)
Theorem has_selection_without_selecting layerspec context u p layer st :
  urllib.urlparse layerspec = inr u ->
  resolves_to context u p ->
  layers st !! p = Some layer ->
  urllib.dict_get "rect" (urllib.parse_qs unquote (urllib.query u)) ≠ []
  ∨ urllib.dict_get "select" (urllib.parse_qs unquote (urllib.query u)) ≠ [] ->
  (∀ p' b st',
     parse_layer_spec unquote layerspec context true st = (inr (p', b), st') ->
     b = true)
  ∧ (Qgs.layer_type layer ≠ Qgs.VectorLayer ->
     let st' := logged (mkLog WARNING "Can apply selection only to vector layer" []) st in
     parse_layer_spec unquote layerspec context true st = (inr (p, true), st')
     ∧ layers st' = layers st
     ∧ ∀ identifier param rest,
         parameters st !! identifier = Some param ->
         Param.cls param = Qgs.QgsProcessingParameterFeatureSource ->
         decode identifier ({| data := Py.VStr layerspec |} :: rest) context st =
           (inr (Param.name param, QgsProcessingFeatureSourceDefinition p true), st')).
Proof.
  intros Hu Hp Hl Hq.
  assert (Hc : bool_decide (urllib.dict_get "rect"
                  (urllib.parse_qs unquote (urllib.query u)) = [])
               && bool_decide (urllib.dict_get "select"
                  (urllib.parse_qs unquote (urllib.query u)) = []) = false).
  { destruct Hq as [Hq|Hq]; rewrite (bool_decide_eq_false_2 _ Hq);
      [reflexivity | apply andb_false_r]. }
  split.
  - intros p' b st' H.
    destruct (parse_layer_spec_returns _ _ _ _ _ _ _ _ Hu H) as [_ ->].
    now rewrite Hc.
  - intros Hnv st'.
    assert (Hparse : parse_layer_spec unquote layerspec context true st
                     = (inr (p, true), st')).
    { rewrite (parse_layer_spec_resolved _ _ _ _ _ _ Hu Hp). simpl.
      rewrite Hc. unfold bind at 1, getMapLayer. rewrite Hl.
      rewrite (bool_decide_eq_false_2 _ Hnv). reflexivity. }
    split; [exact Hparse|]. split; [reflexivity|].
    intros identifier param rest Hparam Hcls.
    unfold input_to_processing. unfold bind at 1, parameterDefinition.
    rewrite Hparam, Hcls. simpl.
    unfold bind, ret, as_str. simpl. rewrite Hparse. reflexivity.
Qed.

(** C2: for a destination sink and any submitted values, the decoder turns
    non-file-based output off on the definition and returns an output layer
    definition whose sink is "./<name>.<extension>", a path that ends with
    the default extension of the definition whatever was submitted; the
    first submitted value is the destination name only. *)
Theorem destination_sink_decoding identifier param v rest context st :
  parameters st !! identifier = Some param ->
  isinstance (Param.cls param) DESTINATION_LAYER_TYPES = true ->
  let sink := "./" +:+ Param.name param +:+ "." +:+ Param.defaultFileExtension param in
  let param' := Param.setSupportsNonFileBasedOutput false param in
  decode identifier (v :: rest) context st =
    (inr (Param.name param,
          QgsProcessingOutputLayerDefinition sink (destination_project context) (data v)),
     mkStore (<[identifier := param']> (parameters st)) (layers st) (LOGGER st))
  ∧ Param.supportsNonFileBasedOutput param' = false
  ∧ Py.endswith (Param.defaultFileExtension param) sink = true.
Proof.
  intros Hparam Hcls sink param'. split; [|split].
  - unfold input_to_processing. unfold bind at 1, parameterDefinition.
    rewrite Hparam, Hcls. reflexivity.
  - reflexivity.
  - unfold sink. rewrite <- !app_assoc_str. apply endswith_app.
Qed.

(** C8: for a file or folder destination and a submitted path, the decoder
    returns the base name of the normalized path and never raises; it logs
    the truncation warning exactly when that name differs from what was
    submitted; "../../etc/passwd" gives "passwd". *)
Theorem destination_path_normalized identifier param submitted rest context st :
  parameters st !! identifier = Some param ->
  dispatched_by_class (Param.cls param) = false ->
  Param.type param = "fileDestination" ∨ Param.type param = "folderDestination" ->
  let value := os_path.basename (os_path.normpath submitted) in
  let warning :=
    mkLog WARNING
      "Value for file or folder destination '%s' has been truncated from '%s' to '%s'"
      [AStr identifier; AStr submitted; AStr value] in
  decode identifier ({| data := Py.VStr submitted |} :: rest) context st =
    (inr (Param.name param, Value (Py.VStr value)),
     if bool_decide (value = submitted) then st else logged warning st)
  ∧ os_path.basename (os_path.normpath "../../etc/passwd") = "passwd".
Proof.
  intros Hparam Hcls Htyp value warning. split; [|reflexivity].
  destruct (isinstance_false_of_dispatched _ Hcls) as (H1 & H2 & H3 & H4).
  unfold input_to_processing. unfold bind at 1, parameterDefinition.
  rewrite Hparam, H1, H2, H3, H4.
  assert (Hbranch :
    bool_decide (Param.type param = "enum") = false
    ∧ bool_decide (Param.type param = "extent") = false
    ∧ bool_decide (Param.type param = "crs") = false
    ∧ bool_decide (Param.type param = "fileDestination")
      || bool_decide (Param.type param = "folderDestination") = true).
  { destruct Htyp as [-> | ->]; repeat split. }
  destruct Hbranch as (-> & -> & -> & ->).
  unfold bind, ret, as_str, first_input, log, logged; simpl. fold value.
  destruct (bool_decide (value = submitted)); reflexivity.
Qed.

(** C9: for a parameter that reaches the fallback of the decoder, an empty
    list of submitted values gives the null value without raising, with a
    warning logged exactly when the parameter is not optional; otherwise
    the raw data of the first submitted value is returned unchanged. *)
Theorem fallback_decoding identifier param context st :
  parameters st !! identifier = Some param ->
  dispatched_by_class (Param.cls param) = false ->
  dispatched_by_type (Param.type param) = false ->
  let warning := mkLog WARNING "Required input %s has no value" [AStr identifier] in
  decode identifier [] context st =
    (inr (Param.name param, Value Py.VNone),
     if _is_optional param then st else logged warning st)
  ∧ ∀ v rest,
      decode identifier (v :: rest) context st =
        (inr (Param.name param, Value (data v)), st).
Proof.
  intros Hparam Hcls Htyp warning.
  destruct (isinstance_false_of_dispatched _ Hcls) as (H1 & H2 & H3 & H4).
  assert (Hbranch :
    bool_decide (Param.type param = "enum") = false
    ∧ bool_decide (Param.type param = "extent") = false
    ∧ bool_decide (Param.type param = "crs") = false
    ∧ bool_decide (Param.type param = "fileDestination") = false
    ∧ bool_decide (Param.type param = "folderDestination") = false
    ∧ bool_decide (Param.type param = "file") = false).
  { unfold dispatched_by_type in Htyp. apply bool_decide_eq_false_1 in Htyp.
    repeat split; apply bool_decide_eq_false_2; intros Heq; apply Htyp;
      rewrite Heq; set_solver. }
  destruct Hbranch as (E1 & E2 & E3 & E4 & E5 & E6).
  split; [|intros v rest];
    unfold input_to_processing; unfold bind at 1, parameterDefinition;
    rewrite Hparam, H1, H2, H3, H4, E1, E2, E3, E4, E5, E6; simpl.
  - unfold bind, ret, log, logged. destruct (_is_optional param); reflexivity.
  - reflexivity.
Qed.


End DecoderProperties.

(** ** The enum round trip *)

Section EnumRoundTrip.

Variable types_map : string -> option string.
Variable unquote : string -> string.
Variable input_to_extent : InputValue -> M NativeValue.
Variable input_to_point : InputValue -> M NativeValue.
Variable input_to_file : InputValue -> Param.t -> ProcessingContext -> M NativeValue.

Abbreviation decode :=
  (input_to_processing unquote input_to_extent input_to_point input_to_file).

(** The default advertised for an enum whose native default is the index
    [i], alone or first of a list. *)
Lemma enum_default_advertised param context i s :
  Param.type param = "enum" ->
  Param.options param !! i = Some s ->
  Param.defaultValue param = Py.VInt (Z.of_nat i)
  ∨ (∃ more, Param.defaultValue param = Py.VList (Py.VInt (Z.of_nat i) :: more)) ->
  ∃ inp, parse_input_definition types_map param context = inr inp
         ∧ default (input_kwargs_of inp) = Py.VStr s.
Proof.
  intros Htyp Hi Hdef.
  unfold parse_input_definition, parse_literal_input. rewrite Htyp. simpl.
  assert (Hd : ∀ k, enum_default (Param.options param) (Param.defaultValue param) k
                    = inr (set_default (Py.VStr s) k)).
  { intros k. unfold enum_default.
    destruct Hdef as [-> | [more ->]]; simpl;
      rewrite (getitem_in_range _ _ _ Hi); reflexivity. }
  rewrite Hd. simpl. eexists. split; reflexivity.
Qed.

(** The enum branch of the decoder on one submitted string. *)
Lemma enum_decoded identifier param d context st :
  parameters st !! identifier = Some param ->
  dispatched_by_class (Param.cls param) = false ->
  Param.type param = "enum" ->
  decode identifier [{| data := d |}] context st =
    match Py.index (Py.eq_str d) (Param.options param) with
    | Some j => (inr (Param.name param, Value (Py.VInt (Z.of_nat j))), st)
    | None => (inl ValueError, st)
    end.
Proof.
  intros Hparam Hcls Htyp.
  destruct (isinstance_false_of_dispatched _ Hcls) as (H1 & H2 & H3 & H4).
  unfold input_to_processing. unfold bind at 1, parameterDefinition.
  rewrite Hparam, H1, H2, H3, H4, Htyp. simpl. rewrite andb_false_r.
  unfold bind, ret, options_index; simpl.
  destruct (Py.index _ _); reflexivity.
Qed.

(** C1, amended: the default advertised for index [i] is the option at [i],
    and decoding that string gives the first position [j] of the same
    option, so [j = i] exactly when the option does not occur before [i], as
    in every list of options without repetition. *)
Theorem enum_roundtrip_first_index param context identifier ctx st i :
  Param.type param = "enum" ->
  dispatched_by_class (Param.cls param) = false ->
  parameters st !! identifier = Some param ->
  (i < length (Param.options param))%nat ->
  Param.defaultValue param = Py.VInt (Z.of_nat i)
  ∨ (∃ more, Param.defaultValue param = Py.VList (Py.VInt (Z.of_nat i) :: more)) ->
  ∃ s j,
    Param.options param !! i = Some s
    ∧ (∃ inp, parse_input_definition types_map param context = inr inp
              ∧ default (input_kwargs_of inp) = Py.VStr s)
    ∧ decode identifier [{| data := Py.VStr s |}] ctx st =
        (inr (Param.name param, Value (Py.VInt (Z.of_nat j))), st)
    ∧ Param.options param !! j = Some s
    ∧ (j <= i)%nat
    ∧ (∀ k, (k < j)%nat -> Param.options param !! k ≠ Some s)
    ∧ ((∀ k, (k < i)%nat -> Param.options param !! k ≠ Some s) -> j = i)
    ∧ (NoDup (Param.options param) -> j = i).
Proof.
  intros Htyp Hcls Hparam Hi Hdef.
  destruct (lookup_lt_is_Some_2 _ _ Hi) as [s Hs].
  destruct (index_of_option _ _ _ Hs) as (j & Hj & Hjs & Hle & Hmin & Hnd).
  exists s, j. split; [exact Hs|]. split.
  { exact (enum_default_advertised _ _ _ _ Htyp Hs Hdef). }
  split.
  { rewrite (enum_decoded _ _ _ _ _ Hparam Hcls Htyp), Hj. reflexivity. }
  split; [exact Hjs|]. split; [exact Hle|]. split; [exact Hmin|]. split; [|exact Hnd].
  intros Hfirst. destruct (decide (j = i)) as [|Hne]; [assumption|].
  exfalso. apply (Hfirst j); [lia | assumption].
Qed.

End EnumRoundTrip.
(** ** The theorems at sample inputs *)

(** C1, as stated, fails on a list with a repeated option: the default at
    index 2 is advertised as "nearest", which decodes to index 0. *)
Lemma enum_roundtrip_fails_on_repeated_option :
  Param.options Sample.METHOD !! 2%nat = Some "nearest"
  ∧ Param.defaultValue Sample.METHOD = Py.VInt 2
  ∧ parse_input_definition Sample.types_map Sample.METHOD None
    = inr (LiteralInput
             (mk_input "METHOD" "METHOD" "A choice" [("processing:type", "enum")]
                (Py.VStr "nearest") None (Some 1) (Some "string")
                (Some (Values ["nearest"; "linear"; "nearest"])) None None))
  ∧ Sample.decode "METHOD" [{| data := Py.VStr "nearest" |}] Sample.context Sample.store
    = (inr ("METHOD", Value (Py.VInt 0)), Sample.store)
  ∧ Value (Py.VInt 0) ≠ Value (Py.VInt 2).
Proof. repeat split; discriminate. Qed.

Lemma enum_roundtrip_first_index_witness :
  ∃ s j,
    Param.options Sample.KERNEL !! 1%nat = Some s
    ∧ (∃ inp, parse_input_definition Sample.types_map Sample.KERNEL None = inr inp
              ∧ default (input_kwargs_of inp) = Py.VStr s)
    ∧ Sample.decode "KERNEL" [{| data := Py.VStr s |}] Sample.context Sample.store =
        (inr (Param.name Sample.KERNEL, Value (Py.VInt (Z.of_nat j))), Sample.store)
    ∧ Param.options Sample.KERNEL !! j = Some s
    ∧ (j <= 1)%nat
    ∧ (∀ k, (k < j)%nat -> Param.options Sample.KERNEL !! k ≠ Some s)
    ∧ ((∀ k, (k < 1)%nat -> Param.options Sample.KERNEL !! k ≠ Some s) -> j = 1%nat)
    ∧ (NoDup (Param.options Sample.KERNEL) -> j = 1%nat).
Proof.
  apply (enum_roundtrip_first_index Sample.types_map Sample.unquote
           Sample.input_to_extent Sample.input_to_point Sample.input_to_file
           Sample.KERNEL None "KERNEL" Sample.context Sample.store 1).
  - reflexivity.
  - reflexivity.
  - reflexivity.
  - simpl. lia.
  - left. reflexivity.
Defined.

Lemma destination_sink_decoding_witness :
  Sample.decode "OUTPUT" [{| data := Py.VStr "my layer" |}] Sample.context Sample.store
  = (inr ("OUTPUT",
          QgsProcessingOutputLayerDefinition "./OUTPUT.shp" "destination"
            (Py.VStr "my layer")),
     mkStore (<["OUTPUT" := Param.setSupportsNonFileBasedOutput false Sample.OUTPUT]>
                (parameters Sample.store))
             (layers Sample.store) (LOGGER Sample.store))
  ∧ Param.supportsNonFileBasedOutput
      (Param.setSupportsNonFileBasedOutput false Sample.OUTPUT) = false
  ∧ Py.endswith "shp" "./OUTPUT.shp" = true.
Proof.
  apply (destination_sink_decoding Sample.unquote
           Sample.input_to_extent Sample.input_to_point Sample.input_to_file
           "OUTPUT" Sample.OUTPUT {| data := Py.VStr "my layer" |} []
           Sample.context Sample.store).
  - reflexivity.
  - reflexivity.
Defined.

Lemma optional_iff_min_occurs_zero_witness :
  ∃ inp, parse_input_definition Sample.types_map Sample.TITLE None = inr inp
         ∧ multilayer_override Sample.TITLE = false
         ∧ (input_min_occurs inp = 0 <-> _is_optional Sample.TITLE = true).
Proof.
  eexists. split; [reflexivity|]. split; [reflexivity|].
  apply (optional_iff_min_occurs_zero Sample.types_map Sample.TITLE None).
  - reflexivity.
  - reflexivity.
Defined.

(** C4, as stated, fails on a string that [urlparse] rejects: with an
    unbalanced bracket in the network location no scheme is ever looked at
    and [ValueError] leaves [parse_layer_spec], where the claim has
    [InvalidParameterValue] for the scheme "ftp", a resolved path for the
    scheme "file" and the path unchanged for no scheme. *)
Lemma parse_layer_spec_fails_on_unparsable_spec :
  parse_layer_spec Sample.unquote "ftp://[x" Sample.context false Sample.store
  = (inl ValueError, Sample.store)
  ∧ ValueError ≠ InvalidParameterValue "Bad scheme: ftp://[x"
  ∧ parse_layer_spec Sample.unquote "file://[x/y" Sample.context false Sample.store
    = (inl ValueError, Sample.store)
  ∧ parse_layer_spec Sample.unquote "//[x" Sample.context false Sample.store
    = (inl ValueError, Sample.store).
Proof. repeat split; discriminate. Qed.

Lemma parse_layer_spec_schemes_witness :
  urllib.urlparse "file:///roads.shp"
  = inr (urllib.mkParseResult "file" EmptyString "/roads.shp" EmptyString
           EmptyString EmptyString)
  ∧ parse_layer_spec Sample.unquote "file:///roads.shp" Sample.context false Sample.store
    = (inr ("/srv/data/projects/roads.shp", false), Sample.store).
Proof.
  split; [reflexivity|].
  apply (parse_layer_spec_schemes Sample.unquote "file:///roads.shp" Sample.context
           (urllib.mkParseResult "file" EmptyString "/roads.shp" EmptyString
              EmptyString EmptyString) Sample.store).
  - reflexivity.
  - reflexivity.
Defined.

Lemma rect_select_never_selects_witness :
  parse_layer_spec Sample.unquote "layer:roads?rect=0,0,10,10&select=speed>50"
    Sample.context true Sample.store
  = (inl (NoApplicableCode "Feature selection failed"),
     mkStore (parameters Sample.store) (layers Sample.store)
       (LOGGER Sample.store
        ++ [mkLog DEBUG "Applying features selection: %s"
              [ADict [("rect", ["0,0,10,10"]); ("select", ["speed>50"])]];
            mkLog ERROR traceback_format_exc []])).
Proof.
  apply (proj1 (rect_select_never_selects Sample.unquote
           "layer:roads?rect=0,0,10,10&select=speed>50" Sample.context
           (urllib.mkParseResult "layer" EmptyString "roads" EmptyString
              "rect=0,0,10,10&select=speed>50" EmptyString)
           "roads" Sample.roads Sample.store "speed>50"
           eq_refl (or_intror (conj (or_introl eq_refl) eq_refl))
           eq_refl eq_refl eq_refl) "0,0,10,10").
  reflexivity.
Defined.

Lemma destination_path_normalized_witness :
  Sample.decode "REPORT" [{| data := Py.VStr "../../etc/passwd" |}]
    Sample.context Sample.store
  = (inr ("REPORT", Value (Py.VStr "passwd")),
     logged (mkLog WARNING
               "Value for file or folder destination '%s' has been truncated from '%s' to '%s'"
               [AStr "REPORT"; AStr "../../etc/passwd"; AStr "passwd"])
            Sample.store).
Proof.
  apply (proj1 (destination_path_normalized Sample.unquote
           Sample.input_to_extent Sample.input_to_point Sample.input_to_file
           "REPORT" Sample.REPORT "../../etc/passwd" [] Sample.context Sample.store
           eq_refl eq_refl (or_introl eq_refl))).
Defined.

Lemma fallback_decoding_witness :
  Sample.decode "EXPRESSION" [] Sample.context Sample.store
  = (inr ("EXPRESSION", Value Py.VNone),
     logged (mkLog WARNING "Required input %s has no value" [AStr "EXPRESSION"])
            Sample.store)
  ∧ Sample.decode "FILTER" [] Sample.context Sample.store
    = (inr ("FILTER", Value Py.VNone), Sample.store).
Proof.
  split.
  - apply (proj1 (fallback_decoding Sample.unquote
             Sample.input_to_extent Sample.input_to_point Sample.input_to_file
             "EXPRESSION" Sample.EXPRESSION Sample.context Sample.store
             eq_refl eq_refl eq_refl)).
  - apply (proj1 (fallback_decoding Sample.unquote
             Sample.input_to_extent Sample.input_to_point Sample.input_to_file
             "FILTER" Sample.FILTER Sample.context Sample.store
             eq_refl eq_refl eq_refl)).
Defined.

Lemma has_selection_without_selecting_witness :
  let st' := logged (mkLog WARNING "Can apply selection only to vector layer" [])
                    Sample.store in
  parse_layer_spec Sample.unquote "dem?select=speed>50" Sample.context true Sample.store
  = (inr ("dem", true), st')
  ∧ layers st' = layers Sample.store
  ∧ Sample.decode "INPUT" [{| data := Py.VStr "dem?select=speed>50" |}]
      Sample.context Sample.store
    = (inr ("INPUT", QgsProcessingFeatureSourceDefinition "dem" true), st').
Proof.
  intros st'.
  assert (Hu : urllib.urlparse "dem?select=speed>50"
               = inr (urllib.mkParseResult EmptyString EmptyString "dem" EmptyString
                        "select=speed>50" EmptyString)) by reflexivity.
  assert (Hp : resolves_to Sample.context
                 (urllib.mkParseResult EmptyString EmptyString "dem" EmptyString
                    "select=speed>50" EmptyString) "dem").
  { right. split; [right|]; reflexivity. }
  assert (Hl : layers Sample.store !! "dem" = Some Sample.dem) by reflexivity.
  assert (Hq : urllib.dict_get "rect"
                 (urllib.parse_qs Sample.unquote "select=speed>50") ≠ []
               ∨ urllib.dict_get "select"
                 (urllib.parse_qs Sample.unquote "select=speed>50") ≠ []).
  { right. vm_compute. discriminate. }
  assert (Hnv : Qgs.layer_type Sample.dem ≠ Qgs.VectorLayer) by discriminate.
  destruct (proj2 (has_selection_without_selecting Sample.unquote
             Sample.input_to_extent Sample.input_to_point Sample.input_to_file
             "dem?select=speed>50" Sample.context _ "dem" Sample.dem Sample.store
             Hu Hp Hl Hq) Hnv) as (H1 & H2 & H3).
  split; [exact H1|]. split; [exact H2|].
  exact (H3 "INPUT" Sample.INPUT [] eq_refl eq_refl).
Defined.

Lemma html_output_as_reference_not_passed_witness :
  let html :=
    ComplexOutput
      (mk_output "OUTPUT_HTML_FILE" "Report" "Report" None
         (Some [Format_new (Some "text/html")]) None) in
  parse_output_definition Sample.types_map (Sample.confservice true)
    Sample.html_output None Sample.store = (inr html, Sample.store)
  ∧ parse_output_definition Sample.types_map (Sample.confservice false)
      Sample.html_output None Sample.store = (inr html, Sample.store).
Proof.
  split.
  - apply (html_output_as_reference_not_passed Sample.types_map
             (Sample.confservice true) Sample.html_output None Sample.store);
      [reflexivity | discriminate | discriminate].
  - apply (html_output_as_reference_not_passed Sample.types_map
             (Sample.confservice false) Sample.html_output None Sample.store);
      [reflexivity | discriminate | discriminate].
Defined.

(** * Further properties *)

(** ** What every translated input carries *)

Lemma grows_refl k : grows k k.
Proof. repeat split. exists []. now rewrite app_nil_r. Qed.

Lemma grows_trans k1 k2 k3 : grows k1 k2 -> grows k2 k3 -> grows k1 k3.
Proof.
  intros (Hi & Ht & Ha & m & Hm) (Hi' & Ht' & Ha' & m' & Hm').
  repeat split; try congruence.
  exists (m ++ m')%list. now rewrite Hm', Hm, app_assoc.
Qed.

Lemma grows_append m k : grows k (append_metadata m k).
Proof. repeat split. now exists [m]. Qed.

Ltac grows_set := repeat split; exists []; simpl; now rewrite app_nil_r.

Lemma grows_set_data_type v k : grows k (set_data_type v k).
Proof. grows_set. Qed.
Lemma grows_set_default v k : grows k (set_default v k).
Proof. grows_set. Qed.
Lemma grows_set_min_occurs v k : grows k (set_min_occurs v k).
Proof. grows_set. Qed.
Lemma grows_set_max_occurs v k : grows k (set_max_occurs v k).
Proof. grows_set. Qed.
Lemma grows_set_allowed_values v k : grows k (set_allowed_values v k).
Proof. grows_set. Qed.
Lemma grows_set_supported_formats v k : grows k (set_supported_formats v k).
Proof. grows_set. Qed.
Lemma grows_set_crss v k : grows k (set_crss v k).
Proof. grows_set. Qed.

Create HintDb grows.
#[local] Hint Resolve grows_refl grows_append grows_set_data_type grows_set_default
  grows_set_min_occurs grows_set_max_occurs grows_set_allowed_values
  grows_set_supported_formats grows_set_crss : grows.
#[local] Hint Extern 2 (grows _ _) => eapply grows_trans; [|solve [eauto with grows]] : grows.

Section TranslatorExtras.

Variable types_map : string -> option string.

Lemma enum_default_grows options d k k' :
  enum_default options d k = inr k' -> grows k k'.
Proof.
  unfold enum_default, getitem_or_IndexError, rbind.
  intros H. repeat case_match; simplify_eq; auto with grows.
Qed.

Lemma parse_literal_input_grows param kwargs inp :
  parse_literal_input param kwargs = inr (Some inp) ->
  grows kwargs (input_kwargs_of inp).
Proof.
  unfold parse_literal_input, lookup_or_KeyError, rbind. intros H.
  repeat case_bool_decide; simplify_eq; simpl; eauto 10 with grows.
  destruct (enum_default _ _ _) as [e|k'] eqn:Hd; simplify_eq. simpl.
  eapply grows_trans; [|exact (enum_default_grows _ _ _ _ Hd)].
  eauto 10 with grows.
Qed.

Lemma parse_allowed_layers_grows param kwargs context kwargs' :
  parse_allowed_layers param kwargs context = inr kwargs' -> grows kwargs kwargs'.
Proof.
  unfold parse_allowed_layers, lookup_or_KeyError, rbind. intros H.
  destruct (mapM SourceTypes _) as [names|]; [|discriminate].
  destruct context as [context|]; simplify_eq;
    repeat case_bool_decide; eauto 10 with grows.
Qed.

Lemma parse_layer_input_grows param kwargs context inp :
  parse_layer_input param kwargs context = inr (Some inp) ->
  grows kwargs (input_kwargs_of inp).
Proof.
  unfold parse_layer_input, rbind. intros H.
  destruct (isinstance (Param.cls param) INPUT_LAYER_TYPES).
  - destruct (parse_allowed_layers _ _ _) as [e|k'] eqn:Hk; simplify_eq. simpl.
    eapply grows_trans; [|exact (parse_allowed_layers_grows _ _ _ _ Hk)].
    auto with grows.
  - repeat case_match; simplify_eq; simpl; eauto 10 with grows.
Qed.

Lemma parse_extent_input_grows param kwargs inp :
  parse_extent_input param kwargs = inr (Some inp) ->
  grows kwargs (input_kwargs_of inp).
Proof.
  unfold parse_extent_input. intros H. case_bool_decide; simplify_eq.
  simpl. auto with grows.
Qed.

Lemma parse_file_input_grows param kwargs inp :
  parse_file_input types_map param kwargs = inr (Some inp) ->
  grows kwargs (input_kwargs_of inp).
Proof.
  unfold parse_file_input. intros H.
  repeat (case_bool_decide || case_match); simplify_eq; simpl; eauto 10 with grows.
Qed.

Lemma parse_point_input_grows param kwargs inp :
  parse_point_input param kwargs = inr (Some inp) ->
  grows kwargs (input_kwargs_of inp).
Proof.
  unfold parse_point_input. intros H. case_match; simplify_eq.
  simpl. auto with grows.
Qed.

(** The matcher that produced the input of a parameter, if any. *)
Lemma parse_input_definition_inv param context inp :
  parse_input_definition types_map param context = inr inp ->
  ∃ kwargs inp0,
    inp = with_kwargs (parse_metadata param) inp0
    ∧ identifier kwargs = Param.name param
    ∧ title kwargs = Py.replace "_" " " (Param.name param)
    ∧ abstract kwargs = Param.description param
    ∧ metadata kwargs = [("processing:type", Param.type param)]
    ∧ default kwargs
      = match Param.defaultValue param with
        | Py.VQVariant None => Py.VNone
        | Py.VQVariant (Some v) => v
        | v => v
        end
    ∧ (parse_literal_input param kwargs = inr (Some inp0)
       ∨ parse_layer_input param kwargs context = inr (Some inp0)
       ∨ parse_extent_input param kwargs = inr (Some inp0)
       ∨ parse_file_input types_map param kwargs = inr (Some inp0)
       ∨ parse_point_input param kwargs = inr (Some inp0)).
Proof.
  unfold parse_input_definition.
  set (kwargs0 := mk_input _ _ _ _ _ _ _ _ _ _ _).
  set (kwargs := if _is_optional param then _ else _).
  assert (Hk : identifier kwargs = Param.name param
               ∧ title kwargs = Py.replace "_" " " (Param.name param)
               ∧ abstract kwargs = Param.description param
               ∧ metadata kwargs = [("processing:type", Param.type param)]
               ∧ default kwargs
                 = match Param.defaultValue param with
                   | Py.VQVariant None => Py.VNone
                   | Py.VQVariant (Some v) => v
                   | v => v
                   end).
  { unfold kwargs. destruct (_is_optional param); repeat split. }
  clearbody kwargs. clear kwargs0. destruct Hk as (Hi & Ht & Ha & Hm & Hd).
  unfold rbind, or_else. intros H.
  exists kwargs.
  destruct (parse_literal_input param kwargs) as [e|[i1|]] eqn:H1;
    [discriminate|simplify_eq; eauto 14|].
  destruct (parse_layer_input param kwargs context) as [e|[i2|]] eqn:H2;
    [discriminate|simplify_eq; eauto 14|].
  destruct (parse_extent_input param kwargs) as [e|[i3|]] eqn:H3;
    [discriminate|simplify_eq; eauto 14|].
  destruct (parse_file_input types_map param kwargs) as [e|[i4|]] eqn:H4;
    [discriminate|simplify_eq; eauto 14|].
  destruct (parse_point_input param kwargs) as [e|[i5|]] eqn:H5;
    [discriminate|simplify_eq; eauto 16|].
  discriminate.
Qed.

(** X1: every translated input is identified by the name of the parameter,
    titled with that name with underscores turned into spaces, and carries
    the description as abstract, whatever the kind. *)
Theorem translated_input_header param context inp :
  parse_input_definition types_map param context = inr inp ->
  identifier (input_kwargs_of inp) = Param.name param
  ∧ title (input_kwargs_of inp) = Py.replace "_" " " (Param.name param)
  ∧ abstract (input_kwargs_of inp) = Param.description param.
Proof.
  intros H.
  destruct (parse_input_definition_inv _ _ _ H)
    as (kwargs & inp0 & -> & Hi & Ht & Ha & Hm & Hd & Hmatch).
  assert (Hg : grows kwargs (input_kwargs_of inp0)).
  { destruct Hmatch as [Hx|[Hx|[Hx|[Hx|Hx]]]];
      eauto using parse_literal_input_grows, parse_layer_input_grows,
        parse_extent_input_grows, parse_file_input_grows, parse_point_input_grows. }
  destruct Hg as (Gi & Gt & Ga & _).
  destruct inp0; simpl in *; repeat split; congruence.
Qed.

(** X2: the metadata of every translated input open with the kind of the
    parameter and close with its freeform metadata, in their order and under
    prefixed keys; what a matcher adds lies in between. *)
Theorem translated_input_metadata param context inp :
  parse_input_definition types_map param context = inr inp ->
  ∃ specific,
    metadata (input_kwargs_of inp)
    = (("processing:type", Param.type param) :: specific
       ++ freeform_metadata param)%list.
Proof.
  intros H.
  destruct (parse_input_definition_inv _ _ _ H)
    as (kwargs & inp0 & -> & Hi & Ht & Ha & Hm & Hd & Hmatch).
  assert (Hg : grows kwargs (input_kwargs_of inp0)).
  { destruct Hmatch as [Hx|[Hx|[Hx|[Hx|Hx]]]];
      eauto using parse_literal_input_grows, parse_layer_input_grows,
        parse_extent_input_grows, parse_file_input_grows, parse_point_input_grows. }
  destruct Hg as (_ & _ & _ & more & Gm).
  exists more. rewrite Hm in Gm.
  destruct inp0; simpl in *; unfold freeform_metadata; now rewrite Gm.
Qed.

Lemma parse_literal_input_default param kwargs inp :
  Param.type param ≠ "enum" ->
  parse_literal_input param kwargs = inr (Some inp) ->
  default (input_kwargs_of inp) = default kwargs.
Proof.
  unfold parse_literal_input, lookup_or_KeyError, rbind. intros Htyp H.
  rewrite (bool_decide_eq_false_2 _ Htyp) in H.
  repeat case_bool_decide; simplify_eq; reflexivity.
Qed.

Lemma parse_layer_input_default param kwargs context inp :
  parse_layer_input param kwargs context = inr (Some inp) ->
  default (input_kwargs_of inp) = default kwargs.
Proof.
  unfold parse_layer_input, rbind. intros H.
  destruct (isinstance (Param.cls param) INPUT_LAYER_TYPES).
  - destruct (parse_allowed_layers _ _ _) as [e|k'] eqn:Hk; simplify_eq. simpl.
    unfold parse_allowed_layers, lookup_or_KeyError, rbind in Hk.
    destruct (mapM SourceTypes _) as [names|]; [|discriminate].
    destruct context as [context|]; simplify_eq;
      repeat case_bool_decide; reflexivity.
  - repeat case_match; simplify_eq; reflexivity.
Qed.

Lemma parse_other_input_default param kwargs inp :
  parse_extent_input param kwargs = inr (Some inp)
  ∨ parse_file_input types_map param kwargs = inr (Some inp)
  ∨ parse_point_input param kwargs = inr (Some inp) ->
  default (input_kwargs_of inp) = default kwargs.
Proof.
  unfold parse_extent_input, parse_file_input, parse_point_input.
  intros [H|[H|H]];
    repeat (case_bool_decide || case_match); simplify_eq; reflexivity.
Qed.

End TranslatorExtras.

Lemma literal_kind_false typ :
  literal_kind typ = false <->
  typ ≠ "string" ∧ typ ≠ "boolean" ∧ typ ≠ "enum" ∧ typ ≠ "number"
  ∧ typ ≠ "field" ∧ typ ≠ "crs" ∧ typ ≠ "band".
Proof.
  unfold literal_kind. rewrite bool_decide_eq_false.
  rewrite !not_elem_of_cons. pose proof (not_elem_of_nil typ). tauto.
Qed.

Lemma extent_or_file_kind_false typ :
  extent_or_file_kind typ = false <->
  typ ≠ "extent" ∧ typ ≠ "file" ∧ typ ≠ "fileDestination"
  ∧ typ ≠ "folderDestination".
Proof.
  unfold extent_or_file_kind. rewrite bool_decide_eq_false.
  rewrite !not_elem_of_cons. pose proof (not_elem_of_nil typ). tauto.
Qed.

Lemma parse_literal_input_None param kwargs :
  parse_literal_input param kwargs = inr None <->
  literal_kind (Param.type param) = false.
Proof.
  rewrite literal_kind_false. unfold parse_literal_input, lookup_or_KeyError, rbind.
  split.
  - intros H. repeat case_bool_decide; simplify_eq; try (repeat split; assumption).
    + destruct (enum_default _ _ _); discriminate.
  - intros (H1 & H2 & H3 & H4 & H5 & H6 & H7).
    now rewrite !bool_decide_eq_false_2 by assumption.
Qed.

Lemma parse_layer_input_None param kwargs context :
  parse_layer_input param kwargs context = inr None <->
  layer_class (Param.cls param) = false.
Proof.
  unfold parse_layer_input, layer_class, isinstance, rbind.
  destruct (Param.cls param); simpl; split; intros H; try reflexivity;
    try discriminate; try (destruct (parse_allowed_layers _ _ _); discriminate).
Qed.

Lemma parse_point_input_None param kwargs :
  parse_point_input param kwargs = inr None <->
  isinstance (Param.cls param) [Qgs.QgsProcessingParameterPoint] = false.
Proof.
  unfold parse_point_input. destruct (isinstance _ _); split; congruence.
Qed.

Section Unsupported.

Variable types_map : string -> option string.

Lemma parse_extent_file_input_None param kwargs :
  parse_extent_input param kwargs = inr None
  ∧ parse_file_input types_map param kwargs = inr None <->
  extent_or_file_kind (Param.type param) = false.
Proof.
  rewrite extent_or_file_kind_false. unfold parse_extent_input, parse_file_input.
  split.
  - intros [H1 H2].
    repeat case_bool_decide; simplify_eq; try (repeat split; assumption);
      try (destruct (Param.behavior param); discriminate).
  - intros (H1 & H2 & H3 & H4).
    now rewrite !bool_decide_eq_false_2 by assumption.
Qed.

Lemma matcher_errors param kwargs context e :
  parse_literal_input param kwargs = inl e
  ∨ parse_layer_input param kwargs context = inl e
  ∨ parse_extent_input param kwargs = inl e
  ∨ parse_file_input types_map param kwargs = inl e
  ∨ parse_point_input param kwargs = inl e ->
  e = KeyError ∨ e = IndexError ∨ e = TypeError
  ∨ ∃ msg, e = InvalidParameterValue msg.
Proof.
  intros [H|[H|[H|[H|H]]]].
  - unfold parse_literal_input, lookup_or_KeyError, rbind in H.
    repeat case_bool_decide; simplify_eq; auto.
    unfold enum_default, getitem_or_IndexError, rbind in H.
    repeat case_match; simplify_eq; eauto.
  - unfold parse_layer_input, rbind in H.
    repeat case_match; simplify_eq.
    unfold parse_allowed_layers, lookup_or_KeyError, rbind in *.
    repeat case_match; simplify_eq; auto.
  - unfold parse_extent_input in H. case_bool_decide; discriminate.
  - unfold parse_file_input in H. repeat (case_bool_decide || case_match); discriminate.
  - unfold parse_point_input in H. case_match; discriminate.
Qed.

(** X3: translation fails with [ProcessingInputTypeNotSupported] exactly for
    the parameters no matcher recognizes, and the message then names the
    class and the kind of the parameter; a recognized parameter either
    translates or fails with another exception. *)
Theorem unsupported_input_kinds param context :
  (recognized param = false ->
   parse_input_definition types_map param context
   = inl (ProcessingInputTypeNotSupported
            ("<class '" +:+ Qgs.parameter_class_name (Param.cls param)
             +:+ "'>:'" +:+ Param.type param +:+ "'")))
  ∧ (∀ msg,
       parse_input_definition types_map param context
       = inl (ProcessingInputTypeNotSupported msg) ->
       recognized param = false).
Proof.
  unfold recognized. split.
  - intros H.
    apply orb_false_elim in H as [H Hpoint].
    apply orb_false_elim in H as [H Hfile].
    apply orb_false_elim in H as [Hlit Hlayer].
    unfold parse_input_definition.
    set (kwargs := if _is_optional param then _ else _). clearbody kwargs.
    rewrite (proj2 (parse_literal_input_None param kwargs) Hlit).
    unfold or_else at 1.
    rewrite (proj2 (parse_layer_input_None param kwargs context) Hlayer).
    unfold or_else at 1.
    destruct (proj2 (parse_extent_file_input_None param kwargs) Hfile) as [-> ->].
    unfold or_else.
    rewrite (proj2 (parse_point_input_None param kwargs) Hpoint).
    reflexivity.
  - intros msg. unfold parse_input_definition.
    set (kwargs := if _is_optional param then _ else _). clearbody kwargs.
    unfold rbind, or_else. intros H.
    assert (Herr : ∀ e, parse_literal_input param kwargs = inl e
                   ∨ parse_layer_input param kwargs context = inl e
                   ∨ parse_extent_input param kwargs = inl e
                   ∨ parse_file_input types_map param kwargs = inl e
                   ∨ parse_point_input param kwargs = inl e ->
                   e ≠ ProcessingInputTypeNotSupported msg).
    { intros e He. destruct (matcher_errors _ _ _ _ He) as [->|[->|[->|[m ->]]]];
        discriminate. }
    destruct (parse_literal_input param kwargs) as [e|[i1|]] eqn:H1;
      [simplify_eq; exfalso; eapply Herr; eauto | discriminate |].
    destruct (parse_layer_input param kwargs context) as [e|[i2|]] eqn:H2;
      [simplify_eq; exfalso; eapply Herr; eauto | discriminate |].
    destruct (parse_extent_input param kwargs) as [e|[i3|]] eqn:H3;
      [simplify_eq; exfalso; eapply Herr; eauto | discriminate |].
    destruct (parse_file_input types_map param kwargs) as [e|[i4|]] eqn:H4;
      [simplify_eq; exfalso; eapply Herr; eauto | discriminate |].
    destruct (parse_point_input param kwargs) as [e|[i5|]] eqn:H5;
      [simplify_eq; exfalso; eapply Herr; eauto 6 | discriminate |].
    apply parse_literal_input_None in H1. apply parse_layer_input_None in H2.
    pose proof (proj1 (parse_extent_file_input_None param kwargs) (conj H3 H4)) as H34.
    apply parse_point_input_None in H5.
    now rewrite H1, H2, H34, H5.
Qed.

End Unsupported.

Lemma getitem_negative {A} (l : list A) (z : Z) :
  - Z.of_nat (length l) <= z < 0 ->
  ∃ x, l !! Z.to_nat (Z.of_nat (length l) + z) = Some x
       ∧ getitem_or_IndexError l z = inr x.
Proof.
  intros Hz. unfold getitem_or_IndexError, Py.getitem.
  rewrite (proj2 (Z.leb_gt 0 z)) by lia.
  rewrite (proj2 (Z.leb_le _ _)) by lia.
  destruct (lookup_lt_is_Some_2 l (Z.to_nat (Z.of_nat (length l) + z))) as [x Hx];
    [lia|].
  exists x. now rewrite Hx.
Qed.

Lemma getitem_out_of_range {A} (l : list A) (z : Z) :
  z < - Z.of_nat (length l) ∨ Z.of_nat (length l) <= z ->
  getitem_or_IndexError l z = inl IndexError.
Proof.
  intros Hz. unfold getitem_or_IndexError, Py.getitem.
  destruct (Z.leb_spec 0 z).
  - rewrite lookup_ge_None_2; [reflexivity | lia].
  - rewrite (proj2 (Z.leb_gt _ _)) by lia. reflexivity.
Qed.

Section EnumDefaults.

Variable types_map : string -> option string.

(** The translation of an enum, from the outcome of its default. *)
Lemma parse_input_definition_enum param context :
  Param.type param = "enum" ->
  ∃ kwargs,
    default kwargs
    = match Param.defaultValue param with
      | Py.VQVariant None => Py.VNone
      | Py.VQVariant (Some v) => v
      | v => v
      end
    ∧ data_type kwargs = Some "string"
    ∧ allowed_values kwargs = Some (Values (Param.options param))
    ∧ max_occurs kwargs
      = Some (if Param.allowMultiple param
              then Z.of_nat (length (Param.options param)) else 1)
    ∧ parse_input_definition types_map param context
      = match enum_default (Param.options param) (Param.defaultValue param) kwargs with
        | inl e => inl e
        | inr k => inr (with_kwargs (parse_metadata param) (LiteralInput k))
        end.
Proof.
  intros Htyp. unfold parse_input_definition, parse_literal_input. rewrite Htyp.
  simpl.
  match goal with |- context [enum_default _ _ ?K] => exists K end.
  split; [|split; [|split; [|split]]];
    try (destruct (_is_optional param); reflexivity).
  unfold rbind. destruct (enum_default _ _ _); reflexivity.
Qed.

(** X4: the default index of an enum is read as a Python index: a negative
    index counts from the end of the options, and an index outside of them
    makes the translation fail with [IndexError], as does an empty list of
    indices. *)
Theorem enum_default_python_index param context :
  Param.type param = "enum" ->
  let n := Z.of_nat (length (Param.options param)) in
  (∀ z, Param.defaultValue param = Py.VInt z -> z < - n ∨ n <= z ->
        parse_input_definition types_map param context = inl IndexError)
  ∧ (Param.defaultValue param = Py.VList [] ->
     parse_input_definition types_map param context = inl IndexError)
  ∧ (∀ z, Param.defaultValue param = Py.VInt z -> - n <= z < 0 ->
        ∃ s inp,
          Param.options param !! Z.to_nat (n + z) = Some s
          ∧ parse_input_definition types_map param context = inr inp
          ∧ default (input_kwargs_of inp) = Py.VStr s).
Proof.
  intros Htyp n.
  destruct (parse_input_definition_enum param context Htyp)
    as (kwargs & _ & _ & _ & _ & ->).
  split; [|split].
  - intros z Hd Hz. unfold enum_default. rewrite Hd. simpl.
    now rewrite (getitem_out_of_range _ _ Hz).
  - intros Hd. unfold enum_default. rewrite Hd. reflexivity.
  - intros z Hd Hz. unfold enum_default. rewrite Hd. simpl.
    destruct (getitem_negative (Param.options param) z Hz) as (s & Hs & ->).
    exists s. eexists. split; [exact Hs|]. split; reflexivity.
Qed.

(** X6: a translated enum is a string literal whose allowed values are the
    options, that may occur once, or as many times as there are options when
    multiple choices are allowed, and whose default, when it has one, is one
    of the allowed values. *)
Theorem translated_enum param context inp :
  Param.type param = "enum" ->
  parse_input_definition types_map param context = inr inp ->
  (∃ k, inp = LiteralInput k)
  ∧ data_type (input_kwargs_of inp) = Some "string"
  ∧ allowed_values (input_kwargs_of inp) = Some (Values (Param.options param))
  ∧ max_occurs (input_kwargs_of inp)
    = Some (if Param.allowMultiple param
            then Z.of_nat (length (Param.options param)) else 1)
  ∧ (default (input_kwargs_of inp) = Py.VNone
     ∨ ∃ s, default (input_kwargs_of inp) = Py.VStr s ∧ s ∈ Param.options param).
Proof.
  intros Htyp.
  destruct (parse_input_definition_enum param context Htyp)
    as (kwargs & Hdef & Hdt & Hav & Hmax & ->).
  destruct (enum_default _ _ _) as [e|k] eqn:Hk; [discriminate|].
  intros H. simplify_eq. simpl. split; [eauto|].
  assert (Hopt : ∀ z s, getitem_or_IndexError (Param.options param) z = inr s ->
                        s ∈ Param.options param).
  { intros z s. unfold getitem_or_IndexError, Py.getitem.
    repeat case_match; intros; simplify_eq; eapply list_elem_of_lookup_2; eassumption. }
  unfold enum_default, rbind in Hk.
  repeat case_match; simplify_eq; simpl;
    (split; [assumption|]); (split; [assumption|]); (split; [assumption|]);
    try (right; eexists; split; [reflexivity|]; eapply Hopt; eassumption).
  all: left; assumption.
Qed.

End EnumDefaults.

Section MoreTranslation.

Variable types_map : string -> option string.

(** X5: a default still boxed in a variant is unboxed for every kind but
    the enum, whose translation then fails with [InvalidParameterValue],
    even for a null variant. *)
Theorem boxed_default param context :
  (Param.type param = "enum" ->
   (∃ c, Param.defaultValue param = Py.VQVariant c) ->
   ∃ msg, parse_input_definition types_map param context
          = inl (InvalidParameterValue msg))
  ∧ (∀ inp,
       Param.type param ≠ "enum" ->
       parse_input_definition types_map param context = inr inp ->
       default (input_kwargs_of inp)
       = match Param.defaultValue param with
         | Py.VQVariant None => Py.VNone
         | Py.VQVariant (Some v) => v
         | v => v
         end).
Proof.
  split.
  - intros Htyp [c Hc].
    destruct (parse_input_definition_enum types_map param context Htyp)
      as (kwargs & _ & _ & _ & _ & ->).
    unfold enum_default. rewrite Hc. simpl. eauto.
  - intros inp Htyp H.
    destruct (parse_input_definition_inv _ _ _ _ H)
      as (kwargs & inp0 & -> & _ & _ & _ & _ & Hd & Hmatch).
    rewrite <- Hd.
    assert (Hp : default (input_kwargs_of inp0) = default kwargs).
    { destruct Hmatch as [Hx|[Hx|Hx]].
      - exact (parse_literal_input_default _ _ _ Htyp Hx).
      - exact (parse_layer_input_default _ _ _ _ Hx).
      - exact (parse_other_input_default types_map _ _ _ Hx). }
    rewrite <- Hp. destruct inp0; reflexivity.
Qed.

(** X7: a multi-layer input must occur as many times as the parameter asks
    for, and never a negative number of times; it may occur 20 times when no
    project is at hand, and as many times as there are admitted layers
    otherwise. *)
Theorem multilayer_cardinality param context inp :
  multilayer_override param = true ->
  parse_input_definition types_map param context = inr inp ->
  min_occurs (input_kwargs_of inp) = Some (Z.max 0 (Param.minimumNumberInputs param))
  ∧ match context with
    | None =>
        max_occurs (input_kwargs_of inp) = Some 20
        ∧ allowed_values (input_kwargs_of inp) = None
    | Some _ =>
        ∃ names,
          allowed_values (input_kwargs_of inp) = Some (Values names)
          ∧ max_occurs (input_kwargs_of inp) = Some (Z.of_nat (length names))
    end.
Proof.
  intros Hm H. split.
  - rewrite (parse_input_definition_min_occurs _ _ _ _ H), Hm. f_equal.
    destruct (Z.leb_spec 1 (Param.minimumNumberInputs param)); lia.
  - unfold multilayer_override in Hm. apply andb_prop in Hm as [Hc Ht].
    apply bool_decide_eq_true_1 in Ht.
    revert H. unfold parse_input_definition.
    set (kwargs := if _is_optional param then _ else _).
    assert (Hav : allowed_values kwargs = None).
    { unfold kwargs. destruct (_is_optional param); reflexivity. }
    clearbody kwargs.
    unfold parse_literal_input. rewrite Ht. simpl.
    unfold parse_layer_input. rewrite Hc.
    unfold rbind at 2. unfold or_else at 1.
    unfold parse_allowed_layers, lookup_or_KeyError. rewrite Ht. simpl.
    unfold rbind.
    destruct (mapM SourceTypes _) as [names|]; [|discriminate].
    destruct context as [context|]; intros H; simplify_eq; simpl.
    + eexists. split; reflexivity.
    + split; [reflexivity | exact Hav].
Qed.

End MoreTranslation.

(** X9: a parameter is optional exactly when bit 3 of its flags is set; the
    other flags (advanced, hidden, model output) play no part. *)
Theorem optional_is_one_bit param :
  _is_optional param = Z.testbit (Param.flags param) 3.
Proof.
  unfold _is_optional, Qgs.FlagOptional.
  change 8 with (2 ^ 3).
  destruct (Z.testbit (Param.flags param) 3) eqn:Hb.
  - apply negb_true_iff, Z.eqb_neq. intros H0.
    assert (Hbit : Z.testbit (Z.land (Param.flags param) (2 ^ 3)) 3 = true).
    { rewrite Z.land_spec, Hb, Z.pow2_bits_true by lia. reflexivity. }
    rewrite H0 in Hbit. now rewrite Z.bits_0 in Hbit.
  - apply negb_false_iff, Z.eqb_eq. apply Z.bits_inj'. intros n Hn.
    rewrite Z.land_spec, Z.bits_0.
    destruct (decide (n = 3)) as [->|Hne].
    + now rewrite Hb.
    + rewrite (Z.pow2_bits_false 3 n) by lia. apply andb_false_r.
Qed.

Section AllowedLayers.

Variable types_map : string -> option string.

(** The allowed values of a layer input translated with a project at hand. *)
Lemma layer_input_allowed_values param context inp :
  parse_input_definition types_map param (Some context) = inr inp ->
  literal_kind (Param.type param) = false ->
  isinstance (Param.cls param) INPUT_LAYER_TYPES = true ->
  allowed_values (input_kwargs_of inp)
  = Some (Values (layer_names
                    (fun lyr => _is_allowed (declared_datatypes param) lyr = true)
                    context)).
Proof.
  intros H Hlit Hc. revert H. unfold parse_input_definition.
  set (kwargs := if _is_optional param then _ else _). clearbody kwargs.
  rewrite (proj2 (parse_literal_input_None param kwargs) Hlit).
  unfold or_else at 1. unfold parse_layer_input. rewrite Hc.
  unfold rbind at 2. unfold or_else at 1.
  unfold parse_allowed_layers, lookup_or_KeyError, declared_datatypes, layer_names.
  unfold rbind.
  destruct (Param.dataTypes param) as [[|t ts]|];
    destruct (mapM SourceTypes _) as [names|]; try discriminate;
    intros H; simplify_eq; simpl; case_bool_decide; reflexivity.
Qed.

Lemma filter_layer_names (P Q : Qgs.QgsMapLayer -> Prop)
    `{∀ l, Decision (P l)} `{∀ l, Decision (Q l)} context :
  (∀ l, P l <-> Q l) -> layer_names P context = layer_names Q context.
Proof.
  intros HPQ. unfold layer_names. f_equal. now apply list_filter_iff.
Qed.

(** X8: with a project at hand, the allowed values of a layer input are the
    names of the project layers its data types admit, in project order: the
    raster layers for a raster parameter, the vector layers for a vector or
    feature source parameter, both for a map layer parameter, when the
    parameter declares no data types of its own; and never a layer that is
    neither vector nor raster. *)
Theorem allowed_layers_by_class param context inp :
  parse_input_definition types_map param (Some context) = inr inp ->
  literal_kind (Param.type param) = false ->
  isinstance (Param.cls param) INPUT_LAYER_TYPES = true ->
  (∃ names,
     allowed_values (input_kwargs_of inp) = Some (Values names)
     ∧ names = layer_names
         (fun lyr => _is_allowed (declared_datatypes param) lyr = true) context
     ∧ ∀ name, name ∈ names ->
         ∃ lyr, lyr ∈ mapLayers context ∧ Qgs.layer_name lyr = name
                ∧ (Qgs.layer_type lyr = Qgs.VectorLayer
                   ∨ Qgs.layer_type lyr = Qgs.RasterLayer))
  ∧ (Param.dataTypes param = None ∨ Param.dataTypes param = Some [] ->
     (Param.cls param = Qgs.QgsProcessingParameterRasterLayer ->
      allowed_values (input_kwargs_of inp)
      = Some (Values (layer_names
                        (fun lyr => Qgs.layer_type lyr = Qgs.RasterLayer) context)))
     ∧ (isinstance (Param.cls param) INPUT_VECTOR_LAYER_TYPES = true ->
        allowed_values (input_kwargs_of inp)
        = Some (Values (layer_names
                          (fun lyr => Qgs.layer_type lyr = Qgs.VectorLayer) context)))
     ∧ (Param.cls param = Qgs.QgsProcessingParameterMapLayer ->
        allowed_values (input_kwargs_of inp)
        = Some (Values (layer_names
                          (fun lyr => Qgs.layer_type lyr = Qgs.VectorLayer
                                      ∨ Qgs.layer_type lyr = Qgs.RasterLayer)
                          context)))).
Proof.
  intros H Hlit Hc.
  pose proof (layer_input_allowed_values _ _ _ H Hlit Hc) as Hav.
  split.
  - eexists. split; [exact Hav|]. split; [reflexivity|].
    intros name Hname. unfold layer_names in Hname.
    apply list_elem_of_fmap in Hname as (lyr & -> & Hl).
    apply list_elem_of_filter in Hl as [Hallowed Hin].
    exists lyr. split; [exact Hin|]. split; [reflexivity|].
    unfold _is_allowed in Hallowed.
    destruct (Qgs.layer_type lyr); auto; discriminate.
  - intros Hdt.
    assert (Hdecl : declared_datatypes param
                    = if isinstance (Param.cls param) INPUT_VECTOR_LAYER_TYPES
                      then [Qgs.TypeVector]
                      else if isinstance (Param.cls param) INPUT_RASTER_LAYER_TYPES
                      then [Qgs.TypeRaster]
                      else if isinstance (Param.cls param)
                                [Qgs.QgsProcessingParameterMultipleLayers]
                      then [Param.layerType param]
                      else [Qgs.TypeMapLayer]).
    { unfold declared_datatypes. destruct Hdt as [-> | ->]; reflexivity. }
    rewrite Hav, Hdecl. split; [|split].
    + intros ->. simpl. do 2 f_equal. apply filter_layer_names.
      intros l. unfold _is_allowed.
      destruct (Qgs.layer_type l), (Qgs.geometryType l); simpl; split;
        intros; congruence.
    + intros ->. do 2 f_equal. apply filter_layer_names.
      intros l. unfold _is_allowed.
      destruct (Qgs.layer_type l), (Qgs.geometryType l); simpl; split;
        intros; congruence.
    + intros ->. simpl. do 2 f_equal. apply filter_layer_names.
      intros l. unfold _is_allowed.
      destruct (Qgs.layer_type l), (Qgs.geometryType l); simpl; split;
        intros; try congruence; try tauto; try (destruct H0; congruence).
Qed.

End AllowedLayers.

(** ** Output definitions *)

Section OutputTranslation.

Variable types_map : string -> option string.
Variable confservice_getboolean : string -> string -> bool.

Abbreviation translate_output :=
  (parse_output_definition types_map confservice_getboolean).

(** X10: an output translates exactly when a matcher recognizes it: an
    output of kind outputString or outputNumber, or of the vector layer,
    raster layer, HTML or file class, never fails; any other fails with
    [ProcessingOutputTypeNotSupported] carrying its kind. *)
Theorem output_translates_iff_recognized outdef alg st :
  (recognized_output outdef = true ->
   ∃ out st', translate_output outdef alg st = (inr out, st'))
  ∧ (recognized_output outdef = false ->
     translate_output outdef alg st
     = (inl (ProcessingOutputTypeNotSupported (Output.type outdef)), st)).
Proof.
  unfold recognized_output, parse_output_definition, parse_literal_output,
    parse_layer_output, parse_file_output, isinstance.
  split; intros H.
  - destruct (bool_decide (Output.type outdef = "outputString")) eqn:Hs;
      [eexists _, _; reflexivity|].
    destruct (bool_decide (Output.type outdef = "outputNumber")) eqn:Hn;
      [eexists _, _; reflexivity|].
    assert (Hty : bool_decide (Output.type outdef ∈ ["outputString"; "outputNumber"])
                  = false).
    { apply bool_decide_eq_false_2. apply bool_decide_eq_false_1 in Hs, Hn.
      rewrite !elem_of_cons. pose proof (not_elem_of_nil (Output.type outdef)).
      tauto. }
    rewrite Hty in H. simpl in H.
    destruct (Output.cls outdef); try discriminate;
      try (eexists _, _; reflexivity).
    unfold or_elseM, bind, ret; simpl.
    repeat case_match; simplify_eq; eexists _, _; reflexivity.
  - apply orb_false_elim in H as [Hty Hcls].
    apply bool_decide_eq_false_1 in Hty. rewrite !not_elem_of_cons in Hty.
    destruct Hty as (Hs & Hn & _).
    rewrite !bool_decide_eq_false_2 by assumption.
    destruct (Output.cls outdef); try discriminate. reflexivity.
Qed.

(** X11: every translated output is identified by the name of the
    definition and carries its description both as title and as abstract;
    the kinds outputString and outputNumber give a literal of type string
    and float whatever the class of the definition. *)
Theorem translated_output_header outdef alg st out st' :
  translate_output outdef alg st = (inr out, st') ->
  out_identifier (output_kwargs_of out) = Output.name outdef
  ∧ out_title (output_kwargs_of out) = Output.description outdef
  ∧ out_abstract (output_kwargs_of out) = Output.description outdef
  ∧ (Output.type outdef = "outputString" ->
     out = LiteralOutput (mk_output (Output.name outdef) (Output.description outdef)
                            (Output.description outdef) (Some "string") None None))
  ∧ (Output.type outdef = "outputNumber" ->
     out = LiteralOutput (mk_output (Output.name outdef) (Output.description outdef)
                            (Output.description outdef) (Some "float") None None)).
Proof.
  unfold parse_output_definition, parse_literal_output, parse_layer_output,
    parse_file_output, isinstance, or_elseM, bind, ret, raise.
  intros H.
  destruct (bool_decide (Output.type outdef = "outputString")) eqn:Hs.
  { simplify_eq. simpl. apply bool_decide_eq_true_1 in Hs.
    repeat split; try reflexivity. intros Hn. rewrite Hn in Hs. discriminate. }
  destruct (bool_decide (Output.type outdef = "outputNumber")) eqn:Hn.
  { simplify_eq. simpl. apply bool_decide_eq_false_1 in Hs.
    repeat split; try reflexivity. intros Hs'. contradiction. }
  apply bool_decide_eq_false_1 in Hs, Hn.
  destruct (Output.cls outdef); simpl in H;
    repeat case_match; simplify_eq; simpl;
    (repeat split; try reflexivity; intros; contradiction).
Qed.

(** X12: translating an output writes to no parameter and no layer; it
    logs nothing, or the one warning that the file type of a file output
    could not be set, in which case the output advertises
    application/octet-stream. *)
Theorem output_translation_frame outdef alg st r st' :
  translate_output outdef alg st = (r, st') ->
  let warning :=
    mkLog WARNING "Cannot set file type for output %s" [AStr (Output.name outdef)] in
  st' = st
  ∨ (st' = logged warning st
     ∧ Output.cls outdef = Qgs.QgsProcessingOutputFile
     ∧ ∃ out, r = inr out
         ∧ out_supported_formats (output_kwargs_of out)
           = Some [Format_new (Some "application/octet-stream")]).
Proof.
  intros H warning. subst warning. revert H.
  unfold parse_output_definition, parse_literal_output, parse_layer_output,
    parse_file_output, isinstance, or_elseM, bind, ret, raise, log, logged.
  intros H.
  destruct (bool_decide (Output.type outdef = "outputString"));
    [simplify_eq; now left|].
  destruct (bool_decide (Output.type outdef = "outputNumber"));
    [simplify_eq; now left|].
  destruct (Output.cls outdef) eqn:Hc; simpl in H;
    repeat case_match; simplify_eq; simpl; auto;
    right; (split; [reflexivity|]); (split; [reflexivity|]);
    eexists; split; reflexivity.
Qed.

(** X13: a file output paired with a file destination parameter of the same
    name takes its MIME type from the default extension of that parameter
    and its mode from the metadata entry wps:as_reference of the parameter,
    or from the configured default when there is no such entry; nothing is
    logged. *)
Theorem paired_file_output outdef alg inputdef mime st :
  Output.cls outdef = Qgs.QgsProcessingOutputFile ->
  Output.type outdef ≠ "outputString" ->
  Output.type outdef ≠ "outputNumber" ->
  alg !! Output.name outdef = Some inputdef ->
  Param.cls inputdef = Qgs.QgsProcessingParameterFileDestination ->
  types_map ("." +:+ Param.defaultFileExtension inputdef) = Some mime ->
  translate_output outdef (Some alg) st
  = (inr (ComplexOutput
            (mk_output (Output.name outdef) (Output.description outdef)
               (Output.description outdef) None (Some [Format_new (Some mime)])
               (Some (metadata_get "wps:as_reference"
                        (Py.VBool (confservice_getboolean
                                     "server" "outputfile_as_reference"))
                        (Param.metadata inputdef))))), st).
Proof.
  intros Hcls Hs Hn Halg Hin Hmime.
  unfold parse_output_definition, parse_literal_output, parse_layer_output,
    parse_file_output.
  rewrite Hcls, !bool_decide_eq_false_2 by assumption. simpl.
  rewrite Halg, Hin. simpl. rewrite Hmime. reflexivity.
Qed.

End OutputTranslation.

(** ** More on the decoder *)

Lemma index_in_options (opts : list string) (d : Py.value) (j : nat) :
  Py.index (Py.eq_str d) opts = Some j ->
  ∃ s, d = Py.VStr s ∧ opts !! j = Some s
       ∧ ∀ k, (k < j)%nat -> opts !! k ≠ Some s.
Proof.
  intros H. destruct (index_from_first _ _ _ _ H) as (j' & y & -> & Hj & Hy & Hmin).
  destruct d; try discriminate. simpl in Hy. apply bool_decide_eq_true_1 in Hy.
  subst y. exists s. repeat split; [assumption|].
  intros k Hk Hks. specialize (Hmin k s Hk Hks). simpl in Hmin.
  apply bool_decide_eq_false_1 in Hmin. congruence.
Qed.

Lemma index_not_in_options (opts : list string) (d : Py.value) :
  Py.index (Py.eq_str d) opts = None <-> ∀ s, d = Py.VStr s -> s ∉ opts.
Proof.
  split.
  - intros H s -> Hin. apply list_elem_of_lookup in Hin as [i Hi].
    destruct (index_from_found (Py.eq_str (Py.VStr s)) opts O i s Hi) as [m Hm].
    + simpl. now apply bool_decide_eq_true_2.
    + unfold Py.index in H. congruence.
  - intros H. destruct (Py.index (Py.eq_str d) opts) as [j|] eqn:Hj; [|reflexivity].
    destruct (index_in_options _ _ _ Hj) as (s & -> & Hs & _).
    exfalso. apply (H s eq_refl). eapply list_elem_of_lookup_2; eassumption.
Qed.

Section DecoderExtras.

Variable unquote : string -> string.
Variable input_to_extent : InputValue -> M NativeValue.
Variable input_to_point : InputValue -> M NativeValue.
Variable input_to_file : InputValue -> Param.t -> ProcessingContext -> M NativeValue.

Abbreviation decode :=
  (input_to_processing unquote input_to_extent input_to_point input_to_file).

(** X14: decoding a submitted value of an enum gives the position of its
    first occurrence among the options, so that the option at the decoded
    index is the value submitted; a value that is no option, or no string,
    fails with [ValueError]. Nothing is logged or written. *)
Theorem enum_value_index_value identifier param d context st :
  parameters st !! identifier = Some param ->
  dispatched_by_class (Param.cls param) = false ->
  Param.type param = "enum" ->
  (∀ s, d = Py.VStr s -> s ∈ Param.options param ->
     ∃ j, decode identifier [{| data := d |}] context st
          = (inr (Param.name param, Value (Py.VInt (Z.of_nat j))), st)
          ∧ Param.options param !! j = Some s
          ∧ ∀ k, (k < j)%nat -> Param.options param !! k ≠ Some s)
  ∧ ((∀ s, d = Py.VStr s -> s ∉ Param.options param) ->
     decode identifier [{| data := d |}] context st = (inl ValueError, st)).
Proof.
  intros Hparam Hcls Htyp.
  rewrite (enum_decoded unquote input_to_extent input_to_point input_to_file
             _ _ d context st Hparam Hcls Htyp).
  split.
  - intros s -> Hin.
    destruct (Py.index _ _) as [j|] eqn:Hj.
    + destruct (index_in_options _ _ _ Hj) as (s' & Hs' & Hjs & Hmin).
      injection Hs' as <-. exists j. repeat split; assumption.
    + exfalso. exact (proj1 (index_not_in_options _ _) Hj s eq_refl Hin).
  - intros Hnot. now rewrite (proj2 (index_not_in_options _ _) Hnot).
Qed.

(** X22: the decoder returns only for an identifier the algorithm has a
    parameter for, and the name it returns is the name of that parameter,
    which need not be the identifier; for any other identifier it fails with
    [AttributeError] and leaves everything as it was. *)
Theorem registered_identifier identifier inp context st :
  (∀ name value st',
     decode identifier inp context st = (inr (name, value), st') ->
     ∃ param, parameters st !! identifier = Some param ∧ name = Param.name param)
  ∧ (parameters st !! identifier = None ->
     decode identifier inp context st = (inl AttributeError, st)).
Proof.
  split.
  - intros name value st'.
    unfold input_to_processing. unfold bind at 1, parameterDefinition.
    destruct (parameters st !! identifier) as [param|]; [|discriminate].
    unfold bind at 1.
    match goal with |- context [match ?m st with _ => _ end] =>
      destruct (m st) as [[e|v] st1] end; [discriminate|].
    unfold ret. intros H. injection H as <- _ _. eauto.
  - intros H. unfold input_to_processing, bind, parameterDefinition.
    now rewrite H.
Qed.

(** X21: with no value submitted, every parameter that does not reach the
    fallback fails with [IndexError]; for a destination sink, non-file-based
    output has been turned off by then. *)
Theorem empty_input identifier param context st :
  parameters st !! identifier = Some param ->
  dispatched_by_class (Param.cls param) || dispatched_by_type (Param.type param)
  = true ->
  decode identifier [] context st
  = (inl IndexError,
     if isinstance (Param.cls param) DESTINATION_LAYER_TYPES then
       mkStore (<[identifier := Param.setSupportsNonFileBasedOutput false param]>
                  (parameters st)) (layers st) (LOGGER st)
     else st).
Proof.
  intros Hparam H.
  unfold input_to_processing. unfold bind at 1, parameterDefinition. rewrite Hparam.
  destruct (isinstance (Param.cls param) DESTINATION_LAYER_TYPES) eqn:H1;
    [reflexivity|].
  destruct (isinstance (Param.cls param) [Qgs.QgsProcessingParameterFeatureSource])
    eqn:H2; [reflexivity|].
  destruct (isinstance (Param.cls param) INPUT_LAYER_TYPES) eqn:H3; [reflexivity|].
  destruct (isinstance (Param.cls param) [Qgs.QgsProcessingParameterPoint]) eqn:H4;
    [reflexivity|].
  unfold dispatched_by_class in H. rewrite H1, H2, H3, H4 in H. simpl in H.
  unfold dispatched_by_type in H. apply bool_decide_eq_true_1 in H.
  rewrite !elem_of_cons in H.
  destruct H as [->|[->|[->|[->|[->|[->|H]]]]]]; try reflexivity.
  - simpl. now rewrite andb_false_r.
  - now apply elem_of_nil in H.
Qed.

End DecoderExtras.

Lemma options_index_all (opts : list string) (inp : list InputValue) (st : Store) :
  Forall (fun d => ∃ s, data d = Py.VStr s ∧ s ∈ opts) inp ->
  ∃ js,
    mapM_M (fun d => options_index opts (data d)) inp st
    = (inr ((fun j => Py.VInt (Z.of_nat j)) <$> js), st)
    ∧ Forall2 (fun d j => ∃ s, data d = Py.VStr s ∧ opts !! j = Some s
                              ∧ ∀ k, (k < j)%nat -> opts !! k ≠ Some s) inp js.
Proof.
  induction 1 as [|d inp (s & Hd & Hin) _ (js & IH & Hjs)].
  - exists []. split; [reflexivity | constructor].
  - destruct (Py.index (Py.eq_str (data d)) opts) as [j|] eqn:Hj.
    + destruct (index_in_options _ _ _ Hj) as (s' & Hs' & Hjs' & Hmin).
      exists (j :: js). split.
      * simpl. unfold bind at 1, options_index at 1. rewrite Hj. simpl.
        unfold bind. rewrite IH. reflexivity.
      * constructor; [eauto|assumption].
    + exfalso. exact (proj1 (index_not_in_options _ _) Hj s Hd Hin).
Qed.

Lemma options_index_some_unknown (opts : list string) (inp : list InputValue)
    (st : Store) :
  Exists (fun d => ∀ s, data d = Py.VStr s -> s ∉ opts) inp ->
  mapM_M (fun d => options_index opts (data d)) inp st = (inl ValueError, st).
Proof.
  induction inp as [|d inp IH]; intros H; [now apply Exists_nil in H|].
  simpl. unfold bind at 1, options_index at 1.
  destruct (Py.index (Py.eq_str (data d)) opts) as [j|] eqn:Hj; [|reflexivity].
  simpl. apply Exists_cons in H as [H|H].
  - rewrite (proj2 (index_not_in_options _ _) H) in Hj. discriminate.
  - unfold bind. now rewrite (IH H).
Qed.

Section EnumMultiple.

Variable unquote : string -> string.
Variable input_to_extent : InputValue -> M NativeValue.
Variable input_to_point : InputValue -> M NativeValue.
Variable input_to_file : InputValue -> Param.t -> ProcessingContext -> M NativeValue.

Abbreviation decode :=
  (input_to_processing unquote input_to_extent input_to_point input_to_file).

(** X15: several values submitted for an enum that allows multiple choices
    decode to the list of their indices, one per value and in the order
    submitted, each the first position of its value among the options; one
    value that is no option makes the whole decoding fail with
    [ValueError]. For an enum that does not allow multiple choices only the
    first value counts, whatever the others are. *)
Theorem enum_multiple_values identifier param inp context st :
  parameters st !! identifier = Some param ->
  dispatched_by_class (Param.cls param) = false ->
  Param.type param = "enum" ->
  (Param.allowMultiple param = true -> (2 <= length inp)%nat ->
     (Forall (fun d => ∃ s, data d = Py.VStr s ∧ s ∈ Param.options param) inp ->
      ∃ js,
        decode identifier inp context st
        = (inr (Param.name param,
                Value (Py.VList ((fun j => Py.VInt (Z.of_nat j)) <$> js))), st)
        ∧ Forall2 (fun d j => ∃ s, data d = Py.VStr s
                              ∧ Param.options param !! j = Some s
                              ∧ ∀ k, (k < j)%nat -> Param.options param !! k ≠ Some s)
            inp js)
     ∧ (Exists (fun d => ∀ s, data d = Py.VStr s -> s ∉ Param.options param) inp ->
        decode identifier inp context st = (inl ValueError, st)))
  ∧ (Param.allowMultiple param = false ->
     ∀ d rest, decode identifier (d :: rest) context st
               = decode identifier [d] context st).
Proof.
  intros Hparam Hcls Htyp.
  destruct (isinstance_false_of_dispatched _ Hcls) as (H1 & H2 & H3 & H4).
  split.
  - intros Hmulti Hlen.
    assert (Hlt : (1 <? length inp)%nat = true) by (apply Nat.ltb_lt; lia).
    assert (Hdec : decode identifier inp context st
                   = match mapM_M (fun d => options_index (Param.options param) (data d))
                             inp st with
                     | (inl e, st') => (inl e, st')
                     | (inr values, st') =>
                         (inr (Param.name param, Value (Py.VList values)), st')
                     end).
    { unfold input_to_processing. unfold bind at 1, parameterDefinition.
      rewrite Hparam, H1, H2, H3, H4, Htyp, Hmulti, Hlt. simpl.
      unfold bind, ret.
      destruct (mapM_M _ inp st) as [[e|values] st1]; reflexivity. }
    rewrite Hdec. split.
    + intros Hall.
      destruct (options_index_all _ _ st Hall) as (js & -> & Hjs). eauto.
    + intros Hex. now rewrite (options_index_some_unknown _ _ st Hex).
  - intros Hsingle d rest.
    assert (Hone : ∀ l, decode identifier (d :: l) context st
                   = match Py.index (Py.eq_str (data d)) (Param.options param) with
                     | Some j =>
                         (inr (Param.name param, Value (Py.VInt (Z.of_nat j))), st)
                     | None => (inl ValueError, st)
                     end).
    { intros l. unfold input_to_processing. unfold bind at 1, parameterDefinition.
      rewrite Hparam, H1, H2, H3, H4, Htyp, Hsingle. simpl.
      unfold bind, ret, options_index; simpl.
      destruct (Py.index _ _); reflexivity. }
    now rewrite (Hone rest), (Hone []).
Qed.

End EnumMultiple.

(** ** Layer specifications and selection *)

Lemma selectByIds_set_selection ids behavior l :
  ∃ ids', Qgs.selectByIds ids behavior l = Qgs.set_selection ids' l.
Proof. destruct behavior; eexists; reflexivity. Qed.

Lemma set_selection_twice ids ids' l :
  Qgs.set_selection ids' (Qgs.set_selection ids l) = Qgs.set_selection ids' l.
Proof. reflexivity. Qed.

Lemma set_selection_id l : Qgs.set_selection (Qgs.selectedFeatureIds l) l = l.
Proof. now destruct l. Qed.

Section LayerSpecExtras.

Variable unquote : string -> string.

Lemma parse_layer_spec_parse_error layerspec context allow st e :
  urllib.urlparse layerspec = inl e ->
  parse_layer_spec unquote layerspec context allow st = (inl e, st).
Proof. intros H. unfold parse_layer_spec, bind, lift. now rewrite H. Qed.

(** The selection the [try] block leaves on the layer, whatever happens. *)
Lemma apply_selection_frame p layer rects reqs st r st' :
  apply_selection p layer rects reqs st = (r, st') ->
  parameters st' = parameters st
  ∧ (∃ more, LOGGER st' = (LOGGER st ++ more)%list)
  ∧ (layers st' = layers st
     ∨ ∃ ids, layers st' = <[p := Qgs.set_selection ids layer]> (layers st)).
Proof.
  unfold apply_selection, Qgs.selectByRect, Qgs.selectByExpression.
  unfold bind, ret, raise, log, update_layer. simpl.
  destruct (last rects) as [rc|]; simpl.
  - intros H; simplify_eq; simpl. split; [reflexivity|]. split; [eauto|]. now left.
  - destruct (last reqs) as [e|]; simpl.
    + destruct (Qgs.features_matching _ e) as [E|]; simpl;
        intros H; simplify_eq; simpl.
      * split; [reflexivity|]. split; [exists []; now rewrite app_nil_r|].
        right. eexists. reflexivity.
      * split; [reflexivity|]. split; [eauto|]. now left.
    + intros H; simplify_eq. split; [reflexivity|].
      split; [exists []; now rewrite app_nil_r|]. now left.
Qed.

Lemma same_layers_refl m : same_layers_up_to_selection m m.
Proof.
  intros q. destruct (m !! q) as [l|]; [|exact I].
  split; [symmetry; apply set_selection_id | reflexivity].
Qed.

Lemma same_layers_insert m p layer ids :
  m !! p = Some layer -> Qgs.layer_type layer = Qgs.VectorLayer ->
  same_layers_up_to_selection m (<[p := Qgs.set_selection ids layer]> m).
Proof.
  intros Hp Hv q. destruct (decide (p = q)) as [<-|Hne].
  - rewrite lookup_insert_eq, Hp. split; [reflexivity|]. intros Hnv. contradiction.
  - rewrite lookup_insert_ne by assumption. apply same_layers_refl.
Qed.

(** With selection disabled a layer specification is parsed without a
    write. *)
Lemma parse_layer_spec_selection_disabled layerspec context st r st' :
  parse_layer_spec unquote layerspec context false st = (r, st') -> st' = st.
Proof.
  destruct (urllib.urlparse layerspec) as [e|u] eqn:Hu.
  { rewrite (parse_layer_spec_parse_error _ _ _ _ _ Hu). intros H. now simplify_eq. }
  destruct (scheme_cases context u) as [[p Hp] | [[e [Hs Hr]] | [Hf [Hl He]]]].
  - rewrite (parse_layer_spec_resolved _ _ _ _ _ _ _ Hu Hp). simpl. unfold ret.
    intros H. now simplify_eq.
  - rewrite (parse_layer_spec_unresolved _ _ _ _ _ _ _ Hu Hs Hr).
    intros H. now simplify_eq.
  - rewrite (parse_layer_spec_bad_scheme _ _ _ _ _ _ Hu Hf Hl He).
    intros H. now simplify_eq.
Qed.

(** X20: whatever its outcome, parsing a layer specification writes to no
    parameter of the algorithm, only appends to the log, and leaves the
    project with the same layers under the same names, each unchanged but
    for the selection of a vector layer; with selection disabled it changes
    nothing at all. *)
Theorem parse_layer_spec_frame layerspec context allow st r st' :
  parse_layer_spec unquote layerspec context allow st = (r, st') ->
  parameters st' = parameters st
  ∧ (∃ more, LOGGER st' = (LOGGER st ++ more)%list)
  ∧ same_layers_up_to_selection (layers st) (layers st')
  ∧ (allow = false -> st' = st).
Proof.
  assert (Hsame : ∀ s : Store,
            parameters s = parameters s
            ∧ (∃ more, LOGGER s = (LOGGER s ++ more)%list)
            ∧ same_layers_up_to_selection (layers s) (layers s)).
  { intros s. split; [reflexivity|]. split; [exists []; now rewrite app_nil_r|].
    apply same_layers_refl. }
  destruct (urllib.urlparse layerspec) as [e|u] eqn:Hu.
  { rewrite (parse_layer_spec_parse_error _ _ _ _ _ Hu). intros H. simplify_eq.
    destruct (Hsame st') as (? & ? & ?). auto. }
  destruct (scheme_cases context u) as [[p Hp] | [[e [Hs Hr]] | [Hf [Hl He]]]].
  - rewrite (parse_layer_spec_resolved _ _ _ _ _ _ _ Hu Hp).
    destruct allow; simpl.
    + destruct (bool_decide _ && bool_decide _); simpl.
      { unfold ret. intros H. simplify_eq. destruct (Hsame st') as (? & ? & ?).
        repeat split; auto; discriminate. }
      unfold bind at 1, getMapLayer.
      destruct (layers st !! p) as [layer|] eqn:Hl.
      * destruct (bool_decide (Qgs.layer_type layer = Qgs.VectorLayer)) eqn:Hv; simpl.
        -- apply bool_decide_eq_true_1 in Hv.
           unfold bind at 1. unfold bind at 1, log at 1.
           destruct (apply_selection _ _ _ _ _) as [ra sa] eqn:Ha.
           destruct (apply_selection_frame _ _ _ _ _ _ _ Ha) as (Hpa & [more Hlog] & Hlay).
           simpl in Hpa, Hlog.
           assert (Hres : parameters sa = parameters st
                          ∧ (∃ more, LOGGER sa = (LOGGER st ++ more)%list)
                          ∧ same_layers_up_to_selection (layers st) (layers sa)).
           { split; [exact Hpa|]. split.
             - eexists. rewrite Hlog, <- app_assoc. reflexivity.
             - destruct Hlay as [->|[ids ->]]; simpl.
               + apply same_layers_refl.
               + now apply same_layers_insert. }
           destruct ra as [e|[]]; unfold ret; intros H; simplify_eq;
             destruct Hres as (? & ? & ?); repeat split; auto; discriminate.
        -- unfold bind, log, ret. intros H. simplify_eq. simpl.
           split; [reflexivity|]. split; [eauto|]. split; [apply same_layers_refl|discriminate].
      * unfold bind, log, raise. intros H. simplify_eq. simpl.
        split; [reflexivity|]. split; [eauto|]. split; [apply same_layers_refl|discriminate].
    + unfold ret. intros H. simplify_eq. destruct (Hsame st') as (? & ? & ?). auto.
  - rewrite (parse_layer_spec_unresolved _ _ _ _ _ _ _ Hu Hs Hr).
    intros H. simplify_eq. destruct (Hsame st') as (? & ? & ?). auto.
  - rewrite (parse_layer_spec_bad_scheme _ _ _ _ _ _ Hu Hf Hl He).
    intros H. simplify_eq. destruct (Hsame st') as (? & ? & ?). auto.
Qed.

End LayerSpecExtras.

Section LayerInputs.

Variable unquote : string -> string.
Variable input_to_extent : InputValue -> M NativeValue.
Variable input_to_point : InputValue -> M NativeValue.
Variable input_to_file : InputValue -> Param.t -> ProcessingContext -> M NativeValue.

Abbreviation decode :=
  (input_to_processing unquote input_to_extent input_to_point input_to_file).

(** One layer specification parsed with selection disabled. *)
Lemma parse_one_layer context (d : InputValue) st r st' :
  (let! layerspec := as_str (data d) in
   let! (value, _) := parse_layer_spec unquote layerspec context false in
   ret (Py.VStr value)) st = (r, st') ->
  st' = st ∧ ∀ v, r = inr v -> spec_resolves context d v.
Proof.
  unfold bind at 1, as_str.
  destruct (data d) as [| | |s| | |] eqn:Hd;
    try (unfold raise; intros H; simplify_eq; split; [reflexivity|discriminate]).
  unfold ret at 1. unfold bind.
  destruct (parse_layer_spec unquote s context false st) as [[e|[p b]] st1] eqn:Hp.
  - pose proof (parse_layer_spec_selection_disabled _ _ _ _ _ _ Hp) as Hst.
    intros H. simplify_eq. split; [reflexivity|discriminate].
  - pose proof (parse_layer_spec_selection_disabled _ _ _ _ _ _ Hp) as Hst.
    unfold ret. intros H. simplify_eq. split; [reflexivity|].
    intros v Hv. simplify_eq.
    destruct (urllib.urlparse s) as [e|u] eqn:Hu.
    + rewrite (parse_layer_spec_parse_error _ _ _ _ _ _ Hu) in Hp. discriminate.
    + destruct (parse_layer_spec_returns _ _ _ _ _ _ _ _ _ Hu Hp) as [Hres _].
      exists s, u, p. auto.
Qed.

Lemma parse_many_layers context (inp : list InputValue) st r st' :
  mapM_M (fun i => let! layerspec := as_str (data i) in
                   let! (value, _) := parse_layer_spec unquote layerspec context false in
                   ret (Py.VStr value)) inp st = (r, st') ->
  st' = st ∧ ∀ vs, r = inr vs -> Forall2 (spec_resolves context) inp vs.
Proof.
  revert r st'. induction inp as [|d inp IH]; intros r st'; simpl.
  - unfold ret. intros H. simplify_eq. split; [reflexivity|].
    intros vs Hvs. simplify_eq. constructor.
  - unfold bind at 1.
    match goal with |- context [match ?m st with _ => _ end] =>
      destruct (m st) as [[e|v] st1] eqn:H1 end.
    + destruct (parse_one_layer _ _ _ _ _ H1) as [-> _].
      intros H. simplify_eq. split; [reflexivity|discriminate].
    + destruct (parse_one_layer _ _ _ _ _ H1) as [-> Hv].
      unfold bind at 1.
      match goal with |- context [match ?m st with _ => _ end] =>
        destruct (m st) as [[e|vs] st2] eqn:H2 end.
      * destruct (IH _ _ eq_refl) as [-> _].
        intros H. simplify_eq. split; [reflexivity|discriminate].
      * destruct (IH _ _ eq_refl) as [-> Hvs].
        unfold ret. intros H. simplify_eq. split; [reflexivity|].
        intros ws Hws. simplify_eq. constructor; auto.
Qed.

(** X16: decoding a vector, raster, map or multiple layers parameter looks
    at no layer and changes nothing, whatever its outcome; one value
    submitted gives the path its specification resolves to, several give the
    list of their paths, one per value and in the order submitted. *)
Theorem other_layer_inputs identifier param inp context st r st' :
  parameters st !! identifier = Some param ->
  isinstance (Param.cls param) [Qgs.QgsProcessingParameterFeatureSource] = false ->
  isinstance (Param.cls param) INPUT_LAYER_TYPES = true ->
  decode identifier inp context st = (r, st') ->
  st' = st
  ∧ ∀ value, r = inr (Param.name param, value) ->
      if (1 <? length inp)%nat
      then ∃ vs, value = Value (Py.VList vs) ∧ Forall2 (spec_resolves context) inp vs
      else ∃ d v, inp = [d] ∧ value = Value v ∧ spec_resolves context d v.
Proof.
  intros Hparam H2 H3.
  assert (H1 : isinstance (Param.cls param) DESTINATION_LAYER_TYPES = false).
  { revert H3. unfold isinstance. destruct (Param.cls param); simpl; congruence. }
  unfold input_to_processing. unfold bind at 1, parameterDefinition.
  rewrite Hparam, H1, H2, H3.
  destruct (1 <? length inp)%nat eqn:Hlen.
  - unfold bind at 1. unfold bind at 1.
    match goal with |- context [match mapM_M ?f inp st with _ => _ end] =>
      destruct (mapM_M f inp st) as [[e|vs] st1] eqn:Hm end.
    + destruct (parse_many_layers _ _ _ _ _ Hm) as [-> _].
      intros H. simplify_eq. split; [reflexivity|discriminate].
    + destruct (parse_many_layers _ _ _ _ _ Hm) as [-> Hvs].
      unfold ret. intros H. simplify_eq. split; [reflexivity|].
      intros value Hv. simplify_eq. eauto.
  - destruct inp as [|d [|d' inp]]; [| |simpl in Hlen; discriminate].
    + unfold bind, first_input, raise. intros H. simplify_eq.
      split; [reflexivity|discriminate].
    + unfold bind at 1. unfold bind at 1. unfold first_input, ret at 1.
      unfold bind at 1.
      match goal with |- context [match ?m st with _ => _ end] =>
        destruct (m st) as [[e|v] st1] eqn:H1' end.
      * destruct (parse_one_layer _ _ _ _ _ H1') as [-> _].
        intros H. simplify_eq. split; [reflexivity|discriminate].
      * destruct (parse_one_layer _ _ _ _ _ H1') as [-> Hv].
        unfold ret. intros H. simplify_eq. split; [reflexivity|].
        intros value Hval. simplify_eq. exists d, v. auto.
Qed.

End LayerInputs.

Section FeatureSources.

Variable unquote : string -> string.
Variable input_to_extent : InputValue -> M NativeValue.
Variable input_to_point : InputValue -> M NativeValue.
Variable input_to_file : InputValue -> Param.t -> ProcessingContext -> M NativeValue.

Abbreviation decode :=
  (input_to_processing unquote input_to_extent input_to_point input_to_file).

(** The decoding of a feature source, from the parsing of its specification. *)
Lemma feature_source_decoded identifier param layerspec rest context st :
  parameters st !! identifier = Some param ->
  Param.cls param = Qgs.QgsProcessingParameterFeatureSource ->
  decode identifier ({| data := Py.VStr layerspec |} :: rest) context st
  = match parse_layer_spec unquote layerspec context true st with
    | (inl e, st') => (inl e, st')
    | (inr (p, b), st') =>
        (inr (Param.name param, QgsProcessingFeatureSourceDefinition p b), st')
    end.
Proof.
  intros Hparam Hcls.
  unfold input_to_processing. unfold bind at 1, parameterDefinition.
  rewrite Hparam, Hcls. simpl. unfold bind, ret, as_str. simpl.
  destruct (parse_layer_spec _ _ _ _ _) as [[e|[p b]] st']; reflexivity.
Qed.

(** X17: a feature source whose specification carries neither a [rect] nor
    a [select] field decodes to the resolved path with all features, without
    a look at the project: no layer need exist under that path, and nothing
    is logged or written. *)
Theorem feature_source_without_selection
    identifier param layerspec rest context u p st :
  parameters st !! identifier = Some param ->
  Param.cls param = Qgs.QgsProcessingParameterFeatureSource ->
  urllib.urlparse layerspec = inr u ->
  resolves_to context u p ->
  urllib.dict_get "rect" (urllib.parse_qs unquote (urllib.query u)) = [] ->
  urllib.dict_get "select" (urllib.parse_qs unquote (urllib.query u)) = [] ->
  decode identifier ({| data := Py.VStr layerspec |} :: rest) context st
  = (inr (Param.name param, QgsProcessingFeatureSourceDefinition p false), st).
Proof.
  intros Hparam Hcls Hu Hp Hr Hs.
  rewrite (feature_source_decoded _ _ _ _ _ _ Hparam Hcls).
  rewrite (parse_layer_spec_resolved _ _ _ _ _ _ _ Hu Hp). simpl.
  rewrite Hr, Hs. reflexivity.
Qed.

(** X18: a selection asked on a path the project has no layer for fails
    with [InvalidParameterValue], naming the path as written in the
    specification; the failure is logged as an error and no layer is
    touched. *)
Theorem selection_on_missing_layer
    identifier param layerspec rest context u p st :
  parameters st !! identifier = Some param ->
  Param.cls param = Qgs.QgsProcessingParameterFeatureSource ->
  urllib.urlparse layerspec = inr u ->
  resolves_to context u p ->
  urllib.dict_get "rect" (urllib.parse_qs unquote (urllib.query u)) ≠ []
  ∨ urllib.dict_get "select" (urllib.parse_qs unquote (urllib.query u)) ≠ [] ->
  layers st !! p = None ->
  decode identifier ({| data := Py.VStr layerspec |} :: rest) context st
  = (inl (InvalidParameterValue ("No layer '" +:+ urllib.path u +:+ "' found")),
     logged (mkLog ERROR "No layer path for url %s" [AUrl u]) st).
Proof.
  intros Hparam Hcls Hu Hp Hq Hl.
  rewrite (feature_source_decoded _ _ _ _ _ _ Hparam Hcls).
  rewrite (parse_layer_spec_resolved _ _ _ _ _ _ _ Hu Hp). simpl.
  assert (Hc : bool_decide (urllib.dict_get "rect"
                  (urllib.parse_qs unquote (urllib.query u)) = [])
               && bool_decide (urllib.dict_get "select"
                  (urllib.parse_qs unquote (urllib.query u)) = []) = false).
  { destruct Hq as [Hq|Hq]; rewrite (bool_decide_eq_false_2 _ Hq);
      [reflexivity | apply andb_false_r]. }
  rewrite Hc. unfold bind at 1, getMapLayer. rewrite Hl. reflexivity.
Qed.

(** X19: a failing selection is fatal, and the layer keeps the selection it
    had. A [rect] field fails before the layer is asked, whatever the
    layer would answer and whether a [select] field comes with it, and the
    expression is not tried; without a [rect] field, an expression the
    layer rejects fails likewise. Both fail with [NoApplicableCode] after
    logging the traceback. *)
Theorem failed_selection layerspec context u p layer st :
  urllib.urlparse layerspec = inr u ->
  resolves_to context u p ->
  layers st !! p = Some layer ->
  Qgs.layer_type layer = Qgs.VectorLayer ->
  let qs := urllib.parse_qs unquote (urllib.query u) in
  let records :=
    [mkLog DEBUG "Applying features selection: %s" [ADict qs];
     mkLog ERROR traceback_format_exc []] in
  (∀ rc,
     last (urllib.dict_get "rect" qs) = Some rc ->
     parse_layer_spec unquote layerspec context true st
     = (inl (NoApplicableCode "Feature selection failed"),
        mkStore (parameters st) (layers st) (LOGGER st ++ records)))
  ∧ (∀ ftreq,
       urllib.dict_get "rect" qs = [] ->
       last (urllib.dict_get "select" qs) = Some ftreq ->
       Qgs.features_matching layer ftreq = None ->
       parse_layer_spec unquote layerspec context true st
       = (inl (NoApplicableCode "Feature selection failed"),
          mkStore (parameters st) (layers st) (LOGGER st ++ records))).
Proof.
  intros Hu Hp Hl Hv qs records.
  assert (Hstart : urllib.dict_get "rect" qs ≠ [] ∨ urllib.dict_get "select" qs ≠ [] ->
            parse_layer_spec unquote layerspec context true st
            = ((log DEBUG "Applying features selection: %s" [ADict qs] ;;
                apply_selection p layer (urllib.dict_get "rect" qs)
                  (urllib.dict_get "select" qs)) ;;
               ret (p, true)) st).
  { intros Hne.
    rewrite (parse_layer_spec_resolved _ _ _ _ _ _ _ Hu Hp). simpl. fold qs.
    assert (Hb : bool_decide (urllib.dict_get "rect" qs = [])
                 && bool_decide (urllib.dict_get "select" qs = []) = false).
    { destruct Hne as [Hne|Hne]; rewrite (bool_decide_eq_false_2 _ Hne);
        [reflexivity|apply andb_false_r]. }
    rewrite Hb.
    unfold bind at 1, getMapLayer. rewrite Hl.
    rewrite (bool_decide_eq_true_2 _ Hv). reflexivity. }
  split.
  - intros rc Hrc. rewrite Hstart.
    + unfold apply_selection, bind, log, update_layer, ret, raise; simpl.
      rewrite Hrc. simpl. unfold records. now rewrite <- app_assoc.
    + left. intros Heq. rewrite Heq in Hrc. discriminate.
  - intros ftreq Hr Hreq HE. rewrite Hstart.
    + unfold apply_selection, bind, log, update_layer, ret, raise,
        Qgs.selectByExpression; simpl.
      rewrite Hr. simpl. rewrite Hreq. simpl. rewrite HE. simpl.
      unfold records. now rewrite <- app_assoc.
    + right. intros Heq. rewrite Heq in Hreq. discriminate.
Qed.

End FeatureSources.

(** ** Destination paths *)

Lemma rfind_None c s : Py.rfind c s = None -> Py.find c s = None.
Proof.
  induction s as [|a s IH]; simpl; [reflexivity|].
  destruct (Py.rfind c s); [discriminate|].
  case_bool_decide; [discriminate|]. intros _. now rewrite IH.
Qed.

Lemma rfind_Some c s i :
  Py.rfind c s = Some i -> Py.find c (Py.drop (S i) s) = None.
Proof.
  revert i. induction s as [|a s IH]; intros i; simpl; [discriminate|].
  destruct (Py.rfind c s) as [j|] eqn:Hj.
  - intros H. simplify_eq. now apply IH.
  - case_bool_decide; [|discriminate]. intros Heq. simplify_eq.
    destruct s; [reflexivity|]. now apply rfind_None.
Qed.

Lemma basename_no_slash p : Py.contains "/" (os_path.basename p) = false.
Proof.
  unfold os_path.basename, Py.contains.
  destruct (Py.rfind "/" p) as [i|] eqn:Hi.
  - now rewrite (rfind_Some _ _ _ Hi).
  - now rewrite (rfind_None _ _ Hi).
Qed.

Lemma split_no_separator c s : Py.find c s = None -> Py.split c s = [s].
Proof.
  induction s as [|a s IH]; simpl; [reflexivity|].
  case_bool_decide; [discriminate|].
  destruct (Py.find c s); [discriminate|]. intros _. now rewrite IH.
Qed.

Lemma find_None_rfind c s : Py.find c s = None -> Py.rfind c s = None.
Proof.
  induction s as [|a s IH]; simpl; [reflexivity|].
  case_bool_decide; [discriminate|].
  destruct (Py.find c s); [discriminate|]. intros _. now rewrite IH.
Qed.

(** A name without a slash is its own normal form and its own base name. *)
Lemma normalized_name_fixed v :
  Py.contains "/" v = false -> v ≠ EmptyString ->
  os_path.basename (os_path.normpath v) = v.
Proof.
  unfold Py.contains. destruct (Py.find "/" v) eqn:Hf; [discriminate|].
  intros _ Hne.
  assert (Hn : os_path.normpath v = v).
  { unfold os_path.normpath. rewrite (bool_decide_eq_false_2 _ Hne).
    assert (Hs : Py.startswith "/" v = false).
    { destruct v as [|a v]; [reflexivity|]. simpl in *.
      case_bool_decide as Ha; [discriminate|].
      rewrite bool_decide_eq_false_2 by congruence. reflexivity. }
    rewrite Hs, (split_no_separator _ _ Hf). simpl.
    rewrite (bool_decide_eq_false_2 _ Hne). simpl.
    destruct (decide (v = ".")) as [->|Hdot]; [reflexivity|].
    rewrite (bool_decide_eq_false_2 _ Hdot). simpl.
    destruct (decide (v = "..")) as [->|Hdd]; [reflexivity|].
    rewrite (bool_decide_eq_false_2 _ Hdd). simpl.
    now rewrite (bool_decide_eq_false_2 _ Hne). }
  rewrite Hn. unfold os_path.basename. now rewrite (find_None_rfind _ _ Hf).
Qed.

Section DestinationNames.

Variable unquote : string -> string.
Variable input_to_extent : InputValue -> M NativeValue.
Variable input_to_point : InputValue -> M NativeValue.
Variable input_to_file : InputValue -> Param.t -> ProcessingContext -> M NativeValue.

Abbreviation decode :=
  (input_to_processing unquote input_to_extent input_to_point input_to_file).

(** The decoding of a file or folder destination. *)
Lemma destination_decoded identifier param submitted rest context st :
  parameters st !! identifier = Some param ->
  dispatched_by_class (Param.cls param) = false ->
  Param.type param = "fileDestination" ∨ Param.type param = "folderDestination" ->
  let value := os_path.basename (os_path.normpath submitted) in
  decode identifier ({| data := Py.VStr submitted |} :: rest) context st =
    (inr (Param.name param, Value (Py.VStr value)),
     if bool_decide (value = submitted) then st
     else logged
            (mkLog WARNING
               "Value for file or folder destination '%s' has been truncated from '%s' to '%s'"
               [AStr identifier; AStr submitted; AStr value]) st).
Proof.
  intros Hparam Hcls Htyp value.
  destruct (isinstance_false_of_dispatched _ Hcls) as (H1 & H2 & H3 & H4).
  unfold input_to_processing. unfold bind at 1, parameterDefinition.
  rewrite Hparam, H1, H2, H3, H4.
  assert (Hbranch :
    bool_decide (Param.type param = "enum") = false
    ∧ bool_decide (Param.type param = "extent") = false
    ∧ bool_decide (Param.type param = "crs") = false
    ∧ bool_decide (Param.type param = "fileDestination")
      || bool_decide (Param.type param = "folderDestination") = true).
  { destruct Htyp as [-> | ->]; repeat split. }
  destruct Hbranch as (-> & -> & -> & ->).
  unfold bind, ret, as_str, first_input, log, logged; simpl. fold value.
  destruct (bool_decide (value = submitted)); reflexivity.
Qed.

(** X23: the name decoded for a file or folder destination never holds a
    slash, and unless it is empty it is stable: submitted again it decodes
    to itself and no truncation is logged. The name is empty when the
    single slash is submitted. *)
Theorem destination_name_is_a_base_name
    identifier param submitted rest context st :
  parameters st !! identifier = Some param ->
  dispatched_by_class (Param.cls param) = false ->
  Param.type param = "fileDestination" ∨ Param.type param = "folderDestination" ->
  ∃ name st',
    decode identifier ({| data := Py.VStr submitted |} :: rest) context st
    = (inr (Param.name param, Value (Py.VStr name)), st')
    ∧ Py.contains "/" name = false
    ∧ (name ≠ EmptyString ->
       decode identifier ({| data := Py.VStr name |} :: rest) context st
       = (inr (Param.name param, Value (Py.VStr name)), st))
    ∧ (submitted = "/" -> name = EmptyString).
Proof.
  intros Hparam Hcls Htyp.
  pose proof (destination_decoded identifier param submitted rest context st
                Hparam Hcls Htyp) as Hdec.
  eexists _, _. split; [exact Hdec|]. split; [apply basename_no_slash|]. split.
  - intros Hne.
    pose proof (destination_decoded identifier param
                  (os_path.basename (os_path.normpath submitted)) rest context st
                  Hparam Hcls Htyp) as Hdec'.
    simpl in Hdec'. rewrite Hdec'.
    rewrite (normalized_name_fixed _ (basename_no_slash _) Hne).
    now rewrite bool_decide_eq_true_2.
  - intros ->. reflexivity.
Qed.

End DestinationNames.

(** ** The encoder of output values *)

Section EncoderProperties.

Variable types_map : string -> option string.
Variable confservice_getboolean : string -> string -> bool.
Variable quote_plus : string -> string.
Variable store_url_format : string -> string.

Abbreviation encode :=
  (processing_to_output types_map quote_plus store_url_format).

(** X24: a file output delivered by reference gets the URL of its file
    name and keeps its file; delivered inline it gets a file and keeps its
    URL. The file is the name appended as it is written to the working
    directory, with a slash between the two unless the directory is empty or
    ends with one; an absolute name is taken as it is and the working
    directory ignored. Nothing is normalised or checked, so the name always
    ends the file, and a name that climbs with ".." leads out of the
    working directory. *)
Theorem output_file_location file_name context out st :
  (truth (Out.as_reference out) = inr true ->
   to_output_file store_url_format (Py.VStr file_name) context out st
   = (inr tt, set_url (store_url_format file_name) out, st))
  ∧ (truth (Out.as_reference out) = inr false ->
     let separator :=
       if bool_decide (workdir context = EmptyString)
          || Py.endswith "/" (workdir context)
       then EmptyString else "/" in
     let file :=
       if Py.startswith "/" file_name then file_name
       else workdir context +:+ separator +:+ file_name in
     to_output_file store_url_format (Py.VStr file_name) context out st
     = (inr tt, set_file file out, st)
     ∧ ∃ before, file = before +:+ file_name).
Proof.
  unfold to_output_file, wbind, wget, wlift, wset. split; intros H; rewrite H.
  - reflexivity.
  - unfold posixpath.join, path_of. split.
    + destruct (Py.startswith "/" file_name); [reflexivity|].
      destruct (_ || _); reflexivity.
    + destruct (Py.startswith "/" file_name).
      * now exists EmptyString.
      * eexists. symmetry. apply app_assoc_str.
Qed.

(** X25: encoding the file produced for a file output never fails for want
    of a MIME type: the type is looked up under the extension of the file
    name in lower case, and a name whose extension is unknown, or that has
    none, is given application/octet-stream and a warning. *)
Theorem file_output_mime_fallback outdef file_name output_uri context out st sfx b :
  Output.cls outdef = Qgs.QgsProcessingOutputFile ->
  lower_ascii (posixpath.splitext file_name).2 = inr sfx ->
  truth (Out.as_reference out) = inr b ->
  let mime :=
    match types_map sfx with Some m => m | None => "application/octet-stream" end in
  let located :=
    if b then set_url (store_url_format file_name)
    else set_file (posixpath.join (workdir context) file_name) in
  encode (Py.VStr file_name) outdef output_uri context out st
  = (inr tt, located (set_output_format mime out),
     match types_map sfx with
     | Some _ => st
     | None =>
         logged (mkLog WARNING "Cannot get file type for output %s: %s"
                   [AStr (Output.name outdef); AStr file_name]) st
     end).
Proof.
  intros Hcls Hsfx Hb mime located.
  unfold processing_to_output. rewrite Hcls. simpl.
  unfold wbind at 1, wlift at 1. simpl.
  unfold wbind at 1, wlift at 1. rewrite Hsfx.
  unfold to_output_file, wbind, wget, wlift, wset, wlog, wret. subst mime located.
  destruct (types_map sfx); simpl; rewrite Hb; destruct b; reflexivity.
Qed.

(** X26: an HTML output is delivered under the MIME type it is advertised
    with, the one the table has for .html, whatever the name of the file
    produced and its extension; the file is then located as any file
    output is. *)
Theorem html_output_format outdef file_name output_uri context alg out st mime b :
  Output.cls outdef = Qgs.QgsProcessingOutputHtml ->
  Output.type outdef ≠ "outputString" ->
  Output.type outdef ≠ "outputNumber" ->
  types_map ".html" = Some mime ->
  truth (Out.as_reference out) = inr b ->
  (∃ kwargs,
     parse_output_definition types_map confservice_getboolean outdef alg st
     = (inr (ComplexOutput kwargs), st)
     ∧ out_supported_formats kwargs = Some [Format_new (Some mime)])
  ∧ encode (Py.VStr file_name) outdef output_uri context out st
    = (inr tt,
       (if b then set_url (store_url_format file_name)
        else set_file (posixpath.join (workdir context) file_name))
         (set_output_format mime out), st).
Proof.
  intros Hcls Hs Hn Hmime Hb. split.
  - eexists. split.
    + unfold parse_output_definition, parse_literal_output, parse_layer_output,
        parse_file_output.
      rewrite Hcls, Hmime, !bool_decide_eq_false_2 by assumption. reflexivity.
    + reflexivity.
  - unfold processing_to_output. rewrite Hcls. simpl.
    unfold wbind at 1, wlift at 1. rewrite Hmime. simpl.
    unfold to_output_file, wbind, wget, wlift, wset, wlog, wret. simpl.
    rewrite Hb. destruct b; reflexivity.
Qed.

(** X27: whatever its outcome, encoding a value never changes the mode of
    the output object, writes to no parameter and no layer, and logs at
    most one record; it stores the value as inline data exactly for the
    outputs that are neither layer, HTML nor file outputs, and then does
    nothing else. *)
Theorem encoder_frame value outdef output_uri context out st r out' st' :
  encode value outdef output_uri context out st = (r, out', st') ->
  Out.as_reference out' = Out.as_reference out
  ∧ parameters st' = parameters st ∧ layers st' = layers st
  ∧ (LOGGER st' = LOGGER st ∨ ∃ record, LOGGER st' = (LOGGER st ++ [record])%list)
  ∧ (if isinstance (Output.cls outdef)
          [Qgs.QgsProcessingOutputVectorLayer; Qgs.QgsProcessingOutputRasterLayer;
           Qgs.QgsProcessingOutputHtml; Qgs.QgsProcessingOutputFile]
     then Out.data out' = Out.data out
     else r = inr tt ∧ out' = set_data value out ∧ st' = st).
Proof.
  unfold processing_to_output, to_output_file, urlencode1, isinstance.
  unfold wbind, wget, wlift, wset, wlog, wret, rbind, lookup_or_KeyError, logged.
  destruct (Output.cls outdef); simpl; intros H;
    repeat (case_match; simplify_eq; simpl in * );
    simplify_eq; simpl; repeat split; eauto.
Qed.

End EncoderProperties.

(** ** The further properties at sample inputs *)

Lemma translated_input_header_witness :
  ∃ inp, parse_input_definition Sample.types_map Cases.LABEL None = inr inp
         ∧ identifier (input_kwargs_of inp) = "AXIS_LABEL"
         ∧ title (input_kwargs_of inp) = "AXIS LABEL"
         ∧ abstract (input_kwargs_of inp) = "A label".
Proof.
  eexists. split; [reflexivity|].
  apply (translated_input_header Sample.types_map Cases.LABEL None). reflexivity.
Defined.

Lemma translated_input_metadata_witness :
  ∃ inp specific,
    parse_input_definition Sample.types_map Cases.LABEL None = inr inp
    ∧ metadata (input_kwargs_of inp)
      = (("processing:type", "string") :: specific
         ++ [("processing:meta:unit", "m")])%list.
Proof.
  eexists.
  destruct (translated_input_metadata Sample.types_map Cases.LABEL None _ eq_refl)
    as [specific H].
  exists specific. split; [reflexivity | exact H].
Defined.

Lemma unsupported_input_kinds_witness :
  recognized Sample.EXPRESSION = false
  ∧ parse_input_definition Sample.types_map Sample.EXPRESSION None
    = inl (ProcessingInputTypeNotSupported
             "<class 'qgis._core.QgsProcessingParameterExpression'>:'expression'").
Proof.
  split; [reflexivity|].
  apply (proj1 (unsupported_input_kinds Sample.types_map Sample.EXPRESSION None)).
  reflexivity.
Defined.

Lemma enum_default_python_index_witness :
  ∃ s inp,
    Param.options Cases.BANDS !! 2%nat = Some s
    ∧ parse_input_definition Sample.types_map
        (Sample.enum "BANDS" ["red"; "green"; "blue"] (Py.VInt (-1))) None = inr inp
    ∧ default (input_kwargs_of inp) = Py.VStr s.
Proof.
  apply (proj2 (proj2 (enum_default_python_index Sample.types_map
           (Sample.enum "BANDS" ["red"; "green"; "blue"] (Py.VInt (-1))) None
           eq_refl)) (-1) eq_refl).
  simpl. lia.
Defined.

Lemma boxed_default_witness :
  (∃ msg, parse_input_definition Sample.types_map Cases.BOXED None
          = inl (InvalidParameterValue msg))
  ∧ ∃ inp, parse_input_definition Sample.types_map Cases.LABEL None = inr inp
           ∧ default (input_kwargs_of inp) = Py.VStr "none".
Proof.
  split.
  - apply (proj1 (boxed_default Sample.types_map Cases.BOXED None) eq_refl).
    eexists. reflexivity.
  - eexists. split; [reflexivity|].
    apply (proj2 (boxed_default Sample.types_map Cases.LABEL None));
      [discriminate | reflexivity].
Defined.

Lemma translated_enum_witness :
  ∃ inp, parse_input_definition Sample.types_map Cases.BANDS None = inr inp
         ∧ max_occurs (input_kwargs_of inp) = Some 3
         ∧ (default (input_kwargs_of inp) = Py.VNone
            ∨ ∃ s, default (input_kwargs_of inp) = Py.VStr s
                   ∧ s ∈ Param.options Cases.BANDS).
Proof.
  eexists. split; [reflexivity|].
  destruct (translated_enum Sample.types_map Cases.BANDS None _ eq_refl eq_refl)
    as (_ & _ & _ & Hmax & Hdef).
  split; [exact Hmax | exact Hdef].
Defined.

Lemma multilayer_cardinality_witness :
  ∃ inp, parse_input_definition Sample.types_map Sample.LAYERS (Some Cases.project)
         = inr inp
         ∧ min_occurs (input_kwargs_of inp) = Some 2
         ∧ ∃ names, allowed_values (input_kwargs_of inp) = Some (Values names)
                    ∧ max_occurs (input_kwargs_of inp) = Some (Z.of_nat (length names)).
Proof.
  eexists. split; [reflexivity|].
  apply (multilayer_cardinality Sample.types_map Sample.LAYERS (Some Cases.project));
    reflexivity.
Defined.

Lemma allowed_layers_by_class_witness :
  ∃ inp, parse_input_definition Sample.types_map Cases.ELEVATION (Some Cases.project)
         = inr inp
         ∧ allowed_values (input_kwargs_of inp)
           = Some (Values (layer_names
                             (fun lyr => Qgs.layer_type lyr = Qgs.RasterLayer)
                             Cases.project))
         ∧ layer_names (fun lyr => Qgs.layer_type lyr = Qgs.RasterLayer) Cases.project
           = ["dem"].
Proof.
  eexists. split; [reflexivity|]. split; [|reflexivity].
  apply (proj1 (proj2 (allowed_layers_by_class Sample.types_map Cases.ELEVATION
                         Cases.project _ eq_refl eq_refl eq_refl)
                  (or_introl eq_refl))).
  reflexivity.
Defined.

Lemma output_translates_iff_recognized_witness :
  (∃ out st', parse_output_definition Sample.types_map (Sample.confservice true)
                Cases.table_output None Sample.store = (inr out, st'))
  ∧ parse_output_definition Sample.types_map (Sample.confservice true)
      Sample.layer_output None Sample.store
    = (inl (ProcessingOutputTypeNotSupported "outputLayer"), Sample.store).
Proof.
  split.
  - apply (proj1 (output_translates_iff_recognized Sample.types_map
             (Sample.confservice true) Cases.table_output None Sample.store)).
    reflexivity.
  - apply (proj2 (output_translates_iff_recognized Sample.types_map
             (Sample.confservice true) Sample.layer_output None Sample.store)).
    reflexivity.
Defined.

Lemma translated_output_header_witness :
  ∃ out st',
    parse_output_definition Sample.types_map (Sample.confservice true)
      Sample.html_output None Sample.store = (inr out, st')
    ∧ out_identifier (output_kwargs_of out) = "OUTPUT_HTML_FILE"
    ∧ out_title (output_kwargs_of out) = "Report"
    ∧ out_abstract (output_kwargs_of out) = "Report".
Proof.
  eexists _, _. split; [reflexivity|].
  destruct (translated_output_header Sample.types_map (Sample.confservice true)
              Sample.html_output None Sample.store _ _ eq_refl)
    as (H1 & H2 & H3 & _).
  auto.
Defined.

Lemma output_translation_frame_witness :
  ∃ r st',
    parse_output_definition Sample.types_map (Sample.confservice true)
      Cases.table_output None Sample.store = (r, st')
    ∧ (st' = Sample.store
       ∨ (st' = logged (mkLog WARNING "Cannot set file type for output %s"
                          [AStr "TABLE"]) Sample.store
          ∧ Output.cls Cases.table_output = Qgs.QgsProcessingOutputFile
          ∧ ∃ out, r = inr out
              ∧ out_supported_formats (output_kwargs_of out)
                = Some [Format_new (Some "application/octet-stream")])).
Proof.
  eexists _, _. split; [reflexivity|].
  apply (output_translation_frame Sample.types_map (Sample.confservice true)
           Cases.table_output None Sample.store). reflexivity.
Defined.

Lemma paired_file_output_witness :
  parse_output_definition Sample.types_map (Sample.confservice true)
    Cases.table_output (Some {["TABLE" := Cases.TABLE]}) Sample.store
  = (inr (ComplexOutput
            (mk_output "TABLE" "A table" "A table" None
               (Some [Format_new (Some "text/csv")]) (Some (Py.VBool false)))),
     Sample.store).
Proof.
  apply (paired_file_output Sample.types_map (Sample.confservice true)
           Cases.table_output {["TABLE" := Cases.TABLE]} Cases.TABLE "text/csv"
           Sample.store); try reflexivity; discriminate.
Defined.

Lemma enum_value_index_value_witness :
  (∃ j, Sample.decode "METHOD" [{| data := Py.VStr "nearest" |}]
          Sample.context Sample.store
        = (inr ("METHOD", Value (Py.VInt (Z.of_nat j))), Sample.store)
        ∧ Param.options Sample.METHOD !! j = Some "nearest"
        ∧ ∀ k, (k < j)%nat -> Param.options Sample.METHOD !! k ≠ Some "nearest")
  ∧ Sample.decode "METHOD" [{| data := Py.VStr "cubic" |}] Sample.context Sample.store
    = (inl ValueError, Sample.store).
Proof.
  split.
  - apply (proj1 (enum_value_index_value Sample.unquote Sample.input_to_extent
             Sample.input_to_point Sample.input_to_file "METHOD" Sample.METHOD
             (Py.VStr "nearest") Sample.context Sample.store
             eq_refl eq_refl eq_refl) "nearest" eq_refl).
    set_solver.
  - apply (proj2 (enum_value_index_value Sample.unquote Sample.input_to_extent
             Sample.input_to_point Sample.input_to_file "METHOD" Sample.METHOD
             (Py.VStr "cubic") Sample.context Sample.store
             eq_refl eq_refl eq_refl)).
    intros s [= <-] Hin. apply list_elem_of_In in Hin. simpl in Hin.
    intuition discriminate.
Defined.

Lemma enum_multiple_values_witness :
  ∃ js,
    Sample.decode "BANDS" [{| data := Py.VStr "blue" |}; {| data := Py.VStr "red" |}]
      Sample.context Cases.store
    = (inr ("BANDS", Value (Py.VList ((fun j => Py.VInt (Z.of_nat j)) <$> js))),
       Cases.store)
    ∧ Forall2 (fun d j => ∃ s, data d = Py.VStr s
                            ∧ Param.options Cases.BANDS !! j = Some s
                            ∧ ∀ k, (k < j)%nat -> Param.options Cases.BANDS !! k ≠ Some s)
        [{| data := Py.VStr "blue" |}; {| data := Py.VStr "red" |}] js.
Proof.
  apply (proj1 (proj1 (enum_multiple_values Sample.unquote Sample.input_to_extent
           Sample.input_to_point Sample.input_to_file "BANDS" Cases.BANDS
           [{| data := Py.VStr "blue" |}; {| data := Py.VStr "red" |}]
           Sample.context Cases.store eq_refl eq_refl eq_refl)
           eq_refl ltac:(simpl; lia))).
  repeat constructor; eexists; (split; [reflexivity|]); simpl; set_solver.
Defined.

Lemma registered_identifier_witness :
  (∀ name value st',
     Sample.decode "output" [{| data := Py.VStr "result" |}] Sample.context Cases.store
     = (inr (name, value), st') ->
     ∃ param, parameters Cases.store !! "output" = Some param
              ∧ name = Param.name param)
  ∧ Sample.decode "NOPE" [] Sample.context Cases.store
    = (inl AttributeError, Cases.store).
Proof.
  split.
  - apply (proj1 (registered_identifier Sample.unquote Sample.input_to_extent
             Sample.input_to_point Sample.input_to_file "output"
             [{| data := Py.VStr "result" |}] Sample.context Cases.store)).
  - apply (proj2 (registered_identifier Sample.unquote Sample.input_to_extent
             Sample.input_to_point Sample.input_to_file "NOPE" []
             Sample.context Cases.store)).
    reflexivity.
Defined.

Lemma empty_input_witness :
  Sample.decode "OUTPUT" [] Sample.context Sample.store
  = (inl IndexError,
     mkStore (<["OUTPUT" := Param.setSupportsNonFileBasedOutput false Sample.OUTPUT]>
                (parameters Sample.store))
       (layers Sample.store) (LOGGER Sample.store)).
Proof.
  apply (empty_input Sample.unquote Sample.input_to_extent Sample.input_to_point
           Sample.input_to_file "OUTPUT" Sample.OUTPUT Sample.context Sample.store);
    reflexivity.
Defined.

Lemma other_layer_inputs_witness :
  ∃ vs,
    Sample.decode "LAYERS" [{| data := Py.VStr "layer:a" |}; {| data := Py.VStr "layer:b" |}]
      Sample.context Cases.store
    = (inr ("LAYERS", Value (Py.VList [Py.VStr "a"; Py.VStr "b"])), Cases.store)
    ∧ Value (Py.VList [Py.VStr "a"; Py.VStr "b"]) = Value (Py.VList vs)
    ∧ Forall2 (spec_resolves Sample.context)
        [{| data := Py.VStr "layer:a" |}; {| data := Py.VStr "layer:b" |}] vs.
Proof.
  destruct (other_layer_inputs Sample.unquote Sample.input_to_extent
              Sample.input_to_point Sample.input_to_file "LAYERS" Sample.LAYERS
              [{| data := Py.VStr "layer:a" |}; {| data := Py.VStr "layer:b" |}]
              Sample.context Cases.store _ _ eq_refl eq_refl eq_refl eq_refl)
    as [_ H].
  destruct (H _ eq_refl) as (vs & Hvs & Hall).
  exists vs. split; [reflexivity|]. split; assumption.
Defined.

Lemma feature_source_without_selection_witness :
  layers Sample.store !! "parcels" = None
  ∧ Sample.decode "INPUT" [{| data := Py.VStr "layer:parcels" |}]
      Sample.context Sample.store
    = (inr ("INPUT", QgsProcessingFeatureSourceDefinition "parcels" false),
       Sample.store).
Proof.
  split; [reflexivity|].
  apply (feature_source_without_selection Sample.unquote Sample.input_to_extent
           Sample.input_to_point Sample.input_to_file "INPUT" Sample.INPUT
           "layer:parcels" [] Sample.context
           (urllib.mkParseResult "layer" EmptyString "parcels" EmptyString
              EmptyString EmptyString) "parcels" Sample.store);
    try reflexivity.
  right. split; [left|]; reflexivity.
Defined.

Lemma selection_on_missing_layer_witness :
  Sample.decode "INPUT" [{| data := Py.VStr "layer:parcels?select=area>1" |}]
    Sample.context Sample.store
  = (inl (InvalidParameterValue "No layer 'parcels' found"),
     logged (mkLog ERROR "No layer path for url %s"
               [AUrl (urllib.mkParseResult "layer" EmptyString "parcels" EmptyString
                        "select=area>1" EmptyString)]) Sample.store).
Proof.
  apply (selection_on_missing_layer Sample.unquote Sample.input_to_extent
           Sample.input_to_point Sample.input_to_file "INPUT" Sample.INPUT
           "layer:parcels?select=area>1" [] Sample.context
           (urllib.mkParseResult "layer" EmptyString "parcels" EmptyString
              "select=area>1" EmptyString) "parcels" Sample.store);
    try reflexivity.
  - right. split; [left|]; reflexivity.
  - right. vm_compute. discriminate.
Defined.

Lemma failed_selection_witness :
  parse_layer_spec Sample.unquote "layer:roads?rect=0,0,10,10" Sample.context true
    Sample.store
  = (inl (NoApplicableCode "Feature selection failed"),
     mkStore (parameters Sample.store) (layers Sample.store)
       (LOGGER Sample.store
        ++ [mkLog DEBUG "Applying features selection: %s"
              [ADict [("rect", ["0,0,10,10"])]];
            mkLog ERROR traceback_format_exc []]))
  ∧ parse_layer_spec Sample.unquote "layer:roads?select=lanes>2" Sample.context true
      Sample.store
    = (inl (NoApplicableCode "Feature selection failed"),
       mkStore (parameters Sample.store) (layers Sample.store)
         (LOGGER Sample.store
          ++ [mkLog DEBUG "Applying features selection: %s"
                [ADict [("select", ["lanes>2"])]];
              mkLog ERROR traceback_format_exc []])).
Proof.
  split.
  - apply (proj1 (failed_selection Sample.unquote "layer:roads?rect=0,0,10,10"
             Sample.context
             (urllib.mkParseResult "layer" EmptyString "roads" EmptyString
                "rect=0,0,10,10" EmptyString)
             "roads" Sample.roads Sample.store
             eq_refl (or_intror (conj (or_introl eq_refl) eq_refl))
             eq_refl eq_refl) "0,0,10,10").
    reflexivity.
  - apply (proj2 (failed_selection Sample.unquote "layer:roads?select=lanes>2"
             Sample.context
             (urllib.mkParseResult "layer" EmptyString "roads" EmptyString
                "select=lanes>2" EmptyString)
             "roads" Sample.roads Sample.store
             eq_refl (or_intror (conj (or_introl eq_refl) eq_refl))
             eq_refl eq_refl) "lanes>2"); reflexivity.
Defined.

Lemma parse_layer_spec_frame_witness :
  ∃ r st',
    parse_layer_spec Sample.unquote "layer:roads?rect=0,0,10,10&select=speed>50"
      Sample.context true Sample.store = (r, st')
    ∧ parameters st' = parameters Sample.store
    ∧ (∃ more, LOGGER st' = (LOGGER Sample.store ++ more)%list)
    ∧ same_layers_up_to_selection (layers Sample.store) (layers st').
Proof.
  destruct (parse_layer_spec Sample.unquote
              "layer:roads?rect=0,0,10,10&select=speed>50" Sample.context true
              Sample.store) as [r st'] eqn:H.
  exists r, st'. split; [reflexivity|].
  destruct (parse_layer_spec_frame Sample.unquote
              "layer:roads?rect=0,0,10,10&select=speed>50" Sample.context true
              Sample.store r st' H) as (H1 & H2 & H3 & _).
  split; [exact H1|]. split; [exact H2 | exact H3].
Defined.

Lemma destination_name_is_a_base_name_witness :
  ∃ name st',
    Sample.decode "REPORT" [{| data := Py.VStr "/" |}] Sample.context Sample.store
    = (inr ("REPORT", Value (Py.VStr name)), st')
    ∧ Py.contains "/" name = false
    ∧ name = EmptyString.
Proof.
  destruct (destination_name_is_a_base_name Sample.unquote Sample.input_to_extent
              Sample.input_to_point Sample.input_to_file "REPORT" Sample.REPORT
              "/" [] Sample.context Sample.store eq_refl eq_refl
              (or_introl eq_refl)) as (name & st' & H1 & H2 & _ & H4).
  exists name, st'. split; [exact H1|]. split; [exact H2|]. exact (H4 eq_refl).
Defined.

Lemma output_file_location_witness :
  to_output_file Cases.store_url_format (Py.VStr "table.csv") Sample.context
    Cases.by_reference Sample.store
  = (inr tt, set_url "http://localhost/store/table.csv" Cases.by_reference, Sample.store)
  ∧ to_output_file Cases.store_url_format (Py.VStr "/etc/passwd") Sample.context
      Cases.inline Sample.store
    = (inr tt, set_file "/etc/passwd" Cases.inline, Sample.store)
  ∧ to_output_file Cases.store_url_format (Py.VStr "../../etc/passwd") Sample.context
      Cases.inline Sample.store
    = (inr tt, set_file "/srv/data/work/../../etc/passwd" Cases.inline, Sample.store)
  ∧ os_path.normpath "/srv/data/work/../../etc/passwd" = "/srv/etc/passwd".
Proof.
  split; [|split; [|split]].
  - apply (proj1 (output_file_location Cases.store_url_format "table.csv"
                    Sample.context Cases.by_reference Sample.store)). reflexivity.
  - exact (proj1 (proj2 (output_file_location Cases.store_url_format "/etc/passwd"
                           Sample.context Cases.inline Sample.store) eq_refl)).
  - exact (proj1 (proj2 (output_file_location Cases.store_url_format
                           "../../etc/passwd" Sample.context Cases.inline
                           Sample.store) eq_refl)).
  - reflexivity.
Defined.

Lemma file_output_mime_fallback_witness :
  processing_to_output Sample.types_map Cases.quote_plus Cases.store_url_format
    (Py.VStr "TABLE.CSV") Cases.table_output "http://localhost/ows?map=p" Sample.context
    Cases.by_reference Sample.store
  = (inr tt,
     set_url "http://localhost/store/TABLE.CSV"
       (set_output_format "text/csv" Cases.by_reference), Sample.store)
  ∧ processing_to_output Sample.types_map Cases.quote_plus Cases.store_url_format
      (Py.VStr "table.xyz") Cases.table_output "http://localhost/ows?map=p"
      Sample.context Cases.inline Sample.store
    = (inr tt,
       set_file "/srv/data/work/table.xyz"
         (set_output_format "application/octet-stream" Cases.inline),
       logged (mkLog WARNING "Cannot get file type for output %s: %s"
                 [AStr "TABLE"; AStr "table.xyz"]) Sample.store).
Proof.
  split.
  - apply (file_output_mime_fallback Sample.types_map Cases.quote_plus
             Cases.store_url_format Cases.table_output "TABLE.CSV"
             "http://localhost/ows?map=p" Sample.context Cases.by_reference
             Sample.store ".csv" true); reflexivity.
  - apply (file_output_mime_fallback Sample.types_map Cases.quote_plus
             Cases.store_url_format Cases.table_output "table.xyz"
             "http://localhost/ows?map=p" Sample.context Cases.inline
             Sample.store ".xyz" false); reflexivity.
Defined.

Lemma html_output_format_witness :
  (∃ kwargs,
     parse_output_definition Sample.types_map (Sample.confservice true)
       Sample.html_output None Sample.store = (inr (ComplexOutput kwargs), Sample.store)
     ∧ out_supported_formats kwargs = Some [Format_new (Some "text/html")])
  ∧ processing_to_output Sample.types_map Cases.quote_plus Cases.store_url_format
      (Py.VStr "report.txt") Sample.html_output "http://localhost/ows?map=p"
      Sample.context Cases.by_reference Sample.store
    = (inr tt,
       set_url "http://localhost/store/report.txt"
         (set_output_format "text/html" Cases.by_reference), Sample.store).
Proof.
  apply (html_output_format Sample.types_map (Sample.confservice true)
           Cases.quote_plus Cases.store_url_format Sample.html_output
           "report.txt" "http://localhost/ows?map=p" Sample.context None
           Cases.by_reference Sample.store "text/html" true);
    try reflexivity; discriminate.
Defined.

Lemma encoder_frame_witness :
  ∃ r out' st',
    processing_to_output Sample.types_map Cases.quote_plus Cases.store_url_format
      (Py.VStr "roads") Sample.layer_output "http://localhost/ows?map=p"
      Sample.context Cases.inline Sample.store = (r, out', st')
    ∧ r = inr tt ∧ out' = set_data (Py.VStr "roads") Cases.inline
    ∧ st' = Sample.store.
Proof.
  eexists _, _, _. split; [reflexivity|].
  destruct (encoder_frame Sample.types_map Cases.quote_plus Cases.store_url_format
              (Py.VStr "roads") Sample.layer_output "http://localhost/ows?map=p"
              Sample.context Cases.inline Sample.store _ _ _ eq_refl)
    as (_ & _ & _ & _ & H).
  exact H.
Defined.

(** ** The shape of a translated input *)

Section InputShape.

Variable types_map : string -> option string.

(** The matcher that produced the input of a parameter: the first, in the
    order literal, layer, extent, file, point, that recognizes it. *)
Lemma parse_input_definition_first_match param context inp :
  parse_input_definition types_map param context = inr inp ->
  ∃ kwargs inp0,
    inp = with_kwargs (parse_metadata param) inp0
    ∧ (parse_literal_input param kwargs = inr (Some inp0)
       ∨ (literal_kind (Param.type param) = false
          ∧ (parse_layer_input param kwargs context = inr (Some inp0)
             ∨ (layer_class (Param.cls param) = false
                ∧ (parse_extent_input param kwargs = inr (Some inp0)
                   ∨ (parse_extent_input param kwargs = inr None
                      ∧ (parse_file_input types_map param kwargs = inr (Some inp0)
                         ∨ (parse_file_input types_map param kwargs = inr None
                            ∧ parse_point_input param kwargs = inr (Some inp0))))))))).
Proof.
  unfold parse_input_definition.
  set (kwargs := if _is_optional param then _ else _). clearbody kwargs.
  unfold rbind, or_else. intros H. exists kwargs.
  destruct (parse_literal_input param kwargs) as [e|[i1|]] eqn:H1;
    [discriminate|simplify_eq; eauto|].
  apply parse_literal_input_None in H1.
  destruct (parse_layer_input param kwargs context) as [e|[i2|]] eqn:H2;
    [discriminate|simplify_eq; eauto 8|].
  apply parse_layer_input_None in H2.
  destruct (parse_extent_input param kwargs) as [e|[i3|]] eqn:H3;
    [discriminate|simplify_eq; eauto 10|].
  destruct (parse_file_input types_map param kwargs) as [e|[i4|]] eqn:H4;
    [discriminate|simplify_eq; eauto 12|].
  destruct (parse_point_input param kwargs) as [e|[i5|]] eqn:H5;
    [discriminate|simplify_eq; eauto 14|].
  discriminate.
Qed.

Lemma shape_of_metadata param inp :
  shape_of param inp -> shape_of param (with_kwargs (parse_metadata param) inp).
Proof. destruct inp; exact id. Qed.

(** X28: layers, destinations and the literal kinds travel as literal
    inputs, each with a data type. A bounding box input comes from the
    extent kind only, always with EPSG:4326 as its one reference system; a
    complex input comes only from a file parameter that takes a file, or
    from a point parameter, which accepts GeoJSON and GML. *)
Theorem input_shape param context inp :
  parse_input_definition types_map param context = inr inp ->
  match inp with
  | LiteralInput k => ∃ t, data_type k = Some t
  | BoundingBoxInput k =>
      Param.type param = "extent" ∧ crss k = Some ["EPSG:4326"]
      ∧ literal_kind (Param.type param) = false
      ∧ layer_class (Param.cls param) = false
  | ComplexInput k =>
      literal_kind (Param.type param) = false
      ∧ layer_class (Param.cls param) = false
      ∧ ((Param.type param = "file" ∧ Param.behavior param = Qgs.File)
         ∨ (isinstance (Param.cls param) [Qgs.QgsProcessingParameterPoint] = true
            ∧ supported_formats k
              = Some [from_definition GEOJSON; from_definition GML]))
  end.
Proof.
  intros H. change (shape_of param inp).
  destruct (parse_input_definition_first_match _ _ _ H)
    as (kwargs & inp0 & -> & Hm).
  clear H. apply shape_of_metadata.
  destruct Hm as [H1|[Hlit [H2|[Hlay [H3|[_ [H4|[_ H5]]]]]]]].
  - unfold parse_literal_input, lookup_or_KeyError, enum_default,
      getitem_or_IndexError, rbind in H1.
    repeat (case_bool_decide || case_match); simplify_eq; simpl; eauto.
  - unfold parse_layer_input, parse_allowed_layers, lookup_or_KeyError, rbind in H2.
    repeat (case_bool_decide || case_match); simplify_eq; simpl; eauto.
  - unfold parse_extent_input in H3. case_bool_decide; simplify_eq. simpl. auto.
  - unfold parse_file_input in H4.
    repeat (case_bool_decide || case_match); simplify_eq; simpl; eauto.
  - unfold parse_point_input in H5.
    destruct (isinstance _ _) eqn:Hp; simplify_eq. simpl. auto.
Qed.

End InputShape.

Lemma input_shape_witness :
  ∃ k, parse_input_definition Sample.types_map
         (Sample.parameter
            (Qgs.QgsProcessingParameterDefinition "qgis._core.QgsProcessingParameterExtent")
            "extent" "EXTENT" 0) None = inr (BoundingBoxInput k)
       ∧ crss k = Some ["EPSG:4326"].
Proof.
  eexists. split; [reflexivity|].
  exact (proj1 (proj2 (input_shape Sample.types_map
           (Sample.parameter
              (Qgs.QgsProcessingParameterDefinition
                 "qgis._core.QgsProcessingParameterExtent") "extent" "EXTENT" 0)
           None _ eq_refl))).
Defined.
